(** * stack-metrics: a shallow embedding of [lib/stack-metrics.js]

    The library buffers metric values in memory and flushes them to
    Stackdriver Monitoring.  This development embeds the two classes of
    [lib/stack-metrics.js] ([StackMetric], the handle, and [StackMetrics],
    the instance) and proves properties of the write path and of the
    flush cycle.

    Conventions.
    - JavaScript numbers are IEEE-754 binary64: they are Rocq's primitive
      floats, so [+], [-], [*], [/] and [>] are the machine operations.
    - A JavaScript value that the library stores or receives is a [jsval]:
      [undefined], a boolean or a number (the metric kinds are INT64, BOOL
      and DOUBLE; strings and objects are never written as metric values).
    - Mutation is explicit state passing.  A method of [StackMetrics] is a
      function from the instance to a completion (normal value or thrown
      exception), the instance as the method left it, and the calls made
      to the monitoring client, in order.  State changes made before a
      [throw] persist, as they do in JavaScript.
    - The monitoring client is the environment: a record of functions
      giving, for one flush cycle, the outcome of each request.
    - A method runs to its end without interleaving: writes arriving while
      a flush awaits the client are outside this model, and so are the
      callbacks of the interval timer that overlap ([setInterval] does not
      wait for the flush of the tick before).  A flush is a call of
      [sendValues]; the timer's callback is modelled as one run on its
      own. *)

From Stdlib Require Import String Ascii List Bool Arith Lia Floats.
Import ListNotations.
Open Scope string_scope.

Set Implicit Arguments.

(* ------------------------------------------------------------------ *)
(** ** JavaScript values and operators *)

Module JS.

Inductive jsval : Type :=
| JUndefined
| JBool (b : bool)
| JNum (x : float).

(** ECMAScript [ToNumber] on these values. *)
Definition ToNumber (v : jsval) : float :=
  match v with
  | JUndefined => nan
  | JBool true => 1%float
  | JBool false => 0%float
  | JNum x => x
  end.

(** ECMAScript [ToBoolean]: what [if (v)] and [!v] test. *)
Definition ToBoolean (v : jsval) : bool :=
  match v with
  | JUndefined => false
  | JBool b => b
  | JNum x => negb (is_zero x || is_nan x)
  end.

(** [a + b] when neither operand is a string. *)
Definition add (a b : jsval) : jsval := JNum (ToNumber a + ToNumber b)%float.

(** [a / d] and [a * b], with [d] already a number. *)
Definition div (a : jsval) (d : float) : float := (ToNumber a / d)%float.
Definition mul (v : float) (b : jsval) : float := (v * ToNumber b)%float.

(** [v !== undefined] *)
Definition is_defined (v : jsval) : bool :=
  match v with
  | JUndefined => false
  | _ => true
  end.

(** What a statement can do: complete normally or throw. *)
Inductive exn : Type :=
| TypeError (msg : string)   (* reading a property of [undefined] *)
| Error (msg : string)       (* [new Error(msg)] *)
| Rejected (reason : string) (* a promise of the client rejected, the
                                reason being an object or a primitive
                                other than [undefined] and [null] *)
| RejectedNullish (null : bool)
                             (* a promise of the client rejected with
                                [null] or with [undefined] *).

Inductive completion (A : Type) : Type :=
| Normal (a : A)
| Throw (e : exn).
Arguments Throw {A} e.

(** [Promise.all]: the values when every promise fulfils, else the
    first rejection. *)
Fixpoint Promise_all {A} (ps : list (completion A)) : completion (list A) :=
  match ps with
  | [] => Normal []
  | Throw e :: _ => Throw e
  | Normal a :: rest =>
      match Promise_all rest with
      | Normal l => Normal (a :: l)
      | Throw e => Throw e
      end
  end.

(** [s.split(sep)] for a one-character separator. *)
Fixpoint split (sep : ascii) (s : string) : list string :=
  match s with
  | EmptyString => [EmptyString]
  | String c rest =>
      if Ascii.eqb c sep then EmptyString :: split sep rest
      else match split sep rest with
           | [] => [String c EmptyString]
           | seg :: segs => String c seg :: segs
           end
  end.

(** [arr.pop()] on an array of strings, as a value: the last element. *)
Definition pop (arr : list string) : string := List.last arr EmptyString.

(** A [Map] with string keys: entries in insertion order; [set] on a
    present key replaces the value where the key stands. *)
Section Map.
Variable V : Type.

Definition Map := list (string * V).

Fixpoint Map_get (k : string) (m : Map) : option V :=
  match m with
  | [] => None
  | (k', v) :: rest => if String.eqb k' k then Some v else Map_get k rest
  end.

Fixpoint Map_set (k : string) (v : V) (m : Map) : Map :=
  match m with
  | [] => [(k, v)]
  | (k', v') :: rest =>
      if String.eqb k' k then (k, v) :: rest
      else (k', v') :: Map_set k v rest
  end.

Definition Map_values (m : Map) : list V := map snd m.

(** [m.get(k).field = ...]: the object stored under [k] is changed
    where it is. *)
Fixpoint Map_mutate (k : string) (f : V -> V) (m : Map) : Map :=
  match m with
  | [] => []
  | (k', v) :: rest =>
      if String.eqb k' k then (k', f v) :: rest
      else (k', v) :: Map_mutate k f rest
  end.

(** [Array.from(m.values()).forEach(v => ...)] where the body changes
    fields of [v]. *)
Definition Map_forEach (f : V -> V) (m : Map) : Map :=
  map (fun kv => (fst kv, f (snd kv))) m.
End Map.

End JS.
Import JS.

(* ------------------------------------------------------------------ *)
(** ** The data of [lib/stack-metrics.js] *)

Record Label : Type := mkLabel {
  key : string;
  label_valueType : string;
  label_description : string
}.

(** A metric descriptor of the Monitoring API. *)
Record Descriptor : Type := mkDescriptor {
  description : string;
  displayName : string;
  type : string;
  metricKind : string;
  desc_valueType : string;
  labels : list Label
}.

(** An entry of [metricsMap]. *)
Record Metric : Type := mkMetric {
  name : string;
  valueType : string;
  requestDescriptor : Descriptor;
  responseDescriptor : option Descriptor;  (* [None] is [undefined] *)
  rateInterval : jsval;
  value : jsval
}.

Definition set_value (v : jsval) (m : Metric) : Metric :=
  mkMetric (name m) (valueType m) (requestDescriptor m)
           (responseDescriptor m) (rateInterval m) v.

Definition set_responseDescriptor (d : Descriptor) (m : Metric) : Metric :=
  mkMetric (name m) (valueType m) (requestDescriptor m)
           (Some d) (rateInterval m) (value m).

(** The fields of a [StackMetrics] instance that the methods read and
    write (the client is the environment, see below). *)
Record StackMetrics : Type := mkStackMetrics {
  projectId : string;
  appName : string;
  envName : string;
  metricGroupName : string;
  prevSendTimestamp : float;
  metricsMap : Map Metric
}.

Definition set_metricsMap (mm : Map Metric) (self : StackMetrics) : StackMetrics :=
  mkStackMetrics (projectId self) (appName self) (envName self)
                 (metricGroupName self) (prevSendTimestamp self) mm.

Definition set_prevSendTimestamp (t : float) (self : StackMetrics) : StackMetrics :=
  mkStackMetrics (projectId self) (appName self) (envName self)
                 (metricGroupName self) t (metricsMap self).

(** The handle [StackMetric]: a metric name and a local count.  Its
    [_stackMetrics] field is the instance the methods below are run on. *)
Record StackMetric : Type := mkStackMetric {
  _metricName : string;
  _count : jsval
}.

Definition VALUE_TYPE_INT64 := "INT64".
Definition VALUE_TYPE_BOOL := "BOOL".
Definition VALUE_TYPE_DOUBLE := "DOUBLE".

Definition TYPE_INT64 := "INT64".
Definition TYPE_BOOL := "BOOL".
Definition TYPE_DOUBLE := "DOUBLE".
Definition TYPE_RATE_PER_SECOND := "RATE_PER_SECOND".
Definition TYPE_RATE_PER_MINUTE := "RATE_PER_MINUTE".
Definition TYPE_RATE_PER_HOUR := "RATE_PER_HOUR".
Definition TYPE_RATE_PER_DAY := "RATE_PER_DAY".

(** The seven metric types of the library. *)
Definition known_types : list string :=
  [TYPE_INT64; TYPE_BOOL; TYPE_DOUBLE; TYPE_RATE_PER_SECOND;
   TYPE_RATE_PER_MINUTE; TYPE_RATE_PER_HOUR; TYPE_RATE_PER_DAY].

(* ------------------------------------------------------------------ *)
(** ** Static helpers *)

Definition _getValueTypeForMetricType (metricType : string) : completion string :=
  if metricType =? TYPE_INT64 then Normal VALUE_TYPE_INT64
  else if metricType =? TYPE_BOOL then Normal VALUE_TYPE_BOOL
  else if metricType =? TYPE_DOUBLE then Normal VALUE_TYPE_DOUBLE
  else if metricType =? TYPE_RATE_PER_SECOND then Normal VALUE_TYPE_DOUBLE
  else if metricType =? TYPE_RATE_PER_MINUTE then Normal VALUE_TYPE_DOUBLE
  else if metricType =? TYPE_RATE_PER_HOUR then Normal VALUE_TYPE_DOUBLE
  else if metricType =? TYPE_RATE_PER_DAY then Normal VALUE_TYPE_DOUBLE
  else Throw (Error "Unknown metricType").

Definition _getRateIntervalForMetricType (metricType : string) : jsval :=
  if metricType =? TYPE_RATE_PER_SECOND then JNum 1000
  else if metricType =? TYPE_RATE_PER_MINUTE then JNum (1000 * 60)
  else if metricType =? TYPE_RATE_PER_HOUR then JNum (1000 * 3600)
  else if metricType =? TYPE_RATE_PER_DAY then JNum (1000 * 3600 * 24)
  else JUndefined.

(** [type.split('/').pop()] *)
Definition _getMetricName (ty : string) : string := pop (split "/" ty).

(* ------------------------------------------------------------------ *)
(** ** The monitoring client and the effect of a method *)

Record CreateMetricDescriptorRequest : Type := mkDescriptorRequest {
  dr_name : string;
  metricDescriptor : Descriptor
}.

Inductive TypedValue : Type :=
| int64Value (v : jsval)
| doubleValue (v : jsval)
| boolValue (v : jsval).

(** [{interval: {endTime: {seconds}}, value}] *)
Record Point : Type := mkPoint {
  seconds : float;
  point_value : TypedValue
}.

(** [{metric: {type, labels}, resource: {type, labels}, points}] *)
Record TimeSeries : Type := mkTimeSeries {
  metric_type : string;
  metric_appName : string;
  metric_envName : string;
  resource_type : string;
  resource_project_id : string;
  points : list Point
}.

Record CreateTimeSeriesRequest : Type := mkTimeSeriesRequest {
  tr_name : string;
  timeSeries : list TimeSeries
}.

(** What [createTimeSeries] resolves to; the library only hands it back. *)
Definition Results := string.

(** [this.client] during one flush cycle: how each request is answered.
    [createMetricDescriptor] resolves to [[descriptor]]; the record keeps
    the descriptor. *)
Record Client : Type := mkClient {
  projectPath : string -> string;
  createMetricDescriptor : CreateMetricDescriptorRequest -> completion Descriptor;
  createTimeSeries : CreateTimeSeriesRequest -> completion Results
}.

(** A request sent to the client. *)
Inductive Call : Type :=
| CreateMetricDescriptor (req : CreateMetricDescriptorRequest)
| CreateTimeSeries (req : CreateTimeSeriesRequest).

(** A method body: from the instance to its completion, the instance
    afterwards and the requests it sent. *)
Definition Eff (A : Type) : Type :=
  StackMetrics -> completion A * StackMetrics * list Call.

Definition ret {A} (a : A) : Eff A := fun self => (Normal a, self, []).

Definition throw {A} (e : exn) : Eff A := fun self => (Throw e, self, []).

Definition bind {A B} (m : Eff A) (k : A -> Eff B) : Eff B :=
  fun self =>
    match m self with
    | (Normal a, self', calls) =>
        match k a self' with
        | (r, self'', calls') => (r, self'', (calls ++ calls')%list)
        end
    | (Throw e, self', calls) => (Throw e, self', calls)
    end.

(** [try { body } catch (e) { handler(e) }] *)
Definition try_catch {A} (body : Eff A) (handler : exn -> Eff A) : Eff A :=
  fun self =>
    match body self with
    | (Normal a, self', calls) => (Normal a, self', calls)
    | (Throw e, self', calls) =>
        match handler e self' with
        | (r, self'', calls') => (r, self'', (calls ++ calls')%list)
        end
    end.

Definition this : Eff StackMetrics := fun self => (Normal self, self, []).

Definition assign (f : StackMetrics -> StackMetrics) : Eff unit :=
  fun self => (Normal tt, f self, []).

(** Lift a completion that touches no state. *)
Definition complete {A} (c : completion A) : Eff A := fun self => (c, self, []).

(** Send requests: the calls are recorded, the outcome is the client's. *)
Definition await {A} (calls : list Call) (outcome : completion A) : Eff A :=
  fun self => (outcome, self, calls).

Declare Scope eff_scope.
Delimit Scope eff_scope with eff.
Notation "x <- m ;; k" := (bind m (fun x => k))
  (at level 100, m at next level, right associativity) : eff_scope.
Notation "m ;; k" := (bind m (fun _ => k))
  (at level 100, right associativity) : eff_scope.
Open Scope eff_scope.

(** [arr.map(f)] where [f] may throw: stops at the first throw. *)
Fixpoint map_throwing {A B} (f : A -> completion B) (l : list A) : completion (list B) :=
  match l with
  | [] => Normal []
  | a :: rest =>
      match f a with
      | Throw e => Throw e
      | Normal b =>
          match map_throwing f rest with
          | Throw e => Throw e
          | Normal bs => Normal (b :: bs)
          end
      end
  end.

(* ------------------------------------------------------------------ *)
(** ** [StackMetrics]: creating and writing metrics *)

Definition setStartTimestamp (timestamp : float) : Eff unit :=
  assign (set_prevSendTimestamp timestamp).

Definition default_labels : list Label :=
  [ mkLabel "appName" "STRING" "Application name";
    mkLabel "envName" "STRING" "Environment (prod, stage, ...)" ].

Definition createMetric (metricName metricDescription metricType : string)
  : Eff StackMetric :=
  self <- this ;;
  let displayName :=
    if metricGroupName self =? appName self
    then appName self ++ "." ++ metricName
    else metricName in
  descValueType <- complete (_getValueTypeForMetricType metricType) ;;
  let descriptor :=
    mkDescriptor metricDescription displayName
      ("custom.googleapis.com/" ++ metricGroupName self ++ "/" ++ metricName)
      "GAUGE" descValueType default_labels in
  let rateInterval := _getRateIntervalForMetricType metricType in
  valueType <- complete (_getValueTypeForMetricType metricType) ;;
  assign (fun self =>
    set_metricsMap
      (Map_set metricName
         (mkMetric metricName valueType descriptor None rateInterval
            (if is_defined rateInterval then JNum 0 else JUndefined))
         (metricsMap self))
      self) ;;
  ret (mkStackMetric metricName (JNum 0)).

Definition writeMetric (metricName : string) (v : jsval) : Eff unit :=
  self <- this ;;
  match Map_get metricName (metricsMap self) with
  | None =>
      throw (TypeError "Cannot read properties of undefined (reading 'rateInterval')")
  | Some metric =>
      if ToBoolean (rateInterval metric) then
        (* Metric is a Rate-type *)
        assign (fun self =>
          set_metricsMap
            (Map_mutate metricName (fun m => set_value (JS.add (value m) v) m)
               (metricsMap self)) self)
      else
        (* Metric is a value type *)
        assign (fun self =>
          set_metricsMap
            (Map_mutate metricName (set_value v) (metricsMap self)) self)
  end.

(* ------------------------------------------------------------------ *)
(** ** [StackMetric]: the handle

    A handle method changes the handle and runs a method of the
    instance: it returns the handle afterwards with the instance's
    effect. *)

Definition writeCount (h : StackMetric) (delta : jsval) : StackMetric * Eff unit :=
  let h' := mkStackMetric (_metricName h) (JS.add (_count h) delta) in
  (h', writeMetric (_metricName h') (_count h')).

Definition writeRate (h : StackMetric) (delta : jsval) : StackMetric * Eff unit :=
  (h, writeMetric (_metricName h) delta).

Definition write (h : StackMetric) (v : jsval) : StackMetric * Eff unit :=
  (h, writeMetric (_metricName h) v).

(** A sequence of calls of one handle method, stopping at a throw. *)
Fixpoint repeat_calls (method : StackMetric -> jsval -> StackMetric * Eff unit)
    (h : StackMetric) (args : list jsval) (self : StackMetrics)
  : completion unit * StackMetric * StackMetrics :=
  match args with
  | [] => (Normal tt, h, self)
  | a :: rest =>
      let (h', body) := method h a in
      match body self with
      | (Normal _, self', _) => repeat_calls method h' rest self'
      | (Throw e, self', _) => (Throw e, h', self')
      end
  end.

(* ------------------------------------------------------------------ *)
(** ** [StackMetrics]: the flush cycle *)

(** [arr.forEach(f)] where [f] may throw and change the instance. *)
Fixpoint forEach {A} (f : A -> Eff unit) (l : list A) : Eff unit :=
  match l with
  | [] => ret tt
  | a :: rest => f a ;; forEach f rest
  end.

Definition _createMetricsRequest (client : Client) (self : StackMetrics)
    (descriptor : Descriptor) : CreateMetricDescriptorRequest :=
  mkDescriptorRequest (projectPath client (projectId self)) descriptor.

(** [!e.responseDescriptor]: metrics the client has not acknowledged. *)
Definition not_created (e : Metric) : bool :=
  match responseDescriptor e with
  | None => true
  | Some _ => false
  end.

(** The body of the [forEach] over the replies of [createMetricDescriptor]:
    [this.metricsMap.get(_getMetricName(descriptor.type)).responseDescriptor = descriptor] *)
Definition record_response (descriptor : Descriptor) : Eff unit :=
  self <- this ;;
  let metricName := _getMetricName (type descriptor) in
  match Map_get metricName (metricsMap self) with
  | None =>
      throw (TypeError
        "Cannot set properties of undefined (setting 'responseDescriptor')")
  | Some _ =>
      assign (fun self =>
        set_metricsMap
          (Map_mutate metricName (set_responseDescriptor descriptor)
             (metricsMap self)) self)
  end.

Definition _sendCreateMetrics (client : Client) (timestamp : float) : Eff unit :=
  self <- this ;;
  (* Send any pending createMetricDescriptors requests *)
  let requests :=
    map (fun metric => _createMetricsRequest client self (requestDescriptor metric))
        (filter not_created (Map_values (metricsMap self))) in
  responses <- await (map CreateMetricDescriptor requests)
                     (Promise_all (map (createMetricDescriptor client) requests)) ;;
  (* Set responseDescriptor for each reply from createMetricDescriptor *)
  forEach record_response responses.

Definition _createDataPoint (valueType : string) (timestamp : float) (v : jsval)
  : completion Point :=
  if valueType =? VALUE_TYPE_INT64 then
    Normal (mkPoint (timestamp / 1000) (int64Value v))
  else if valueType =? VALUE_TYPE_DOUBLE then
    Normal (mkPoint (timestamp / 1000) (doubleValue v))
  else if valueType =? VALUE_TYPE_BOOL then
    Normal (mkPoint (timestamp / 1000) (boolValue v))
  else Throw (Error "Unexpected valueType:").

Definition _createTimeSeriesData (self : StackMetrics) (timestamp : float)
    (metric : Metric) : completion TimeSeries :=
  match _createDataPoint (valueType metric) timestamp (value metric) with
  | Throw e => Throw e
  | Normal point =>
      Normal (mkTimeSeries (type (requestDescriptor metric))
                (appName self) (envName self)
                "global" (projectId self) [point])
  end.

(** The body of the first [forEach] of [_sendTimeSeries]: convert
    [metric.value] (the sum) to a rate, in the metric itself. *)
Definition convert_to_rate (timestamp prev : float) (metric : Metric) : Metric :=
  let d := (timestamp - prev)%float in
  if (0 <? d)%float then
    let v := JS.div (value metric) d in
    set_value (JNum (JS.mul v (rateInterval metric))) metric
  else
    set_value (JNum 0) metric.

(** [.filter(metric => metric.rateInterval).forEach(...)]: the metrics
    that pass the filter are changed, the others are left alone. *)
Definition convert_rates (timestamp prev : float) (mm : Map Metric) : Map Metric :=
  Map_forEach
    (fun metric =>
       if ToBoolean (rateInterval metric)
       then convert_to_rate timestamp prev metric
       else metric) mm.

(** The filter of the time series of a flush. *)
Definition to_send (metric : Metric) : bool :=
  ToBoolean (rateInterval metric) || is_defined (value metric).

(** The body of the [map] after a successful [createTimeSeries]:
    clear the values we've sent. *)
Definition clear_value (metric : Metric) : Metric :=
  if ToBoolean (rateInterval metric)
  then set_value (JNum 0) metric
  else set_value JUndefined metric.

Definition _sendTimeSeries (client : Client) (timestamp : float)
  : Eff (option Results) :=
  assign (fun self =>
    set_metricsMap
      (convert_rates timestamp (prevSendTimestamp self) (metricsMap self)) self) ;;
  assign (set_prevSendTimestamp timestamp) ;;
  self <- this ;;
  timeSeriesData <-
    complete (map_throwing (_createTimeSeriesData self timestamp)
                (filter to_send (Map_values (metricsMap self)))) ;;
  let request :=
    mkTimeSeriesRequest (projectPath client (projectId self)) timeSeriesData in
  if Nat.ltb 0 (List.length timeSeriesData) then
    (* Write time series data *)
    try_catch
      (results <- await [CreateTimeSeries request] (createTimeSeries client request) ;;
       assign (fun self =>
         set_metricsMap (Map_forEach clear_value (metricsMap self)) self) ;;
       ret (Some results))
      (fun e => throw e)
  else
    ret None.

Definition sendValues (client : Client) (timestamp : float) : Eff (option Results) :=
  (* Send pending metric creation *)
  _sendCreateMetrics client timestamp ;;
  (* Send pending metric values *)
  _sendTimeSeries client timestamp.

(** The instance a constructor call leaves, at time [now]. *)
Definition new_StackMetrics (projectId appName envName metricGroupName : string)
    (now : float) : StackMetrics :=
  mkStackMetrics projectId appName envName metricGroupName now [].

(* ------------------------------------------------------------------ *)
(** ** Observations on a run *)

(** The result, final instance and calls of a method run. *)
Definition result_of {A} (r : completion A * StackMetrics * list Call) := fst (fst r).
Definition state_of {A} (r : completion A * StackMetrics * list Call) := snd (fst r).
Definition calls_of {A} (r : completion A * StackMetrics * list Call) := snd r.

Definition is_registration (c : Call) : bool :=
  match c with
  | CreateMetricDescriptor _ => true
  | CreateTimeSeries _ => false
  end.

(** The descriptor-registration requests among some calls. *)
Definition registrations (calls : list Call) : list Call :=
  filter is_registration calls.

(** The time series submitted by some calls, over all
    [createTimeSeries] requests. *)
Definition submitted (calls : list Call) : list TimeSeries :=
  flat_map (fun c =>
              match c with
              | CreateTimeSeries req => timeSeries req
              | CreateMetricDescriptor _ => []
              end) calls.

(** The [createTimeSeries] requests among some calls. *)
Definition submissions (calls : list Call) : list CreateTimeSeriesRequest :=
  flat_map (fun c =>
              match c with
              | CreateTimeSeries req => [req]
              | CreateMetricDescriptor _ => []
              end) calls.

(** The value a time series carries: that of its single point. *)
Definition series_values (ts : TimeSeries) : list jsval :=
  map (fun p => match point_value p with
                | int64Value v | doubleValue v | boolValue v => v
                end) (points ts).

(** A metric is of a rate kind when its [rateInterval] is truthy: the
    test the library itself makes. *)
Definition is_rate (metric : Metric) : bool := ToBoolean (rateInterval metric).

(* ------------------------------------------------------------------ *)
(** ** Invariants of an instance *)

Definition known_valueType (vt : string) : bool :=
  (vt =? VALUE_TYPE_INT64) || (vt =? VALUE_TYPE_DOUBLE) || (vt =? VALUE_TYPE_BOOL).

(** Every metric carries one of the three value types, as every metric
    stored by [createMetric] does. *)
Definition typed (self : StackMetrics) : bool :=
  forallb (fun m => known_valueType (valueType m)) (Map_values (metricsMap self)).

(** The descriptor type of every metric ends in the key the metric is
    stored under: what [_sendCreateMetrics] relies on to find the metric
    of a response. *)
Definition correlated (self : StackMetrics) : bool :=
  forallb (fun kv => _getMetricName (type (requestDescriptor (snd kv))) =? fst kv)
          (metricsMap self).

(** The keys of the map. *)
Definition keys (self : StackMetrics) : list string := map fst (metricsMap self).

(** The client answers a registration with the descriptor type it was sent. *)
Definition echoes (client : Client) : Prop :=
  forall req d, createMetricDescriptor client req = Normal d ->
                type d = type (metricDescriptor req).

(** What a flush leaves of a metric apart from its value and its
    response descriptor. *)
Definition shape (kv : string * Metric) :=
  (fst kv, name (snd kv), valueType (snd kv), requestDescriptor (snd kv),
   rateInterval (snd kv)).

Definition shapes (self : StackMetrics) := map shape (metricsMap self).

(** The metrics a flush reports: those of a rate kind, and the others
    whose value is not [undefined]. *)
Definition reported (m : Metric) : bool := is_rate m || is_defined (value m).

(** The metrics still to be registered. *)
Definition pending (self : StackMetrics) : list Metric :=
  filter not_created (Map_values (metricsMap self)).

(** The registration requests of a flush. *)
Definition registration_requests (client : Client) (self : StackMetrics)
  : list CreateMetricDescriptorRequest :=
  map (fun metric => _createMetricsRequest client self (requestDescriptor metric))
      (pending self).

(* ------------------------------------------------------------------ *)
(** ** Derived notions of the flush cycle *)

(** The instance once [_sendTimeSeries] has converted the rates and
    moved [prevSendTimestamp], before anything is sent. *)
Definition after_conversion (timestamp : float) (self : StackMetrics) : StackMetrics :=
  set_prevSendTimestamp timestamp
    (set_metricsMap
       (convert_rates timestamp (prevSendTimestamp self) (metricsMap self)) self).

(** The instance once the sent values are cleared. *)
Definition after_clearing (timestamp : float) (self : StackMetrics) : StackMetrics :=
  set_metricsMap
    (Map_forEach clear_value (metricsMap (after_conversion timestamp self)))
    (after_conversion timestamp self).

(** A time series reports a metric: it names the metric's descriptor
    type and carries one point, with the metric's value. *)
Definition carries (m : Metric) (ts : TimeSeries) : Prop :=
  metric_type ts = type (requestDescriptor m) /\ series_values ts = [value m].

(** What the conversion loop does to one metric. *)
Definition converted (timestamp prev : float) (m : Metric) : Metric :=
  if is_rate m then convert_to_rate timestamp prev m else m.

(** The responses of a registration phase, folded into the map. *)
Definition record_all (ds : list Descriptor) (mm : Map Metric) : Map Metric :=
  fold_left
    (fun mm d => Map_mutate (_getMetricName (type d)) (set_responseDescriptor d) mm)
    ds mm.

(** The same, seen from one entry of the map. *)
Definition mark_all (ds : list Descriptor) (kv : string * Metric) : string * Metric :=
  (fst kv,
   fold_left
     (fun m d =>
        if String.eqb (fst kv) (_getMetricName (type d))
        then set_responseDescriptor d m else m)
     ds (snd kv)).

(** No key occurs twice. *)
Fixpoint distinct (l : list string) : bool :=
  match l with
  | [] => true
  | k :: rest => negb (existsb (String.eqb k) rest) && distinct rest
  end.

(** [s.includes(c)] for a character. *)
Fixpoint contains (c : ascii) (s : string) : bool :=
  match s with
  | EmptyString => false
  | String c' rest => Ascii.eqb c' c || contains c rest
  end.

(** The value a rate-kind metric reaches under [writeCount]: each call
    adds the count reached so far. *)
Fixpoint add_running_totals (count : jsval) (deltas : list jsval) (acc : jsval) : jsval :=
  match deltas with
  | [] => acc
  | d :: rest =>
      add_running_totals (JS.add count d) rest (JS.add acc (JS.add count d))
  end.

(* ------------------------------------------------------------------ *)
(** ** Concrete instances and clients *)

Module Scenario.

(** A client that accepts everything and echoes descriptors. *)
Definition accepting : Client :=
  mkClient (fun project => "projects/" ++ project)
           (fun req => Normal (metricDescriptor req))
           (fun _ => Normal "{}").

(** A client whose [createTimeSeries] rejects. *)
Definition rejecting_series : Client :=
  mkClient (fun project => "projects/" ++ project)
           (fun req => Normal (metricDescriptor req))
           (fun _ => Throw (Rejected "UNAVAILABLE")).

(** A client whose [createMetricDescriptor] rejects. *)
Definition rejecting_descriptors : Client :=
  mkClient (fun project => "projects/" ++ project)
           (fun _ => Throw (Rejected "PERMISSION_DENIED"))
           (fun _ => Normal "{}").

Definition fresh : StackMetrics :=
  new_StackMetrics "project" "testapp" "dev" "testapp" 0.

(** [createMetric('requests', ..., TYPE_RATE_PER_SECOND)] *)
Definition with_requests : StackMetrics :=
  state_of (createMetric "requests" "Requests served" TYPE_RATE_PER_SECOND fresh).

(** ... then [createMetric('queueDepth', ..., TYPE_INT64)] *)
Definition with_both : StackMetrics :=
  state_of (createMetric "queueDepth" "Queue depth" TYPE_INT64 with_requests).

Definition requests : StackMetric := mkStackMetric "requests" (JNum 0).
Definition queueDepth : StackMetric := mkStackMetric "queueDepth" (JNum 0).

(** [requests.writeRate(3); requests.writeRate(2)] *)
Definition after_rates : StackMetrics :=
  snd (repeat_calls writeRate requests [JNum 3; JNum 2] with_both).

(** ... then [queueDepth.write(17)] *)
Definition after_writes : StackMetrics :=
  snd (repeat_calls write queueDepth [JNum 17] after_rates).

End Scenario.

(* ------------------------------------------------------------------ *)
(** ** The timer, and further observations *)

(** [err.stack], as the handler of the timer callback reads it.  What the
    library throws itself is an error object, and a rejection reason that
    is an object or a primitive has the property or lacks it: the read
    completes.  Reading a property of [undefined] or of [null] throws. *)
Definition get_stack (err : exn) : completion unit :=
  match err with
  | RejectedNullish null =>
      Throw (TypeError
        ("Cannot read properties of " ++ (if null then "null" else "undefined")
         ++ " (reading 'stack')"))
  | _ => Normal tt
  end.

(** The callback the constructor hands to [setInterval] when
    [sendInterval] is not 0, run once, on its own, at time [now]:
    [try { await this.sendValues(Date.now()) }
     catch (err) { logger.warn('sendValues failed:', err.stack || err) }].
    The argument of [logger.warn] is evaluated inside the handler, where
    nothing catches what it throws. *)
Definition interval_callback (client : Client) (now : float) : Eff unit :=
  try_catch (sendValues client now ;; ret tt)
            (fun err => complete (get_stack err) ;; ret tt).

(** The field of a point's [value] object that is set. *)
Definition value_field (tv : TypedValue) : string :=
  match tv with
  | int64Value _ => "int64Value"
  | doubleValue _ => "doubleValue"
  | boolValue _ => "boolValue"
  end.

(** The field [_createDataPoint] sets for a value type. *)
Definition field_of_valueType (vt : string) : string :=
  if vt =? VALUE_TYPE_INT64 then "int64Value"
  else if vt =? VALUE_TYPE_DOUBLE then "doubleValue"
  else "boolValue".

(** The value is a number. *)
Definition is_number (v : jsval) : bool :=
  match v with
  | JNum _ => true
  | _ => false
  end.

(** The instances a program can build: from the constructor, by
    [setStartTimestamp], [createMetric], writes (every handle method ends
    in one [writeMetric] call), flushes and timer callbacks, whatever
    they are given and however they end. *)
Inductive reachable : StackMetrics -> Prop :=
| reach_new projectId appName envName metricGroupName now :
    reachable (new_StackMetrics projectId appName envName metricGroupName now)
| reach_setStartTimestamp timestamp self :
    reachable self -> reachable (state_of (setStartTimestamp timestamp self))
| reach_createMetric metricName metricDescription metricType self :
    reachable self ->
    reachable (state_of (createMetric metricName metricDescription metricType self))
| reach_writeMetric metricName v self :
    reachable self -> reachable (state_of (writeMetric metricName v self))
| reach_sendValues client timestamp self :
    reachable self -> reachable (state_of (sendValues client timestamp self))
| reach_interval_callback client now self :
    reachable self -> reachable (state_of (interval_callback client now self)).

(** What holds of every metric of a reachable instance. *)
Definition sound_metric (kv : string * Metric) : bool :=
  (name (snd kv) =? fst kv) &&
  known_valueType (valueType (snd kv)) &&
  (desc_valueType (requestDescriptor (snd kv)) =? valueType (snd kv)) &&
  (if is_rate (snd kv)
   then (valueType (snd kv) =? VALUE_TYPE_DOUBLE) && is_number (value (snd kv))
   else negb (is_defined (rateInterval (snd kv)))).

Definition sound (self : StackMetrics) : bool :=
  distinct (keys self) && forallb sound_metric (metricsMap self).

Module Edge.

(** An instance with a metric whose name holds a slash; what follows
    the slash names no metric. *)
Definition slashed : StackMetrics :=
  state_of (createMetric "http/latency" "Latency" TYPE_DOUBLE
              Scenario.after_writes).

(** An instance with a metric whose name holds a slash; what follows
    the slash names another metric. *)
Definition shadowed : StackMetrics :=
  state_of (createMetric "http/requests" "Requests" TYPE_RATE_PER_SECOND
              Scenario.after_writes).

(** A client whose [createTimeSeries] promise rejects with [undefined]. *)
Definition rejecting_with_undefined : Client :=
  mkClient (fun project => "projects/" ++ project)
           (fun req => Normal (metricDescriptor req))
           (fun _ => Throw (RejectedNullish false)).

End Edge.

(* ------------------------------------------------------------------ *)
(** ** The earlier variant of the library

    The second source file is an earlier state of [stack-metrics.js].
    Its [writeMetric], [_createMetricsRequest] and the two type tables are
    those above; what differs is embedded here, in explicit state passing.
    [Date.now()] is read twice in a submission: the two readings are the
    arguments [now] and [now']. *)

Module Legacy.

(** [v.prop] for a property that no primitive has: [undefined] on a
    number or a boolean, a [TypeError] on [undefined]. *)
Definition get_missing_property (v : jsval) (prop : string) : completion jsval :=
  match v with
  | JUndefined => Throw (TypeError "Cannot read properties of undefined")
  | JBool _ | JNum _ => Normal JUndefined
  end.

Definition writeRate (h : StackMetric) (delta : jsval) : StackMetric * Eff unit :=
  let h' := mkStackMetric (_metricName h) (JS.add (_count h) delta) in
  (h', writeMetric (_metricName h') (_count h')).

Definition writeCount (h : StackMetric) (delta : jsval) : StackMetric * Eff unit :=
  writeRate h delta.

Definition write (h : StackMetric) (v : jsval) : StackMetric * Eff unit :=
  (h, writeMetric (_metricName h) v).

Definition createMetric (metricName metricDescription metricType : string)
  : Eff StackMetric :=
  self <- this ;;
  descValueType <- complete (_getValueTypeForMetricType metricType) ;;
  let descriptor :=
    mkDescriptor metricDescription metricName
      ("custom.googleapis.com/" ++ metricGroupName self ++ "/" ++ metricName)
      "GAUGE" descValueType default_labels in
  valueType <- complete (_getValueTypeForMetricType metricType) ;;
  assign (fun self =>
    set_metricsMap
      (Map_set metricName
         (mkMetric metricName valueType descriptor None
            (_getRateIntervalForMetricType metricType) (JNum 0))
         (metricsMap self))
      self) ;;
  ret (mkStackMetric metricName (JNum 0)).

(** A time series as this variant builds it: an element of [points] is
    [undefined] ([None]) when [_createDataPoint] falls through its
    [switch]. *)
Record TimeSeries : Type := mkTimeSeries {
  metric_type : string;
  metric_appName : string;
  metric_envName : string;
  resource_type : string;
  resource_project_id : string;
  points : list (option Point)
}.

Record CreateTimeSeriesRequest : Type := mkTimeSeriesRequest {
  tr_name : string;
  timeSeries : list TimeSeries
}.

Record Client : Type := mkClient {
  projectPath : string -> string;
  createMetricDescriptor : CreateMetricDescriptorRequest -> completion Descriptor;
  createTimeSeries : CreateTimeSeriesRequest -> completion Results
}.

Inductive Call : Type :=
| CreateMetricDescriptor (req : CreateMetricDescriptorRequest)
| CreateTimeSeries (req : CreateTimeSeriesRequest).

(** The outcome of a method: completion, instance afterwards, requests. *)
Definition Outcome (A : Type) : Type := (completion A * StackMetrics * list Call)%type.

(** [{interval: {endTime: {seconds: sample.endTime / 1000}}, value: {...: sample.value}}],
    where [sample] is the metric's value. *)
Definition _createDataPoint (valueType : string) (sample : jsval)
  : completion (option Point) :=
  let point (field : jsval -> TypedValue) :=
    match get_missing_property sample "endTime" with
    | Throw e => Throw e
    | Normal endTime =>
        match get_missing_property sample "value" with
        | Throw e => Throw e
        | Normal v => Normal (Some (mkPoint (JS.div endTime 1000) (field v)))
        end
    end in
  if valueType =? VALUE_TYPE_INT64 then point int64Value
  else if valueType =? VALUE_TYPE_DOUBLE then point doubleValue
  else if valueType =? VALUE_TYPE_BOOL then point boolValue
  else Normal None.

Definition _createTimeSeriesData (self : StackMetrics) (metric : Metric)
  : completion TimeSeries :=
  match _createDataPoint (valueType metric) (value metric) with
  | Throw e => Throw e
  | Normal point =>
      Normal (mkTimeSeries (type (requestDescriptor metric))
                (appName self) (envName self)
                "global" (projectId self) [point])
  end.

(** [metric.value /= (now - this.prevSendTimestamp)] on the metrics with
    a truthy rate interval. *)
Definition divide_rates (now prev : float) (mm : Map Metric) : Map Metric :=
  Map_forEach
    (fun metric =>
       if ToBoolean (rateInterval metric)
       then set_value (JNum (JS.div (value metric) (now - prev))) metric
       else metric) mm.

(** [if (metric.rateInterval) metric.value = 0] *)
Definition clear_rate (metric : Metric) : Metric :=
  if ToBoolean (rateInterval metric) then set_value (JNum 0) metric else metric.

Definition _sendTimeSeries (client : Client) (now now' : float) (self : StackMetrics)
  : Outcome (option Results) :=
  let self1 :=
    set_prevSendTimestamp now'
      (set_metricsMap (divide_rates now (prevSendTimestamp self) (metricsMap self))
         self) in
  match map_throwing (_createTimeSeriesData self1) (Map_values (metricsMap self1)) with
  | Throw e => (Throw e, self1, [])
  | Normal timeSeriesData =>
      let request :=
        mkTimeSeriesRequest (projectPath client (projectId self1)) timeSeriesData in
      if Nat.ltb 0 (List.length timeSeriesData) then
        match createTimeSeries client request with
        | Normal results =>
            (Normal (Some results),
             set_metricsMap (Map_forEach clear_rate (metricsMap self1)) self1,
             [CreateTimeSeries request])
        | Throw err =>
            (* logger.warn('Error sending timeSeries:', err) *)
            (Normal None, self1, [CreateTimeSeries request])
        end
      else (Normal None, self1, [])
  end.

(** The instance once a submission has divided the rates and moved
    [prevSendTimestamp], before anything is sent. *)
Definition after_division (now now' : float) (self : StackMetrics) : StackMetrics :=
  set_prevSendTimestamp now'
    (set_metricsMap (divide_rates now (prevSendTimestamp self) (metricsMap self))
       self).

(** What the division loop does to one metric. *)
Definition divided (now prev : float) (metric : Metric) : Metric :=
  if ToBoolean (rateInterval metric)
  then set_value (JNum (JS.div (value metric) (now - prev))) metric
  else metric.

(** The [forEach] over the replies:
    [this.metricsMap.get(descriptor.displayName).responseDescriptor = descriptor] *)
Fixpoint record_responses (responses : list Descriptor) (mm : Map Metric)
  : completion unit * Map Metric :=
  match responses with
  | [] => (Normal tt, mm)
  | descriptor :: rest =>
      match Map_get (displayName descriptor) mm with
      | None =>
          (Throw (TypeError
             "Cannot set properties of undefined (setting 'responseDescriptor')"),
           mm)
      | Some _ =>
          record_responses rest
            (Map_mutate (displayName descriptor)
               (set_responseDescriptor descriptor) mm)
      end
  end.

Definition _sendValues (client : Client) (now now' : float) (self : StackMetrics)
  : Outcome (option Results) :=
  let requests :=
    map (fun metric =>
           mkDescriptorRequest (projectPath client (projectId self))
             (requestDescriptor metric))
        (filter not_created (Map_values (metricsMap self))) in
  let calls := map CreateMetricDescriptor requests in
  match Promise_all (map (createMetricDescriptor client) requests) with
  | Throw err =>
      (* logger.warn('createMetricDescriptor failed:', err); return *)
      (Normal None, self, calls)
  | Normal responses =>
      match record_responses responses (metricsMap self) with
      | (Throw e, mm) => (Throw e, set_metricsMap mm self, calls)
      | (Normal _, mm) =>
          match _sendTimeSeries client now now' (set_metricsMap mm self) with
          | (r, self', calls') => (r, self', (calls ++ calls')%list)
          end
      end
  end.

(** The time series sent by some calls. *)
Definition submitted (calls : list Call) : list TimeSeries :=
  flat_map (fun c =>
              match c with
              | CreateTimeSeries req => timeSeries req
              | CreateMetricDescriptor _ => []
              end) calls.

(** Clients and an instance to try the variant on. *)
Definition accepting : Client :=
  mkClient (fun project => "projects/" ++ project)
           (fun req => Normal (metricDescriptor req))
           (fun _ => Normal "{}").

Definition rejecting_descriptors : Client :=
  mkClient (fun project => "projects/" ++ project)
           (fun _ => Throw (Rejected "PERMISSION_DENIED"))
           (fun _ => Normal "{}").

Definition rejecting_series : Client :=
  mkClient (fun project => "projects/" ++ project)
           (fun req => Normal (metricDescriptor req))
           (fun _ => Throw (Rejected "UNAVAILABLE")).

Definition with_both : StackMetrics :=
  state_of (createMetric "queueDepth" "Queue depth" TYPE_INT64
              (state_of (createMetric "requests" "Requests served"
                           TYPE_RATE_PER_SECOND Scenario.fresh))).

Definition after_writes : StackMetrics :=
  snd (repeat_calls write Scenario.queueDepth [JNum 17]
         (snd (repeat_calls writeRate Scenario.requests [JNum 3; JNum 2] with_both))).

End Legacy.

(* ------------------------------------------------------------------ *)
(** ** Basic facts *)

Section MapFacts.
Variable V : Type.
Implicit Types (m : Map V) (k : string) (f : V -> V).

Lemma Map_get_mutate_same k f m :
  Map_get k (Map_mutate k f m) = option_map f (Map_get k m).
Proof.
  induction m as [|[k' v] rest IH]; cbn; [reflexivity|].
  destruct (String.eqb k' k) eqn:E; cbn; rewrite E; auto.
Qed.

Lemma Map_get_mutate_other k k' f m :
  k' <> k -> Map_get k' (Map_mutate k f m) = Map_get k' m.
Proof.
  intros Hne. induction m as [|[k0 v] rest IH]; cbn; [reflexivity|].
  destruct (String.eqb k0 k) eqn:E; cbn.
  - apply String.eqb_eq in E. subst k0.
    destruct (String.eqb k k') eqn:E'; [|reflexivity].
    apply String.eqb_eq in E'. congruence.
  - destruct (String.eqb k0 k'); auto.
Qed.

Lemma Map_mutate_keys k f m : map fst (Map_mutate k f m) = map fst m.
Proof.
  induction m as [|[k' v] rest IH]; cbn; [reflexivity|].
  destruct (String.eqb k' k); cbn; congruence.
Qed.

Lemma Map_forEach_keys f m : map fst (Map_forEach f m) = map fst m.
Proof. unfold Map_forEach. rewrite map_map. reflexivity. Qed.

Lemma Map_values_forEach f m : Map_values (Map_forEach f m) = map f (Map_values m).
Proof. unfold Map_values, Map_forEach. rewrite !map_map. reflexivity. Qed.

(** With distinct keys, [Map_mutate] changes exactly the entries under
    the key. *)
Lemma Map_mutate_pointwise k f m :
  NoDup (map fst m) ->
  Map_mutate k f m =
  map (fun kv => if String.eqb (fst kv) k then (fst kv, f (snd kv)) else kv) m.
Proof.
  induction m as [|[k' v] rest IH]; cbn; [reflexivity|].
  intros Hnd. inversion Hnd as [|? ? Hnotin Hnd']; subst.
  destruct (String.eqb k' k) eqn:E.
  - f_equal. apply String.eqb_eq in E. subst k'.
    clear IH Hnd Hnd'. induction rest as [|[k1 v1] rest IH]; cbn; [reflexivity|].
    cbn in Hnotin.
    destruct (String.eqb k1 k) eqn:E1.
    + apply String.eqb_eq in E1. tauto.
    + f_equal. apply IH. tauto.
  - f_equal. auto.
Qed.
End MapFacts.

Lemma Promise_all_Throw A (ps : list (completion A)) e0 :
  In (Throw e0) ps -> exists e, Promise_all ps = Throw e.
Proof.
  induction ps as [|p ps IH]; cbn; [tauto|].
  intros [->|Hin]; [eauto|].
  destruct p as [a|e1]; [|eauto].
  destruct (IH Hin) as [e ->]. eauto.
Qed.

Lemma Promise_all_Normal A (ps : list (completion A)) l :
  Promise_all ps = Normal l -> ps = map (@Normal A) l.
Proof.
  revert l. induction ps as [|p ps IH]; cbn; intros l.
  - intros [= <-]. reflexivity.
  - destruct p as [a|e]; [|discriminate].
    destruct (Promise_all ps) as [l'|e]; [|discriminate].
    intros [= <-]. cbn. f_equal. auto.
Qed.

(** A type outside the seven known ones has no value type. *)
Lemma unknown_type_throws metricType :
  ~ In metricType known_types ->
  _getValueTypeForMetricType metricType = Throw (Error "Unknown metricType").
Proof.
  intros Hnot. unfold _getValueTypeForMetricType.
  repeat match goal with
  | |- context [String.eqb metricType ?t] =>
      destruct (String.eqb_spec metricType t) as [->|_];
      [exfalso; apply Hnot; unfold known_types; cbn; tauto|]
  end.
  reflexivity.
Qed.

(** A known type has one of the three value types. *)
Lemma known_type_valueType metricType vt :
  _getValueTypeForMetricType metricType = Normal vt -> known_valueType vt = true.
Proof.
  unfold _getValueTypeForMetricType.
  repeat match goal with
  | |- context [String.eqb metricType ?t] => destruct (String.eqb metricType t)
  end; intros [= <-]; reflexivity.
Qed.

(** In IEEE arithmetic [d <= 0] excludes [d > 0]. *)
Lemma leb_zero_not_gt (d : float) :
  (d <=? 0)%float = true -> (0 <? d)%float = false.
Proof.
  rewrite leb_spec, ltb_spec. unfold SpecFloat.SFleb, SpecFloat.SFltb.
  change (Prim2SF 0) with (SpecFloat.S754_zero false).
  destruct (Prim2SF d) as [s|s| |s m e]; cbn; try destruct s; cbn; congruence.
Qed.

(* ------------------------------------------------------------------ *)
(** ** The submission phase, step by step *)

Lemma sendTimeSeries_run client timestamp self :
  let self1 := after_conversion timestamp self in
  _sendTimeSeries client timestamp self =
  match map_throwing (_createTimeSeriesData self1 timestamp)
          (filter to_send (Map_values (metricsMap self1))) with
  | Throw e => (Throw e, self1, [])
  | Normal timeSeriesData =>
      let request :=
        mkTimeSeriesRequest (projectPath client (projectId self1)) timeSeriesData in
      if Nat.ltb 0 (List.length timeSeriesData) then
        match createTimeSeries client request with
        | Normal results =>
            (Normal (Some results), after_clearing timestamp self,
             [CreateTimeSeries request])
        | Throw e => (Throw e, self1, [CreateTimeSeries request])
        end
      else (Normal None, self1, [])
  end.
Proof.
  cbn zeta. unfold _sendTimeSeries, bind, assign, this, complete.
  cbn -[Nat.ltb]. fold (after_conversion timestamp self).
  destruct (map_throwing _ _) as [tsd|e]; [|reflexivity].
  destruct (Nat.ltb 0 (List.length tsd)); [|reflexivity].
  unfold try_catch, bind, await, assign, ret, throw. cbn.
  destruct (createTimeSeries client _) as [results|e]; reflexivity.
Qed.

Lemma createDataPoint_known vt timestamp v :
  known_valueType vt = true ->
  exists p, _createDataPoint vt timestamp v = Normal p /\
            seconds p = (timestamp / 1000)%float /\
            match point_value p with
            | int64Value w | doubleValue w | boolValue w => w
            end = v.
Proof.
  unfold known_valueType, _createDataPoint. intros H.
  destruct (vt =? VALUE_TYPE_INT64); [eexists; repeat split|].
  destruct (vt =? VALUE_TYPE_DOUBLE); [eexists; repeat split|].
  destruct (vt =? VALUE_TYPE_BOOL); [eexists; repeat split|discriminate].
Qed.

Lemma createTimeSeriesData_known self timestamp m :
  known_valueType (valueType m) = true ->
  exists ts, _createTimeSeriesData self timestamp m = Normal ts /\ carries m ts.
Proof.
  intros H. unfold _createTimeSeriesData.
  destruct (@createDataPoint_known _ timestamp (value m) H) as (p & -> & _ & Hv).
  eexists; split; [reflexivity|]. unfold carries, series_values. cbn.
  rewrite Hv. auto.
Qed.

Lemma map_throwing_Forall2 A B (f : A -> completion B) (R : A -> B -> Prop) l :
  (forall a, In a l -> exists b, f a = Normal b /\ R a b) ->
  exists bs, map_throwing f l = Normal bs /\ Forall2 R l bs.
Proof.
  induction l as [|a l IH]; intros H; cbn.
  - exists []. auto.
  - destruct (H a (or_introl eq_refl)) as (b & -> & Hb).
    destruct IH as (bs & -> & Hbs); [intros; apply H; right; assumption|].
    exists (b :: bs). auto.
Qed.

Lemma Forall2_map_l A A' B (g : A -> A') (R : A' -> B -> Prop) l bs :
  Forall2 R (map g l) bs <-> Forall2 (fun a b => R (g a) b) l bs.
Proof.
  revert bs. induction l as [|a l IH]; intros bs; cbn; split; intros H;
    inversion H; subst; constructor; auto; apply IH; assumption.
Qed.

Lemma converted_rateInterval timestamp prev m :
  rateInterval (converted timestamp prev m) = rateInterval m.
Proof.
  unfold converted, convert_to_rate.
  destruct (is_rate m); [|reflexivity]. destruct (_ <? _)%float; reflexivity.
Qed.

Lemma converted_valueType timestamp prev m :
  valueType (converted timestamp prev m) = valueType m.
Proof.
  unfold converted, convert_to_rate.
  destruct (is_rate m); [|reflexivity]. destruct (_ <? _)%float; reflexivity.
Qed.

Lemma to_send_converted timestamp prev m :
  to_send (converted timestamp prev m) = reported m.
Proof.
  unfold to_send, reported. rewrite converted_rateInterval.
  unfold converted, is_rate. destruct (ToBoolean (rateInterval m)); reflexivity.
Qed.

Lemma values_after_conversion timestamp self :
  Map_values (metricsMap (after_conversion timestamp self)) =
  map (converted timestamp (prevSendTimestamp self)) (Map_values (metricsMap self)).
Proof. cbn. unfold convert_rates. apply Map_values_forEach. Qed.

Lemma filter_map_commute A B (g : A -> B) (p : B -> bool) (q : A -> bool) l :
  (forall a, p (g a) = q a) -> filter p (map g l) = map g (filter q l).
Proof.
  intros H. induction l as [|a l IH]; cbn; [reflexivity|].
  rewrite H. destruct (q a); cbn; congruence.
Qed.

(** With every value type known, the data of a flush is built without
    a throw: one time series for each reported metric, in map order,
    carrying the metric's converted value. *)
Lemma timeSeriesData_typed timestamp self :
  typed self = true ->
  exists tsd,
    map_throwing (_createTimeSeriesData (after_conversion timestamp self) timestamp)
      (filter to_send (Map_values (metricsMap (after_conversion timestamp self))))
    = Normal tsd /\
    Forall2 (fun m ts => carries (converted timestamp (prevSendTimestamp self) m) ts)
      (filter reported (Map_values (metricsMap self))) tsd.
Proof.
  intros Ht. rewrite values_after_conversion.
  rewrite (filter_map_commute _ _ reported)
    by (intros; apply to_send_converted).
  destruct (@map_throwing_Forall2 _ _
              (_createTimeSeriesData (after_conversion timestamp self) timestamp)
              carries
              (map (converted timestamp (prevSendTimestamp self))
                 (filter reported (Map_values (metricsMap self)))))
    as (tsd & Heq & Hall).
  - intros m' Hin. apply createTimeSeriesData_known.
    apply in_map_iff in Hin. destruct Hin as (m & <- & Hin).
    rewrite converted_valueType. apply filter_In in Hin.
    unfold typed in Ht. rewrite forallb_forall in Ht. apply Ht. tauto.
  - exists tsd. split; [assumption|]. apply Forall2_map_l. assumption.
Qed.

(** The time series a submission phase sends are the data it built. *)
Lemma submitted_sendTimeSeries client timestamp self tsd :
  map_throwing (_createTimeSeriesData (after_conversion timestamp self) timestamp)
    (filter to_send (Map_values (metricsMap (after_conversion timestamp self))))
  = Normal tsd ->
  submitted (calls_of (_sendTimeSeries client timestamp self)) = tsd.
Proof.
  intros H. rewrite sendTimeSeries_run. cbn zeta. rewrite H.
  destruct tsd as [|ts tsd]; [reflexivity|]. cbn [List.length Nat.ltb Nat.leb].
  destruct (createTimeSeries client _); cbn; rewrite app_nil_r; reflexivity.
Qed.

(* ------------------------------------------------------------------ *)
(** ** The registration phase, step by step *)

Lemma set_metricsMap_same self : set_metricsMap (metricsMap self) self = self.
Proof. destruct self; reflexivity. Qed.

Lemma sendCreateMetrics_run client timestamp self :
  _sendCreateMetrics client timestamp self =
  let requests := registration_requests client self in
  match Promise_all (map (createMetricDescriptor client) requests) with
  | Throw e => (Throw e, self, map CreateMetricDescriptor requests)
  | Normal responses =>
      match forEach record_response responses self with
      | (r, self', calls) =>
          (r, self', (map CreateMetricDescriptor requests ++ calls)%list)
      end
  end.
Proof.
  unfold _sendCreateMetrics, bind, this, await. cbn.
  fold (pending self). fold (registration_requests client self).
  destruct (Promise_all _); [|reflexivity].
  destruct (forEach record_response _ self) as [[r self'] calls]; reflexivity.
Qed.

Lemma sendValues_run client timestamp self :
  sendValues client timestamp self =
  match _sendCreateMetrics client timestamp self with
  | (Normal _, self', calls) =>
      match _sendTimeSeries client timestamp self' with
      | (r, self'', calls') => (r, self'', (calls ++ calls')%list)
      end
  | (Throw e, self', calls) => (Throw e, self', calls)
  end.
Proof. reflexivity. Qed.

Lemma forEach_record_cons d ds self :
  forEach record_response (d :: ds) self =
  match Map_get (_getMetricName (type d)) (metricsMap self) with
  | None =>
      (Throw (TypeError
         "Cannot set properties of undefined (setting 'responseDescriptor')"),
       self, [])
  | Some _ =>
      forEach record_response ds
        (set_metricsMap
           (Map_mutate (_getMetricName (type d)) (set_responseDescriptor d)
              (metricsMap self)) self)
  end.
Proof.
  cbn [forEach]. unfold bind at 1. unfold record_response at 1. unfold bind, this.
  destruct (Map_get _ (metricsMap self)) as [m|]; cbn; [|reflexivity].
  destruct (forEach record_response ds _) as [[r s'] calls]. reflexivity.
Qed.

Lemma forEach_record_Normal ds : forall self,
  result_of (forEach record_response ds self) = Normal tt ->
  forEach record_response ds self =
  (Normal tt, set_metricsMap (record_all ds (metricsMap self)) self, []).
Proof.
  induction ds as [|d ds IH]; intros self.
  - intros _. cbn. unfold ret. rewrite set_metricsMap_same. reflexivity.
  - rewrite forEach_record_cons.
    destruct (Map_get _ (metricsMap self)) as [m|]; [|discriminate].
    intros H. rewrite (IH _ H). reflexivity.
Qed.

Lemma forEach_record_calls ds : forall self,
  calls_of (forEach record_response ds self) = [].
Proof.
  induction ds as [|d ds IH]; intros self; [reflexivity|].
  rewrite forEach_record_cons.
  destruct (Map_get _ (metricsMap self)) as [m|]; [apply IH|reflexivity].
Qed.

Lemma mark_all_cons d ds kv :
  mark_all (d :: ds) kv =
  mark_all ds (if String.eqb (fst kv) (_getMetricName (type d))
               then (fst kv, set_responseDescriptor d (snd kv)) else kv).
Proof.
  unfold mark_all. cbn.
  destruct (String.eqb (fst kv) _); reflexivity.
Qed.

Lemma record_all_pointwise ds : forall mm,
  NoDup (map fst mm) -> record_all ds mm = map (mark_all ds) mm.
Proof.
  induction ds as [|d ds IH]; intros mm Hnd.
  - unfold record_all, mark_all. cbn. symmetry.
    erewrite map_ext; [apply map_id|]. intros [k m]; reflexivity.
  - change (record_all (d :: ds) mm)
      with (record_all ds
              (Map_mutate (_getMetricName (type d)) (set_responseDescriptor d) mm)).
    rewrite IH by (rewrite Map_mutate_keys; assumption).
    rewrite Map_mutate_pointwise by assumption.
    rewrite map_map. apply map_ext. intros kv. rewrite mark_all_cons. reflexivity.
Qed.

Lemma mark_all_kept ds : forall kv,
  not_created (snd kv) = false -> not_created (snd (mark_all ds kv)) = false.
Proof.
  induction ds as [|d ds IH]; intros kv H; [assumption|].
  rewrite mark_all_cons. apply IH.
  destruct (String.eqb (fst kv) _); [reflexivity|assumption].
Qed.

Lemma mark_all_created ds : forall kv d,
  In d ds -> _getMetricName (type d) = fst kv ->
  not_created (snd (mark_all ds kv)) = false.
Proof.
  induction ds as [|d0 ds IH]; intros kv d Hin Hk; [destruct Hin|].
  rewrite mark_all_cons. destruct Hin as [->|Hin].
  - rewrite Hk, String.eqb_refl. apply mark_all_kept. reflexivity.
  - destruct (String.eqb (fst kv) _); eapply IH; eauto.
Qed.

Lemma mark_all_shape ds : forall kv, shape (mark_all ds kv) = shape kv.
Proof.
  induction ds as [|d ds IH]; intros kv; [destruct kv; reflexivity|].
  rewrite mark_all_cons, IH. destruct (String.eqb (fst kv) _); reflexivity.
Qed.

Lemma mark_all_value ds : forall kv, value (snd (mark_all ds kv)) = value (snd kv).
Proof.
  induction ds as [|d ds IH]; intros kv; [reflexivity|].
  rewrite mark_all_cons, IH. destruct (String.eqb (fst kv) _); reflexivity.
Qed.

(* ------------------------------------------------------------------ *)
(** ** The write path *)

(** C10.  [createMetric] with a metric type outside the seven known ones
    throws [Error('Unknown metricType')] from the value-type lookup, before
    anything is stored: the instance (its map included) is as before, no
    handle is returned and no request is sent. *)
Theorem createMetric_unknown_type metricName metricDescription metricType self :
  ~ In metricType known_types ->
  createMetric metricName metricDescription metricType self =
  (Throw (Error "Unknown metricType"), self, []).
Proof.
  intros Hnot. unfold createMetric, bind, this, complete.
  rewrite (@unknown_type_throws metricType Hnot). reflexivity.
Qed.

Lemma createMetric_unknown_type_witness :
  createMetric "latency" "Latency" "HISTOGRAM" Scenario.with_both =
  (Throw (Error "Unknown metricType"), Scenario.with_both, []).
Proof.
  apply createMetric_unknown_type.
  unfold known_types. cbn. intros H.
  repeat (destruct H as [H|H]; [discriminate H|]). exact H.
Defined.

Lemma writeMetric_absent metricName v self :
  Map_get metricName (metricsMap self) = None ->
  exists msg, writeMetric metricName v self = (Throw (TypeError msg), self, []).
Proof. intros Hnone. unfold writeMetric, bind, this. rewrite Hnone. cbn. eauto. Qed.

Lemma writeMetric_present metricName v self m :
  Map_get metricName (metricsMap self) = Some m ->
  let run := writeMetric metricName v self in
  result_of run = Normal tt /\ calls_of run = [] /\
  Map_get metricName (metricsMap (state_of run)) =
    Some (set_value (if is_rate m then JS.add (value m) v else v) m) /\
  forall other, other <> metricName ->
    Map_get other (metricsMap (state_of run)) = Map_get other (metricsMap self).
Proof.
  intros Hm. cbn zeta. unfold writeMetric, bind, this, is_rate. rewrite Hm.
  destruct (ToBoolean (rateInterval m)); cbn;
    (repeat split;
     [rewrite Map_get_mutate_same, Hm; reflexivity
     |intros other Hne; apply Map_get_mutate_other; assumption]).
Qed.

(** C5, as the code has it.  A write naming a metric that was never created
    throws a [TypeError] at once and leaves the instance as it was.  A write
    naming a created metric never throws, whatever its kind: on a rate kind
    the written value is added to the metric's value, on another kind it
    replaces the value; no other metric changes and no request is sent. *)
Theorem writeMetric_outcomes metricName v self :
  (Map_get metricName (metricsMap self) = None ->
   exists msg, writeMetric metricName v self = (Throw (TypeError msg), self, [])) /\
  (forall m, Map_get metricName (metricsMap self) = Some m ->
   let run := writeMetric metricName v self in
   result_of run = Normal tt /\ calls_of run = [] /\
   Map_get metricName (metricsMap (state_of run)) =
     Some (set_value (if is_rate m then JS.add (value m) v else v) m) /\
   forall other, other <> metricName ->
     Map_get other (metricsMap (state_of run)) = Map_get other (metricsMap self)).
Proof.
  split; [apply writeMetric_absent|intros m; apply writeMetric_present].
Qed.

(** C5, refuted: a gauge-style write ([write]) through a handle of the
    rate-kind metric [requests] raises nothing and changes the value, and
    so does a rate write ([writeRate]) through a handle of the INT64 metric
    [queueDepth]. *)
Lemma write_on_rate_metric_succeeds :
  let run := snd (write Scenario.requests (JNum 7)) Scenario.with_both in
  let run' := snd (writeRate Scenario.queueDepth (JNum 1)) Scenario.with_both in
  option_map is_rate (Map_get "requests" (metricsMap Scenario.with_both)) = Some true /\
  result_of run = Normal tt /\
  (forall e, result_of run <> Throw e) /\
  option_map value (Map_get "requests" (metricsMap Scenario.with_both)) = Some (JNum 0) /\
  option_map value (Map_get "requests" (metricsMap (state_of run))) = Some (JNum 7) /\
  option_map is_rate (Map_get "queueDepth" (metricsMap Scenario.with_both)) = Some false /\
  result_of run' = Normal tt /\
  option_map value (Map_get "queueDepth" (metricsMap Scenario.with_both)) = Some JUndefined /\
  option_map value (Map_get "queueDepth" (metricsMap (state_of run'))) = Some (JNum 1).
Proof.
  cbn zeta. repeat split; try reflexivity. intros e; discriminate.
Qed.

(** C2, on the code: two [writeCount] calls with deltas 3 and 2 on the
    rate-kind metric [requests] leave 3 + (3 + 2) = 8 in the metric, the sum
    of the running totals, where two [writeRate] calls leave 3 + 2 = 5. *)
Theorem writeCount_adds_running_totals :
  option_map value
    (Map_get "requests"
       (metricsMap (snd (repeat_calls writeCount Scenario.requests
                           [JNum 3; JNum 2] Scenario.with_requests))))
  = Some (JNum 8) /\
  option_map value
    (Map_get "requests"
       (metricsMap (snd (repeat_calls writeRate Scenario.requests
                           [JNum 3; JNum 2] Scenario.with_requests))))
  = Some (JNum 5) /\
  _count (snd (fst (repeat_calls writeCount Scenario.requests
                      [JNum 3; JNum 2] Scenario.with_requests))) = JNum 5.
Proof. repeat split; reflexivity. Qed.

(** What [writeCount] hands to [writeMetric] is the handle's count after
    the addition, not the delta. *)
Lemma writeCount_forwards_count h delta :
  writeCount h delta =
  (mkStackMetric (_metricName h) (JS.add (_count h) delta),
   writeMetric (_metricName h) (JS.add (_count h) delta)).
Proof. reflexivity. Qed.

Lemma set_value_same m : set_value (value m) m = m.
Proof. destruct m; reflexivity. Qed.

(** X1.  [writeRate], the sibling of [writeCount], forwards the delta: after
    the calls the value of a rate-kind metric has grown by the deltas, added
    one after the other. *)
Lemma writeRate_adds_deltas h deltas : forall self m,
  Map_get (_metricName h) (metricsMap self) = Some m ->
  is_rate m = true ->
  exists self',
    repeat_calls writeRate h deltas self = (Normal tt, h, self') /\
    Map_get (_metricName h) (metricsMap self') =
    Some (set_value (fold_left JS.add deltas (value m)) m).
Proof.
  induction deltas as [|d rest IH]; intros self m Hm Hrate.
  - exists self. cbn. rewrite set_value_same. auto.
  - cbn [repeat_calls writeRate].
    destruct (@writeMetric_present (_metricName h) d self m Hm) as (Hres & _ & Hget & _).
    rewrite Hrate in Hget.
    destruct (writeMetric (_metricName h) d self) as [[r self1] calls].
    cbn [result_of state_of fst snd] in *. subst r.
    destruct (IH self1 _ Hget Hrate) as (self' & Hrun & Hfinal).
    exists self'. split; [exact Hrun|]. rewrite Hfinal. reflexivity.
Qed.

(** X2.  [writeCount] through a handle of a rate-kind metric forwards the
    handle's count: after the calls the handle's count has grown by the
    deltas, and the value of the metric by the running totals of the
    deltas, each call adding the count reached so far. *)
Lemma writeCount_adds_totals deltas : forall h self m,
  Map_get (_metricName h) (metricsMap self) = Some m ->
  is_rate m = true ->
  exists self',
    repeat_calls writeCount h deltas self =
    (Normal tt, mkStackMetric (_metricName h) (fold_left JS.add deltas (_count h)), self') /\
    Map_get (_metricName h) (metricsMap self') =
    Some (set_value (add_running_totals (_count h) deltas (value m)) m).
Proof.
  induction deltas as [|d rest IH]; intros h self m Hm Hrate.
  - exists self. cbn. rewrite set_value_same. destruct h; auto.
  - cbn [repeat_calls writeCount _metricName _count].
    destruct (@writeMetric_present (_metricName h) (JS.add (_count h) d) self m Hm)
      as (Hres & _ & Hget & _).
    rewrite Hrate in Hget.
    destruct (writeMetric (_metricName h) (JS.add (_count h) d) self)
      as [[r self1] calls].
    cbn [result_of state_of fst snd] in *. subst r.
    destruct (IH (mkStackMetric (_metricName h) (JS.add (_count h) d)) self1 _
                Hget Hrate) as (self' & Hrun & Hfinal).
    cbn [_metricName _count] in Hrun, Hfinal.
    exists self'. split; [exact Hrun|]. rewrite Hfinal. reflexivity.
Qed.

Lemma writeMetric_outcomes_witness :
  (exists msg,
     writeMetric "unknown" (JNum 1) Scenario.with_both =
     (Throw (TypeError msg), Scenario.with_both, [])) /\
  option_map value
    (Map_get "requests"
       (metricsMap (state_of (writeMetric "requests" (JBool true) Scenario.after_rates))))
  = Some (JNum 6).
Proof.
  split.
  - apply (proj1 (writeMetric_outcomes "unknown" (JNum 1) Scenario.with_both)).
    reflexivity.
  - pose proof (proj2 (writeMetric_outcomes "requests" (JBool true) Scenario.after_rates)
                  _ eq_refl) as H.
    cbn zeta in H. destruct H as (_ & _ & -> & _). reflexivity.
Defined.

(* ------------------------------------------------------------------ *)
(** ** The submission phase *)

(** C1.  In a submission phase at [timestamp], with [d] the time since
    [prevSendTimestamp], the time series sent for a rate-kind metric with
    value [S] and rate interval [r] carries [(S / d) * r] when [d > 0], and
    [0] when [d <= 0].  The series sent stand in map order against the
    reported metrics. *)
Theorem rate_value_submitted client timestamp self :
  typed self = true ->
  let d := (timestamp - prevSendTimestamp self)%float in
  Forall2
    (fun m ts =>
       is_rate m = true ->
       ((0 <? d)%float = true ->
        series_values ts =
        [JNum (ToNumber (value m) / d * ToNumber (rateInterval m))]) /\
       ((d <=? 0)%float = true -> series_values ts = [JNum 0]))
    (filter (fun m => is_rate m || is_defined (value m))
       (Map_values (metricsMap self)))
    (submitted (calls_of (_sendTimeSeries client timestamp self))).
Proof.
  intros Ht d.
  destruct (@timeSeriesData_typed timestamp self Ht) as (tsd & Heq & Hall).
  rewrite (@submitted_sendTimeSeries client timestamp self tsd Heq).
  change (fun m => is_rate m || is_defined (value m)) with reported.
  eapply Forall2_impl; [|exact Hall].
  intros m ts [_ Hv] Hrate. rewrite Hv.
  unfold converted, convert_to_rate. rewrite Hrate. fold d. split.
  - intros ->. reflexivity.
  - intros Hle. rewrite (@leb_zero_not_gt d Hle). reflexivity.
Qed.

Lemma rate_value_submitted_witness :
  Forall2
    (fun m ts =>
       is_rate m = true ->
       ((0 <? 2000 - 0)%float = true ->
        series_values ts =
        [JNum (ToNumber (value m) / (2000 - 0) * ToNumber (rateInterval m))]) /\
       ((2000 - 0 <=? 0)%float = true -> series_values ts = [JNum 0]))
    (filter (fun m => is_rate m || is_defined (value m))
       (Map_values (metricsMap Scenario.after_writes)))
    (submitted (calls_of (_sendTimeSeries Scenario.accepting 2000 Scenario.after_writes))).
Proof.
  exact (rate_value_submitted Scenario.accepting 2000 Scenario.after_writes eq_refl).
Defined.

(** The scenario of the specification: deltas 3 and 2 over 2000 ms on a
    per-second rate are reported as (5 / 2000) * 1000 = 2.5. *)
Example requests_rate :
  map series_values
    (submitted (calls_of (sendValues Scenario.accepting 2000 Scenario.after_rates)))
  = [[JNum 2.5]].
Proof. reflexivity. Qed.

(** Two flushes at the same timestamp: the rate of the second is 0. *)
Example requests_rate_same_timestamp :
  map series_values
    (submitted (calls_of (sendValues Scenario.accepting 0 Scenario.after_rates)))
  = [[JNum 0]].
Proof. reflexivity. Qed.

(** C6.  A submission phase sends one time series, with one point, for each
    metric that is of a rate kind or whose value is not [undefined], in map
    order, and for no other metric; when there is no such metric it sends
    no request and completes normally. *)
Theorem reported_metrics_submitted client timestamp self :
  typed self = true ->
  let run := _sendTimeSeries client timestamp self in
  let metrics :=
    filter (fun m => is_rate m || is_defined (value m))
      (Map_values (metricsMap self)) in
  Forall2
    (fun m ts =>
       metric_type ts = type (requestDescriptor m) /\ List.length (points ts) = 1)
    metrics (submitted (calls_of run)) /\
  (metrics = [] -> calls_of run = [] /\ result_of run = Normal None).
Proof.
  intros Ht run metrics.
  destruct (@timeSeriesData_typed timestamp self Ht) as (tsd & Heq & Hall).
  split.
  - unfold run. rewrite (@submitted_sendTimeSeries client timestamp self tsd Heq).
    eapply Forall2_impl; [|exact Hall].
    intros m ts [Hty Hv]. split.
    + rewrite Hty. unfold converted, convert_to_rate.
      destruct (is_rate m); [|reflexivity]. destruct (_ <? _)%float; reflexivity.
    + apply (f_equal (@List.length _)) in Hv. unfold series_values in Hv.
      rewrite length_map in Hv. exact Hv.
  - intros Hnil. fold reported in metrics. unfold metrics in Hnil.
    rewrite Hnil in Hall. inversion Hall; subst.
    unfold run. rewrite sendTimeSeries_run. cbn zeta. rewrite Heq. cbn. auto.
Qed.

Lemma reported_metrics_submitted_witness :
  Forall2
    (fun m ts =>
       metric_type ts = type (requestDescriptor m) /\ List.length (points ts) = 1)
    (filter (fun m => is_rate m || is_defined (value m))
       (Map_values (metricsMap Scenario.with_both)))
    (submitted (calls_of (_sendTimeSeries Scenario.rejecting_series 2000 Scenario.with_both))) /\
  (filter (fun m => is_rate m || is_defined (value m))
     (Map_values (metricsMap Scenario.with_both)) = [] ->
   calls_of (_sendTimeSeries Scenario.rejecting_series 2000 Scenario.with_both) = [] /\
   result_of (_sendTimeSeries Scenario.rejecting_series 2000 Scenario.with_both) = Normal None).
Proof.
  exact (reported_metrics_submitted Scenario.rejecting_series 2000 Scenario.with_both eq_refl).
Defined.

(** The scenario of the specification: a gauge never written is absent
    from the batch, which holds the rate metric alone. *)
Example unwritten_gauge_absent :
  map metric_type
    (submitted (calls_of (sendValues Scenario.accepting 2000 Scenario.with_both)))
  = ["custom.googleapis.com/testapp/requests"].
Proof. reflexivity. Qed.

Lemma clear_value_spec m :
  value (clear_value m) = (if is_rate m then JNum 0 else JUndefined) /\
  is_rate (clear_value m) = is_rate m.
Proof.
  unfold clear_value, is_rate. destruct (ToBoolean (rateInterval m)) eqn:E; cbn; auto.
Qed.

(** The instance a submission phase leaves: the values are cleared when
    the request was sent and accepted, and otherwise the rates stay
    converted; [prevSendTimestamp] is moved in every case. *)
Lemma sendTimeSeries_state client timestamp self :
  let run := _sendTimeSeries client timestamp self in
  match result_of run with
  | Normal (Some _) => state_of run = after_clearing timestamp self
  | _ => state_of run = after_conversion timestamp self
  end.
Proof.
  cbn zeta. rewrite sendTimeSeries_run. cbn zeta.
  destruct (map_throwing _ _) as [tsd|e]; [|reflexivity].
  destruct (Nat.ltb 0 (List.length tsd)); [|reflexivity].
  destruct (createTimeSeries client _); reflexivity.
Qed.

(** What a submission phase that throws leaves in the map (the request
    was rejected, or no request could be built): every metric that is not
    of a rate kind is as it was, and every rate-kind metric holds, in
    place of its sum [S], the rate computed for this flush, [(S / d) * r]
    when [d > 0], else [0]; nothing puts the sum back. *)
Lemma failed_submission_keeps_rates client timestamp self e :
  result_of (_sendTimeSeries client timestamp self) = Throw e ->
  let d := (timestamp - prevSendTimestamp self)%float in
  Forall2
    (fun before after =>
       fst after = fst before /\
       (is_rate (snd before) = false -> snd after = snd before) /\
       (is_rate (snd before) = true ->
        snd after =
        set_value
          (JNum (if (0 <? d)%float
                 then ToNumber (value (snd before)) / d
                      * ToNumber (rateInterval (snd before))
                 else 0))
          (snd before)))
    (metricsMap self)
    (metricsMap (state_of (_sendTimeSeries client timestamp self))).
Proof.
  intros Hres d.
  pose proof (sendTimeSeries_state client timestamp self) as Hst.
  cbn zeta in Hst. rewrite Hres in Hst. rewrite Hst. cbn.
  unfold convert_rates, Map_forEach. fold d.
  induction (metricsMap self) as [|[k m] rest IH]; constructor; [|exact IH].
  cbn. unfold is_rate, convert_to_rate. fold d.
  destruct (ToBoolean (rateInterval m)); repeat split; try discriminate; auto.
  intros _. destruct (0 <? d)%float; reflexivity.
Qed.

(** C3, the code against the claim.  The rate-kind metric [requests] holds
    the sum 5 of the deltas written since the flush at 0, and the
    submission at 2000 is rejected.  Afterwards the metric holds 2.5, the
    rate computed for the flush that failed, and no longer its sum.  The
    gauge [queueDepth], written 17, still holds 17 after the same
    rejection.  The next submission, at 7000 and accepted, reads the 2.5
    as a sum: it reports 0.5, a rate of a rate. *)
Theorem failed_submission_overwrites_sum :
  let run := _sendTimeSeries Scenario.rejecting_series 2000 Scenario.after_rates in
  result_of run = Throw (Rejected "UNAVAILABLE") /\
  option_map value (Map_get "requests" (metricsMap Scenario.after_rates))
    = Some (JNum 5) /\
  option_map value (Map_get "requests" (metricsMap (state_of run)))
    = Some (JNum 2.5) /\
  option_map value (Map_get "requests" (metricsMap (state_of run)))
    <> option_map value (Map_get "requests" (metricsMap Scenario.after_rates)) /\
  option_map value
    (Map_get "queueDepth"
       (metricsMap
          (state_of (_sendTimeSeries Scenario.rejecting_series 2000
                       Scenario.after_writes))))
    = option_map value (Map_get "queueDepth" (metricsMap Scenario.after_writes)) /\
  option_map value (Map_get "queueDepth" (metricsMap Scenario.after_writes))
    = Some (JNum 17) /\
  map series_values
    (submitted (calls_of (_sendTimeSeries Scenario.accepting 7000 (state_of run))))
    = [[JNum 0.5]].
Proof.
  cbn zeta. repeat split; try reflexivity.
  intros H.
  apply (f_equal (fun o => match o with
                           | Some (JNum x) => (x =? 5)%float
                           | _ => false
                           end)) in H.
  vm_compute in H. discriminate H.
Qed.

(** C9.  In a flush whose registration phase completes, [prevSendTimestamp]
    is the flush timestamp afterwards, whatever the client answers to the
    submission and even when no request is sent: the field is assigned
    before [createTimeSeries] is called (it already holds the timestamp in
    the instance the request is built from), and the rates of the next
    flush are computed over the time since this timestamp. *)
Theorem timestamp_moved_whatever_outcome client timestamp self :
  result_of (_sendCreateMetrics client timestamp self) = Normal tt ->
  let self' := state_of (sendValues client timestamp self) in
  prevSendTimestamp self' = timestamp /\
  prevSendTimestamp
    (after_conversion timestamp (state_of (_sendCreateMetrics client timestamp self)))
  = timestamp /\
  forall next,
    metricsMap (after_conversion next self') =
    convert_rates next timestamp (metricsMap self').
Proof.
  intros Hreg self'.
  assert (Hprev : prevSendTimestamp self' = timestamp).
  { unfold self'. rewrite sendValues_run.
    destruct (_sendCreateMetrics client timestamp self) as [[r s1] calls].
    cbn in Hreg. subst r.
    pose proof (sendTimeSeries_state client timestamp s1) as Hst. cbn zeta in Hst.
    destruct (_sendTimeSeries client timestamp s1) as [[r s2] calls'].
    cbn in *. destruct r as [[results|]|e]; subst s2; reflexivity. }
  split; [exact Hprev|]. split; [reflexivity|].
  intros next. cbn. rewrite Hprev. reflexivity.
Qed.

Lemma timestamp_moved_whatever_outcome_witness :
  prevSendTimestamp
    (state_of (sendValues Scenario.rejecting_series 2000 Scenario.after_writes))
  = 2000%float /\
  result_of (sendValues Scenario.rejecting_series 2000 Scenario.after_writes)
  = Throw (Rejected "UNAVAILABLE").
Proof.
  split.
  - exact (proj1 (@timestamp_moved_whatever_outcome Scenario.rejecting_series 2000
                    Scenario.after_writes eq_refl)).
  - reflexivity.
Defined.

(* ------------------------------------------------------------------ *)
(** ** The registration phase *)

Lemma submissions_of_registrations reqs :
  submissions (map CreateMetricDescriptor reqs) = [].
Proof. induction reqs; cbn; auto. Qed.

(** C8.  When a registration request of a flush is rejected, [sendValues]
    throws, no [createTimeSeries] request is sent, and the instance is
    exactly as before the flush: no value has changed and the same metrics
    are pending registration. *)
Theorem rejected_registration_aborts client timestamp self m e0 :
  In m (pending self) ->
  createMetricDescriptor client
    (_createMetricsRequest client self (requestDescriptor m)) = Throw e0 ->
  let run := sendValues client timestamp self in
  (exists e, result_of run = Throw e) /\
  submissions (calls_of run) = [] /\
  state_of run = self /\
  pending (state_of run) = pending self.
Proof.
  intros Hin Hrej run.
  assert (Hall : exists e,
             Promise_all (map (createMetricDescriptor client)
                            (registration_requests client self)) = Throw e).
  { apply Promise_all_Throw with (e0 := e0). rewrite <- Hrej.
    unfold registration_requests. rewrite map_map.
    apply (in_map (fun x => createMetricDescriptor client
                              (_createMetricsRequest client self (requestDescriptor x)))).
    exact Hin. }
  destruct Hall as [e He].
  unfold run. rewrite sendValues_run, sendCreateMetrics_run. cbn zeta. rewrite He.
  cbn. repeat split; eauto. apply submissions_of_registrations.
Qed.

Lemma rejected_registration_aborts_witness :
  (exists e,
     result_of (sendValues Scenario.rejecting_descriptors 2000 Scenario.after_writes)
     = Throw e) /\
  submissions
    (calls_of (sendValues Scenario.rejecting_descriptors 2000 Scenario.after_writes))
  = [] /\
  state_of (sendValues Scenario.rejecting_descriptors 2000 Scenario.after_writes)
  = Scenario.after_writes /\
  pending
    (state_of (sendValues Scenario.rejecting_descriptors 2000 Scenario.after_writes))
  = pending Scenario.after_writes.
Proof.
  refine (@rejected_registration_aborts Scenario.rejecting_descriptors 2000
            Scenario.after_writes
            (hd (mkMetric "" "" (mkDescriptor "" "" "" "" "" []) None JUndefined JUndefined)
                (pending Scenario.after_writes))
            (Rejected "PERMISSION_DENIED") _ eq_refl).
  left. reflexivity.
Defined.

(** The scenario of the specification: the next cycle registers the same
    metrics again. *)
Example registration_retried :
  registrations
    (calls_of (sendValues Scenario.accepting 4000
                 (state_of (sendValues Scenario.rejecting_descriptors 2000
                              Scenario.after_writes))))
  = registrations
      (calls_of (sendValues Scenario.rejecting_descriptors 2000 Scenario.after_writes)).
Proof. reflexivity. Qed.

Lemma distinct_NoDup l : distinct l = true -> NoDup l.
Proof.
  induction l as [|k rest IH]; cbn; intros H; constructor;
    apply andb_prop in H; destruct H as [Hk Hrest]; [|auto].
  intros Hin. apply negb_true_iff in Hk.
  assert (existsb (String.eqb k) rest = true) as Hex
      by (apply existsb_exists; exists k; split; [assumption|apply String.eqb_refl]).
  congruence.
Qed.

(** A registration phase that completes leaves the responses folded into
    the map, entry by entry. *)
Lemma registration_state client timestamp self :
  NoDup (keys self) ->
  result_of (_sendCreateMetrics client timestamp self) = Normal tt ->
  exists ds,
    Promise_all (map (createMetricDescriptor client)
                   (registration_requests client self)) = Normal ds /\
    state_of (_sendCreateMetrics client timestamp self) =
    set_metricsMap (map (mark_all ds) (metricsMap self)) self.
Proof.
  intros Hnd. rewrite sendCreateMetrics_run. cbn zeta.
  destruct (Promise_all _) as [ds|e]; [|discriminate].
  intros Hres. exists ds. split; [reflexivity|].
  assert (Hr : result_of (forEach record_response ds self) = Normal tt)
    by (destruct (forEach record_response ds self) as [[r s'] calls]; exact Hres).
  rewrite (@forEach_record_Normal ds self Hr). cbn.
  rewrite record_all_pointwise by exact Hnd. reflexivity.
Qed.

(** A registration phase that completes leaves every value as it was. *)
Lemma registration_keeps_values client timestamp self :
  NoDup (keys self) ->
  result_of (_sendCreateMetrics client timestamp self) = Normal tt ->
  map (fun kv => value (snd kv))
    (metricsMap (state_of (_sendCreateMetrics client timestamp self)))
  = map (fun kv => value (snd kv)) (metricsMap self).
Proof.
  intros Hnd Hres.
  destruct (@registration_state client timestamp self Hnd Hres) as (ds & _ & ->).
  cbn. rewrite map_map. apply map_ext. apply mark_all_value.
Qed.

Lemma filter_none A (p : A -> bool) l :
  (forall a, In a l -> p a = false) -> filter p l = [].
Proof.
  induction l as [|a l IH]; cbn; intros H; [reflexivity|].
  rewrite (H a (or_introl eq_refl)). apply IH. intros; apply H; right; assumption.
Qed.

(** With distinct keys, descriptor types that end in the keys and a
    client that echoes the types, a registration phase that completes
    leaves no metric pending. *)
Lemma all_registered client timestamp self :
  NoDup (keys self) -> correlated self = true -> echoes client ->
  result_of (_sendCreateMetrics client timestamp self) = Normal tt ->
  pending (state_of (_sendCreateMetrics client timestamp self)) = [].
Proof.
  intros Hnd Hcor Hecho Hres.
  destruct (@registration_state client timestamp self Hnd Hres) as (ds & Hall & ->).
  unfold pending, Map_values. cbn. rewrite map_map. apply filter_none.
  intros m' Hin. apply in_map_iff in Hin. destruct Hin as (kv & <- & Hkv).
  destruct (not_created (snd kv)) eqn:Hpend; [|apply mark_all_kept; assumption].
  apply Promise_all_Normal in Hall.
  assert (Hreq : In (createMetricDescriptor client
                       (_createMetricsRequest client self (requestDescriptor (snd kv))))
                    (map (createMetricDescriptor client)
                       (registration_requests client self))).
  { unfold registration_requests. rewrite map_map.
    apply (in_map (fun x => createMetricDescriptor client
                              (_createMetricsRequest client self (requestDescriptor x)))).
    unfold pending. apply filter_In. split; [|assumption].
    unfold Map_values. apply in_map. assumption. }
  rewrite Hall in Hreq. apply in_map_iff in Hreq. destruct Hreq as (d & Hd & Hin).
  apply mark_all_created with (d := d); [assumption|].
  rewrite (Hecho _ _ (eq_sym Hd)). cbn.
  unfold correlated in Hcor. rewrite forallb_forall in Hcor.
  apply String.eqb_eq. apply Hcor. assumption.
Qed.

Lemma shapes_marked ds self :
  shapes (set_metricsMap (map (mark_all ds) (metricsMap self)) self) = shapes self.
Proof.
  unfold shapes. cbn. rewrite map_map. apply map_ext. apply mark_all_shape.
Qed.

Lemma shapes_after_conversion timestamp self :
  shapes (after_conversion timestamp self) = shapes self.
Proof.
  unfold shapes. cbn. unfold convert_rates, Map_forEach. rewrite map_map.
  apply map_ext. intros [k m]. unfold shape. cbn.
  fold (is_rate m). fold (converted timestamp (prevSendTimestamp self) m).
  rewrite converted_rateInterval, converted_valueType.
  unfold converted, convert_to_rate.
  destruct (is_rate m); [|reflexivity]. destruct (_ <? _)%float; reflexivity.
Qed.

Lemma shapes_after_clearing timestamp self :
  shapes (after_clearing timestamp self) = shapes self.
Proof.
  rewrite <- (shapes_after_conversion timestamp self).
  unfold shapes, after_clearing. cbn [metricsMap set_metricsMap].
  unfold Map_forEach. rewrite map_map. apply map_ext. intros [k m].
  unfold shape, clear_value. cbn. destruct (ToBoolean (rateInterval m)); reflexivity.
Qed.

(** The invariants read the shapes only. *)
Lemma typed_shapes a b : shapes a = shapes b -> typed a = typed b.
Proof.
  unfold shapes, typed, Map_values. revert b.
  generalize (metricsMap a). intros la b. generalize (metricsMap b). clear.
  induction la as [|x la IH]; intros [|y lb]; cbn; try discriminate; [reflexivity|].
  intros [= _ _ Hvt _ _ Hrest]. rewrite Hvt. f_equal. auto.
Qed.

Lemma pending_after_conversion timestamp self :
  pending self = [] -> pending (after_conversion timestamp self) = [].
Proof.
  unfold pending. rewrite values_after_conversion. intros H.
  rewrite (filter_map_commute _ _ not_created), H; [reflexivity|].
  intros m. unfold converted, convert_to_rate.
  destruct (is_rate m); [|reflexivity]. destruct (_ <? _)%float; reflexivity.
Qed.

Lemma pending_after_clearing timestamp self :
  pending self = [] -> pending (after_clearing timestamp self) = [].
Proof.
  intros H. apply (pending_after_conversion timestamp) in H.
  unfold pending, after_clearing in *. cbn [metricsMap set_metricsMap].
  rewrite Map_values_forEach.
  rewrite (filter_map_commute _ _ not_created), H; [reflexivity|].
  intros m. unfold clear_value. destruct (ToBoolean (rateInterval m)); reflexivity.
Qed.

Lemma map_throwing_nil A B (f : A -> completion B) l :
  map_throwing f l = Normal [] -> l = [].
Proof.
  destruct l as [|a l]; cbn; [reflexivity|].
  destruct (f a); [|discriminate]. destruct (map_throwing f l); discriminate.
Qed.

(** After a submission phase that completes, with or without a request,
    no metric outside the rate kinds holds a value. *)
Lemma completed_submission_values client timestamp self r :
  result_of (_sendTimeSeries client timestamp self) = Normal r ->
  Forall (fun m => is_rate m = false -> value m = JUndefined)
    (Map_values (metricsMap (state_of (_sendTimeSeries client timestamp self)))).
Proof.
  rewrite sendTimeSeries_run. cbn zeta.
  destruct (map_throwing _ _) as [tsd|e] eqn:Hdata; [|discriminate].
  destruct tsd as [|ts tsd]; cbn [List.length Nat.ltb Nat.leb].
  - intros _. apply map_throwing_nil in Hdata. cbn [state_of fst snd].
    apply Forall_forall. intros m Hin Hrate.
    assert (Hsend : to_send m = false).
    { destruct (to_send m) eqn:E; [|reflexivity].
      assert (In m (filter to_send
                      (Map_values (metricsMap (after_conversion timestamp self)))))
        as Hf by (apply filter_In; auto).
      rewrite Hdata in Hf. destruct Hf. }
    unfold to_send in Hsend. apply orb_false_iff in Hsend.
    destruct Hsend as [_ Hdef]. destruct (value m); [reflexivity|discriminate..].
  - destruct (createTimeSeries client _); [|discriminate]. intros _.
    cbn [state_of fst snd]. unfold after_clearing, set_metricsMap. cbn [metricsMap].
    rewrite Map_values_forEach. apply Forall_forall.
    intros m' Hin. apply in_map_iff in Hin. destruct Hin as (m & <- & _).
    destruct (clear_value_spec m) as [-> ->]. intros ->. reflexivity.
Qed.

Lemma no_registration_when_none_pending client timestamp self :
  pending self = [] ->
  _sendCreateMetrics client timestamp self = (Normal tt, self, []).
Proof.
  intros H. rewrite sendCreateMetrics_run. unfold registration_requests.
  rewrite H. reflexivity.
Qed.

Lemma registrations_sendTimeSeries client timestamp self :
  registrations (calls_of (_sendTimeSeries client timestamp self)) = [].
Proof.
  rewrite sendTimeSeries_run. cbn zeta.
  destruct (map_throwing _ _) as [tsd|e]; [|reflexivity].
  destruct (Nat.ltb 0 (List.length tsd)); [|reflexivity].
  destruct (createTimeSeries client _); reflexivity.
Qed.

(** C7, as the code has it.  Take an instance with distinct keys whose
    descriptor types end in the metric names and whose value types are
    known, and a first flush that completes against a client echoing the
    descriptor types.  A second flush with no write in between sends no
    registration request, and sends one time series, with one point, for
    each rate-kind metric and for no other metric: its point set is empty
    only when the instance has no rate-kind metric.  The metrics are the
    same before and after the first flush. *)
Theorem second_flush_reports_rates client1 client2 t1 t2 self r1 :
  distinct (keys self) = true ->
  correlated self = true ->
  typed self = true ->
  echoes client1 ->
  result_of (sendValues client1 t1 self) = Normal r1 ->
  let self1 := state_of (sendValues client1 t1 self) in
  let run := sendValues client2 t2 self1 in
  registrations (calls_of run) = [] /\
  Forall2
    (fun m ts =>
       metric_type ts = type (requestDescriptor m) /\ List.length (points ts) = 1)
    (filter is_rate (Map_values (metricsMap self1)))
    (submitted (calls_of run)) /\
  shapes self1 = shapes self.
Proof.
  intros Hdist Hcor Htyped Hecho Hres self1 run.
  apply distinct_NoDup in Hdist.
  (* the first flush *)
  assert (Hfirst :
    pending self1 = [] /\ shapes self1 = shapes self /\
    Forall (fun m => is_rate m = false -> value m = JUndefined)
      (Map_values (metricsMap self1))).
  { unfold self1. revert Hres. rewrite sendValues_run.
    pose proof (@all_registered client1 t1 self Hdist Hcor Hecho) as Hreg.
    pose proof (@registration_state client1 t1 self Hdist) as Hst.
    destruct (_sendCreateMetrics client1 t1 self) as [[[[]|e] s1] calls];
      [|discriminate].
    specialize (Hreg eq_refl). destruct (Hst eq_refl) as (ds & _ & Hs1).
    cbn [state_of fst snd] in Hreg, Hs1.
    assert (Hshape : shapes s1 = shapes self) by (rewrite Hs1; apply shapes_marked).
    pose proof (sendTimeSeries_state client1 t1 s1) as Hstate. cbn zeta in Hstate.
    pose proof (@completed_submission_values client1 t1 s1) as Hvals.
    destruct (_sendTimeSeries client1 t1 s1) as [[r s2] calls'].
    cbn [result_of state_of fst snd] in *. intros ->.
    specialize (Hvals r1 eq_refl).
    destruct r1 as [results|]; subst s2; (split; [|split; [|exact Hvals]]).
    - apply pending_after_clearing; assumption.
    - rewrite shapes_after_clearing. assumption.
    - apply pending_after_conversion; assumption.
    - rewrite shapes_after_conversion. assumption. }
  destruct Hfirst as (Hpend & Hshape & Hvals).
  (* the second flush *)
  assert (Htyped1 : typed self1 = true)
    by (rewrite (@typed_shapes self1 self Hshape); exact Htyped).
  unfold run. rewrite sendValues_run.
  rewrite (@no_registration_when_none_pending client2 t2 self1 Hpend).
  pose proof (registrations_sendTimeSeries client2 t2 self1) as Hnoreg.
  destruct (@timeSeriesData_typed t2 self1 Htyped1) as (tsd & Heq & Hall).
  pose proof (@submitted_sendTimeSeries client2 t2 self1 tsd Heq) as Hsub.
  destruct (_sendTimeSeries client2 t2 self1) as [[r s3] calls].
  cbn [calls_of snd app] in *. repeat split; [exact Hnoreg| |exact Hshape].
  rewrite Hsub.
  assert (Hfilter : filter reported (Map_values (metricsMap self1)) =
                    filter is_rate (Map_values (metricsMap self1))).
  { apply filter_ext_in. intros m Hin. unfold reported.
    rewrite Forall_forall in Hvals. specialize (Hvals m Hin).
    destruct (is_rate m); [reflexivity|]. rewrite Hvals by reflexivity. reflexivity. }
  rewrite <- Hfilter. eapply Forall2_impl; [|exact Hall].
  intros m ts [Hty Hv]. split.
  - rewrite Hty. unfold converted, convert_to_rate.
    destruct (is_rate m); [|reflexivity]. destruct (_ <? _)%float; reflexivity.
  - apply (f_equal (@List.length _)) in Hv. unfold series_values in Hv.
    rewrite length_map in Hv. exact Hv.
Qed.

Lemma echoes_accepting : echoes Scenario.accepting.
Proof. intros req d H. injection H as <-. reflexivity. Defined.

Lemma second_flush_reports_rates_witness :
  registrations
    (calls_of (sendValues Scenario.accepting 7000
                 (state_of (sendValues Scenario.accepting 2000 Scenario.after_writes))))
  = [] /\
  Forall2
    (fun m ts =>
       metric_type ts = type (requestDescriptor m) /\ List.length (points ts) = 1)
    (filter is_rate
       (Map_values
          (metricsMap (state_of (sendValues Scenario.accepting 2000 Scenario.after_writes)))))
    (submitted
       (calls_of (sendValues Scenario.accepting 7000
                    (state_of (sendValues Scenario.accepting 2000 Scenario.after_writes))))) /\
  shapes (state_of (sendValues Scenario.accepting 2000 Scenario.after_writes))
  = shapes Scenario.after_writes.
Proof.
  exact (@second_flush_reports_rates Scenario.accepting Scenario.accepting 2000 7000
           Scenario.after_writes (Some "{}") eq_refl eq_refl eq_refl
           echoes_accepting eq_refl).
Defined.

(** C7, refuted: after an accepted flush of an instance with the
    rate-kind metric [requests], a second flush at once, with no write in
    between, sends a [createTimeSeries] request with one point, of value 0. *)
Lemma second_flush_not_empty :
  let first := sendValues Scenario.accepting 2000 Scenario.after_rates in
  let second := sendValues Scenario.accepting 2000 (state_of first) in
  result_of first = Normal (Some "{}") /\
  List.length (submissions (calls_of second)) = 1 /\
  map series_values (submitted (calls_of second)) = [[JNum 0]] /\
  submitted (calls_of second) <> [].
Proof.
  cbn zeta. repeat split; try reflexivity.
  intros H. apply (f_equal (@List.length _)) in H. vm_compute in H. discriminate H.
Qed.

(* ------------------------------------------------------------------ *)
(** ** The invariants hold of the instances the library builds *)

Lemma split_not_nil sep s : split sep s <> [].
Proof.
  destruct s as [|c rest]; cbn; [discriminate|].
  destruct (Ascii.eqb c sep); [discriminate|].
  destruct (split sep rest); discriminate.
Qed.

Lemma split_without_separator sep s :
  contains sep s = false -> split sep s = [s].
Proof.
  induction s as [|c rest IH]; cbn; [reflexivity|].
  intros H. apply orb_false_iff in H. destruct H as [-> Hrest].
  rewrite (IH Hrest). reflexivity.
Qed.

Lemma pop_cons s segs : segs <> [] -> pop (s :: segs) = pop segs.
Proof. destruct segs; [congruence|reflexivity]. Qed.

(** The last segment of [p ++ sep ++ s] is the last segment of [s]. *)
Lemma pop_split_after_separator sep s : forall p,
  pop (split sep (p ++ String sep s)) = pop (split sep s) /\
  2 <= List.length (split sep (p ++ String sep s)).
Proof.
  assert (Hlen : 1 <= List.length (split sep s)).
  { pose proof (@split_not_nil sep s). destruct (split sep s); [congruence|cbn; lia]. }
  induction p as [|c p [IHpop IHlen]]; cbn [append split].
  - rewrite Ascii.eqb_refl. split; [apply pop_cons, split_not_nil|cbn; lia].
  - destruct (Ascii.eqb c sep).
    + split; [rewrite pop_cons by apply split_not_nil; exact IHpop|cbn; lia].
    + destruct (split sep (p ++ String sep s)) as [|seg [|seg' segs]];
        cbn in IHlen; try lia.
      split; [exact IHpop|cbn; lia].
Qed.

Lemma append_assoc (a b c : string) : (a ++ b) ++ c = a ++ (b ++ c).
Proof. induction a as [|x a IH]; cbn; [reflexivity|]. rewrite IH. reflexivity. Qed.

(** The descriptor type [createMetric] builds ends in the metric name,
    when the name holds no slash. *)
Lemma getMetricName_of_type group metricName :
  contains "/" metricName = false ->
  _getMetricName ("custom.googleapis.com/" ++ group ++ "/" ++ metricName) = metricName.
Proof.
  intros H. unfold _getMetricName.
  rewrite <- append_assoc.
  change ("/" ++ metricName) with (String "/" metricName).
  rewrite (proj1 (pop_split_after_separator "/" metricName _)).
  rewrite (split_without_separator _ _ H). reflexivity.
Qed.

Lemma NoDup_distinct l : NoDup l -> distinct l = true.
Proof.
  induction 1 as [|k rest Hnotin Hnd IH]; cbn; [reflexivity|].
  rewrite IH, andb_true_r. apply negb_true_iff.
  destruct (existsb (String.eqb k) rest) eqn:E; [|reflexivity].
  apply existsb_exists in E. destruct E as (x & Hin & Hx).
  apply String.eqb_eq in Hx. subst x. contradiction.
Qed.

Section MapSetFacts.
Variable V : Type.
Implicit Types (m : Map V) (k : string).

Lemma Map_set_keys_In k v m x :
  In x (map fst (Map_set k v m)) <-> x = k \/ In x (map fst m).
Proof.
  induction m as [|[k' v'] rest IH]; cbn; [intuition|].
  destruct (String.eqb_spec k' k) as [->|Hne]; cbn; [intuition|].
  rewrite IH. intuition.
Qed.

Lemma Map_set_NoDup k v m :
  NoDup (map fst m) -> NoDup (map fst (Map_set k v m)).
Proof.
  induction m as [|[k' v'] rest IH]; cbn; intros Hnd.
  - constructor; [intros []|constructor].
  - inversion Hnd as [|? ? Hnotin Hnd']; subst.
    destruct (String.eqb_spec k' k) as [->|Hne]; cbn; constructor; auto.
    rewrite Map_set_keys_In. intros [->|Hin]; [congruence|contradiction].
Qed.

Lemma Map_set_forallb (p : string * V -> bool) k v m :
  p (k, v) = true -> forallb p m = true -> forallb p (Map_set k v m) = true.
Proof.
  intros Hp. induction m as [|[k' v'] rest IH]; cbn; [rewrite Hp; reflexivity|].
  intros H. apply andb_prop in H. destruct H as [H1 H2].
  destruct (String.eqb k' k); cbn; [rewrite Hp, H2|rewrite H1, IH]; auto.
Qed.

Lemma Map_set_get k v m : Map_get k (Map_set k v m) = Some v.
Proof.
  induction m as [|[k' v'] rest IH]; cbn; [rewrite String.eqb_refl; reflexivity|].
  destruct (String.eqb k' k) eqn:E; cbn; [rewrite String.eqb_refl|rewrite E]; auto.
Qed.
End MapSetFacts.

Lemma forallb_of_map A B (g : A -> B) (p : B -> bool) l :
  forallb p (map g l) = forallb (fun a => p (g a)) l.
Proof. induction l as [|a l IH]; cbn; [reflexivity|]. rewrite IH. reflexivity. Qed.

Lemma invariants_new projectId appName envName metricGroupName now :
  let self := new_StackMetrics projectId appName envName metricGroupName now in
  distinct (keys self) = true /\ correlated self = true /\ typed self = true.
Proof. cbn. auto. Qed.

(** X8.  [createMetric] with a known type stores the metric under its name and
    keeps the invariants, when the name holds no slash. *)
Lemma createMetric_invariants metricName metricDescription metricType self :
  In metricType known_types ->
  contains "/" metricName = false ->
  distinct (keys self) = true -> correlated self = true -> typed self = true ->
  let run := createMetric metricName metricDescription metricType self in
  result_of run = Normal (mkStackMetric metricName (JNum 0)) /\
  calls_of run = [] /\
  option_map name (Map_get metricName (metricsMap (state_of run))) = Some metricName /\
  distinct (keys (state_of run)) = true /\
  correlated (state_of run) = true /\
  typed (state_of run) = true.
Proof.
  intros Hknown Hslash Hdist Hcor Htyped. cbn zeta.
  unfold createMetric, bind, this, complete, assign, ret. cbn -[_getValueTypeForMetricType].
  destruct (_getValueTypeForMetricType metricType) as [vt|e] eqn:Hvt.
  - cbn. rewrite Map_set_get. repeat split.
    + apply NoDup_distinct. unfold keys. cbn. apply Map_set_NoDup.
      apply distinct_NoDup. exact Hdist.
    + unfold correlated. cbn. apply Map_set_forallb; [|exact Hcor].
      cbn [fst snd requestDescriptor type]. apply String.eqb_eq.
      apply getMetricName_of_type. exact Hslash.
    + unfold typed, Map_values in *. cbn. rewrite forallb_of_map in *.
      apply Map_set_forallb; [|exact Htyped].
      cbn. exact (known_type_valueType _ Hvt).
  - exfalso. unfold known_types in Hknown. cbn in Hknown.
    repeat (destruct Hknown as [<-|Hknown]; [discriminate Hvt|]). exact Hknown.
Qed.

Lemma Map_mutate_shapes (f : Metric -> Metric) k mm :
  (forall kv, shape (fst kv, f (snd kv)) = shape kv) ->
  map shape (Map_mutate k f mm) = map shape mm.
Proof.
  intros Hf. induction mm as [|[k' m] rest IH]; cbn; [reflexivity|].
  destruct (String.eqb k' k); cbn [map]; [|rewrite IH; reflexivity].
  f_equal. exact (Hf (k', m)).
Qed.

(** A write changes values only. *)
Lemma writeMetric_shapes metricName v self :
  shapes (state_of (writeMetric metricName v self)) = shapes self.
Proof.
  unfold writeMetric, bind, this.
  destruct (Map_get metricName (metricsMap self)) as [m|]; [|reflexivity].
  destruct (ToBoolean (rateInterval m)); cbn; unfold shapes; cbn;
    apply Map_mutate_shapes; intros [k' m']; reflexivity.
Qed.

Lemma forEach_record_shapes ds : forall self,
  shapes (state_of (forEach record_response ds self)) = shapes self.
Proof.
  induction ds as [|d ds IH]; intros self; [reflexivity|].
  rewrite forEach_record_cons.
  destruct (Map_get _ (metricsMap self)) as [m|]; [|reflexivity].
  rewrite IH. unfold shapes. cbn. apply Map_mutate_shapes. intros [k' m']; reflexivity.
Qed.

(** A flush, however it ends, changes values and response descriptors
    only: the invariants of the instance are kept. *)
Lemma sendValues_shapes client timestamp self :
  shapes (state_of (sendValues client timestamp self)) = shapes self.
Proof.
  rewrite sendValues_run, sendCreateMetrics_run. cbn zeta.
  destruct (Promise_all _) as [ds|e]; [|reflexivity].
  pose proof (forEach_record_shapes ds self) as Hreg.
  destruct (forEach record_response ds self) as [[r s1] calls].
  cbn [state_of fst snd] in Hreg.
  destruct r as [[]|e]; [|exact Hreg].
  pose proof (sendTimeSeries_state client timestamp s1) as Hst. cbn zeta in Hst.
  destruct (_sendTimeSeries client timestamp s1) as [[r s2] calls'].
  cbn [result_of state_of fst snd] in *. rewrite <- Hreg.
  destruct r as [[results|]|e]; subst s2;
    auto using shapes_after_clearing, shapes_after_conversion.
Qed.

Lemma accepted_flush_values client timestamp self results :
  result_of (sendValues client timestamp self) = Normal (Some results) ->
  Forall
    (fun m => value m = if is_rate m then JNum 0 else JUndefined)
    (Map_values (metricsMap (state_of (sendValues client timestamp self)))).
Proof.
  rewrite sendValues_run.
  destruct (_sendCreateMetrics client timestamp self) as [[[[]|e] self'] calls];
    [|discriminate].
  pose proof (sendTimeSeries_state client timestamp self') as Hst. cbn zeta in Hst.
  destruct (_sendTimeSeries client timestamp self') as [[r self''] calls'].
  cbn in *. intros ->. subst self''.
  unfold after_clearing, set_metricsMap. cbn [metricsMap].
  rewrite Map_values_forEach. apply Forall_forall.
  intros m' Hin. apply in_map_iff in Hin. destruct Hin as (m & <- & _).
  destruct (clear_value_spec m) as [-> ->]. reflexivity.
Qed.

Lemma shapes_Forall2 (mm : Map Metric) : forall mm',
  map shape mm' = map shape mm ->
  Forall2 (fun before after => shape after = shape before) mm mm'.
Proof.
  induction mm as [|kv mm IH]; intros [|kv' mm']; cbn; try discriminate.
  - constructor.
  - intros H. constructor.
    + exact (f_equal (hd (shape kv)) H).
    + apply IH. exact (f_equal (@tl _) H).
Qed.

Lemma Forall2_and_right A B (R : A -> B -> Prop) (Q : B -> Prop) l l' :
  Forall2 R l l' -> Forall Q l' -> Forall2 (fun a b => R a b /\ Q b) l l'.
Proof.
  induction 1 as [|a b l l' Hab _ IH]; intros HQ; constructor;
    inversion HQ; subst; auto.
Qed.

(** C4.  After a flush whose [createTimeSeries] request was accepted, every
    metric that was of a rate kind before the flush has value 0 and every
    other metric has value [undefined], whatever they held before; the
    flush adds, removes and moves no metric and changes no metric's name,
    value type, request descriptor or rate interval, so the kinds after
    the flush are the kinds before it. *)
Theorem successful_flush_clears client timestamp self results :
  result_of (sendValues client timestamp self) = Normal (Some results) ->
  let self' := state_of (sendValues client timestamp self) in
  Forall2
    (fun before after =>
       shape after = shape before /\
       is_rate (snd after) = is_rate (snd before) /\
       value (snd after) = if is_rate (snd before) then JNum 0 else JUndefined)
    (metricsMap self) (metricsMap self') /\
  Forall
    (fun m => value m = if is_rate m then JNum 0 else JUndefined)
    (Map_values (metricsMap self')).
Proof.
  intros Hres self'.
  pose proof (@accepted_flush_values client timestamp self results Hres) as Hvalues.
  fold self' in Hvalues. split; [|exact Hvalues].
  pose proof (@sendValues_shapes client timestamp self) as Hshapes.
  fold self' in Hshapes. unfold shapes in Hshapes.
  apply shapes_Forall2 in Hshapes.
  unfold Map_values in Hvalues. rewrite Forall_map in Hvalues.
  pose proof (Forall2_and_right Hshapes Hvalues) as Hboth.
  revert Hboth. apply Forall2_impl.
  intros [kb b] [ka a] [Hshape Hvalue]. cbn [snd] in *.
  assert (Hrate : is_rate a = is_rate b).
  { unfold shape in Hshape. cbn [fst snd] in Hshape.
    injection Hshape as _ _ _ _ Hr. unfold is_rate. rewrite Hr. reflexivity. }
  rewrite Hrate in Hvalue. auto.
Qed.

Lemma successful_flush_clears_witness :
  Forall2
    (fun before after =>
       shape after = shape before /\
       is_rate (snd after) = is_rate (snd before) /\
       value (snd after) = if is_rate (snd before) then JNum 0 else JUndefined)
    (metricsMap Scenario.after_writes)
    (metricsMap (state_of (sendValues Scenario.accepting 2000 Scenario.after_writes))) /\
  Forall
    (fun m => value m = if is_rate m then JNum 0 else JUndefined)
    (Map_values
       (metricsMap (state_of (sendValues Scenario.accepting 2000 Scenario.after_writes)))).
Proof.
  exact (@successful_flush_clears Scenario.accepting 2000 Scenario.after_writes
           "{}" eq_refl).
Defined.

(** The scenario of the specification: [requests] held the sum 5 and
    [queueDepth] 17; after the accepted flush they hold 0 and
    [undefined], and are the metrics they were. *)
Example accepted_flush_scenario :
  let self' := state_of (sendValues Scenario.accepting 2000 Scenario.after_writes) in
  map (fun kv => (fst kv, value (snd kv), is_rate (snd kv)))
    (metricsMap Scenario.after_writes)
  = [("requests", JNum 5, true); ("queueDepth", JNum 17, false)] /\
  map (fun kv => (fst kv, value (snd kv), is_rate (snd kv))) (metricsMap self')
  = [("requests", JNum 0, true); ("queueDepth", JUndefined, false)].
Proof. split; reflexivity. Qed.

(* ------------------------------------------------------------------ *)
(** ** More on the handle *)

Lemma writeRate_adds_deltas_witness :
  exists self',
    repeat_calls writeRate Scenario.requests [JNum 3; JBool true; JNum 0.5]
      Scenario.with_both = (Normal tt, Scenario.requests, self') /\
    Map_get "requests" (metricsMap self') =
    Some (set_value (JNum 4.5)
            (mkMetric "requests" "DOUBLE"
               (mkDescriptor "Requests served" "testapp.requests"
                  "custom.googleapis.com/testapp/requests" "GAUGE" "DOUBLE"
                  default_labels)
               None (JNum 1000) (JNum 0))).
Proof.
  exact (@writeRate_adds_deltas Scenario.requests [JNum 3; JBool true; JNum 0.5]
           Scenario.with_both _ eq_refl eq_refl).
Defined.

Lemma writeCount_adds_totals_witness :
  exists self',
    repeat_calls writeCount Scenario.requests [JNum 3; JNum 2; JNum 1]
      Scenario.with_both =
    (Normal tt, mkStackMetric "requests" (JNum 6), self') /\
    Map_get "requests" (metricsMap self') =
    Some (set_value (JNum 14)
            (mkMetric "requests" "DOUBLE"
               (mkDescriptor "Requests served" "testapp.requests"
                  "custom.googleapis.com/testapp/requests" "GAUGE" "DOUBLE"
                  default_labels)
               None (JNum 1000) (JNum 0))).
Proof.
  exact (@writeCount_adds_totals [JNum 3; JNum 2; JNum 1] Scenario.requests
           Scenario.with_both _ eq_refl eq_refl).
Defined.

Lemma last_default_irrelevant A (l : list A) a d d' :
  last (a :: l) d = last (a :: l) d'.
Proof.
  revert a. induction l as [|b l IH]; intros a; [reflexivity|].
  change (last (b :: l) d = last (b :: l) d'). apply IH.
Qed.

(** X3.  [write] through a handle of a metric that is not of a rate kind: the
    calls complete, the metric holds the value written last (its own value
    when nothing is written), the handle and the other metrics are as
    they were. *)
Theorem write_last_wins vs : forall h self m,
  Map_get (_metricName h) (metricsMap self) = Some m ->
  is_rate m = false ->
  exists self',
    repeat_calls write h vs self = (Normal tt, h, self') /\
    Map_get (_metricName h) (metricsMap self') =
    Some (set_value (last vs (value m)) m) /\
    forall other, other <> _metricName h ->
      Map_get other (metricsMap self') = Map_get other (metricsMap self).
Proof.
  induction vs as [|v rest IH]; intros h self m Hm Hrate.
  - exists self. cbn. rewrite set_value_same. auto.
  - cbn [repeat_calls write].
    destruct (@writeMetric_present (_metricName h) v self m Hm)
      as (Hres & _ & Hget & Hother).
    cbn zeta in Hres, Hget, Hother. rewrite Hrate in Hget.
    destruct (writeMetric (_metricName h) v self) as [[r self1] calls].
    cbn [result_of state_of fst snd] in *. subst r.
    destruct (IH h self1 _ Hget Hrate) as (self' & Hrun & Hfinal & Hothers).
    exists self'. repeat split; [exact Hrun| |].
    + rewrite Hfinal. cbn [value set_value]. destruct rest as [|j rest]; [reflexivity|].
      rewrite (last_default_irrelevant rest j v (value m)). reflexivity.
    + intros other Hne. rewrite (Hothers other Hne). apply Hother. exact Hne.
Qed.

Lemma write_last_wins_witness :
  exists self',
    repeat_calls write Scenario.queueDepth [JNum 4; JNum 9; JNum 2]
      Scenario.with_both = (Normal tt, Scenario.queueDepth, self') /\
    Map_get "queueDepth" (metricsMap self') =
    Some (set_value (JNum 2)
            (mkMetric "queueDepth" "INT64"
               (mkDescriptor "Queue depth" "testapp.queueDepth"
                  "custom.googleapis.com/testapp/queueDepth" "GAUGE" "INT64"
                  default_labels)
               None JUndefined JUndefined)) /\
    forall other, other <> "queueDepth" ->
      Map_get other (metricsMap self') = Map_get other (metricsMap Scenario.with_both).
Proof.
  exact (@write_last_wins [JNum 4; JNum 9; JNum 2] Scenario.queueDepth
           Scenario.with_both _ eq_refl eq_refl).
Defined.

(** X4.  [writeCount] through a handle of a metric that is not of a rate kind:
    the metric holds the handle's count, which has grown by the deltas. *)
Theorem writeCount_reports_count deltas : forall h self m,
  Map_get (_metricName h) (metricsMap self) = Some m ->
  is_rate m = false ->
  exists self',
    repeat_calls writeCount h deltas self =
    (Normal tt, mkStackMetric (_metricName h) (fold_left JS.add deltas (_count h)),
     self') /\
    Map_get (_metricName h) (metricsMap self') =
    Some (set_value
            match deltas with
            | [] => value m
            | _ :: _ => fold_left JS.add deltas (_count h)
            end m).
Proof.
  induction deltas as [|d rest IH]; intros h self m Hm Hrate.
  - exists self. cbn. rewrite set_value_same. destruct h; auto.
  - cbn [repeat_calls writeCount _metricName _count].
    destruct (@writeMetric_present (_metricName h) (JS.add (_count h) d) self m Hm)
      as (Hres & _ & Hget & _).
    cbn zeta in Hres, Hget. rewrite Hrate in Hget.
    destruct (writeMetric (_metricName h) (JS.add (_count h) d) self)
      as [[r self1] calls].
    cbn [result_of state_of fst snd] in *. subst r.
    destruct (IH (mkStackMetric (_metricName h) (JS.add (_count h) d)) self1 _
                Hget Hrate) as (self' & Hrun & Hfinal).
    cbn [_metricName _count] in Hrun, Hfinal.
    exists self'. split; [exact Hrun|]. rewrite Hfinal.
    destruct rest; reflexivity.
Qed.

Lemma writeCount_reports_count_witness :
  exists self',
    repeat_calls writeCount Scenario.queueDepth [JNum 3; JNum 2; JNum 1]
      Scenario.with_both =
    (Normal tt, mkStackMetric "queueDepth" (JNum 6), self') /\
    Map_get "queueDepth" (metricsMap self') =
    Some (set_value (JNum 6)
            (mkMetric "queueDepth" "INT64"
               (mkDescriptor "Queue depth" "testapp.queueDepth"
                  "custom.googleapis.com/testapp/queueDepth" "GAUGE" "INT64"
                  default_labels)
               None JUndefined JUndefined)).
Proof.
  exact (@writeCount_reports_count [JNum 3; JNum 2; JNum 1] Scenario.queueDepth
           Scenario.with_both _ eq_refl eq_refl).
Defined.



(* ------------------------------------------------------------------ *)
(** ** More on [createMetric] *)

Lemma Map_set_get_other V k k' (v : V) m :
  k' <> k -> Map_get k' (Map_set k v m) = Map_get k' m.
Proof.
  intros Hne. induction m as [|[k0 v0] rest IH]; cbn.
  - destruct (String.eqb_spec k k'); [congruence|reflexivity].
  - destruct (String.eqb_spec k0 k) as [->|Hk]; cbn.
    + destruct (String.eqb_spec k k'); [congruence|reflexivity].
    + destruct (String.eqb k0 k'); auto.
Qed.

Lemma Map_set_keys V k (v : V) m :
  map fst (Map_set k v m) =
  if existsb (String.eqb k) (map fst m) then map fst m else (map fst m ++ [k])%list.
Proof.
  induction m as [|[k0 v0] rest IH]; cbn; [reflexivity|].
  rewrite (String.eqb_sym k k0).
  destruct (String.eqb_spec k0 k) as [->|Hk]; cbn; [reflexivity|].
  rewrite IH. destruct (existsb (String.eqb k) (map fst rest)); reflexivity.
Qed.

(** What [createMetric] does with a type that has a value type. *)
Lemma createMetric_run metricName metricDescription metricType self vt :
  _getValueTypeForMetricType metricType = Normal vt ->
  createMetric metricName metricDescription metricType self =
  (Normal (mkStackMetric metricName (JNum 0)),
   set_metricsMap
     (Map_set metricName
        (mkMetric metricName vt
           (mkDescriptor metricDescription
              (if metricGroupName self =? appName self
               then appName self ++ "." ++ metricName else metricName)
              ("custom.googleapis.com/" ++ metricGroupName self ++ "/" ++ metricName)
              "GAUGE" vt default_labels)
           None (_getRateIntervalForMetricType metricType)
           (if is_defined (_getRateIntervalForMetricType metricType)
            then JNum 0 else JUndefined))
        (metricsMap self)) self,
   []).
Proof.
  intros Hvt. unfold createMetric, bind, this, complete, assign, ret.
  rewrite Hvt. reflexivity.
Qed.

Lemma known_type_has_valueType metricType :
  In metricType known_types ->
  exists vt, _getValueTypeForMetricType metricType = Normal vt.
Proof.
  unfold known_types. cbn. intros H.
  repeat (destruct H as [<-|H]; [eexists; reflexivity|]). destruct H.
Qed.

(** The two tables agree: a type has a rate interval exactly when the
    interval is truthy, and then its value type is DOUBLE. *)
Lemma rate_interval_table metricType :
  ToBoolean (_getRateIntervalForMetricType metricType) =
  is_defined (_getRateIntervalForMetricType metricType) /\
  (is_defined (_getRateIntervalForMetricType metricType) = true ->
   _getValueTypeForMetricType metricType = Normal VALUE_TYPE_DOUBLE) /\
  In (_getRateIntervalForMetricType metricType)
     [JUndefined; JNum 1000; JNum 60000; JNum 3600000; JNum 86400000].
Proof.
  unfold _getRateIntervalForMetricType.
  destruct (String.eqb_spec metricType TYPE_RATE_PER_SECOND) as [->|_];
    [repeat split; cbn; auto|].
  destruct (String.eqb_spec metricType TYPE_RATE_PER_MINUTE) as [->|_];
    [repeat split; cbn; auto|].
  destruct (String.eqb_spec metricType TYPE_RATE_PER_HOUR) as [->|_];
    [repeat split; cbn; auto 6|].
  destruct (String.eqb_spec metricType TYPE_RATE_PER_DAY) as [->|_];
    [repeat split; cbn; auto 6|].
  repeat split; cbn; auto. discriminate.
Qed.

(** X6.  [createMetric] with one of the seven types returns a handle on the
    name, with count 0, and stores under the name a metric that is pending
    registration, whose value is 0 when it is of a rate kind and
    [undefined] otherwise, with the value type and rate interval of the
    type (DOUBLE for a rate kind) and a descriptor type ending in the name;
    the metrics under other names and [prevSendTimestamp] are as they were
    and no request is sent. *)
Theorem createMetric_stores metricName metricDescription metricType self :
  In metricType known_types ->
  let run := createMetric metricName metricDescription metricType self in
  result_of run = Normal (mkStackMetric metricName (JNum 0)) /\
  calls_of run = [] /\
  (exists m,
     Map_get metricName (metricsMap (state_of run)) = Some m /\
     name m = metricName /\
     responseDescriptor m = None /\
     value m = (if is_rate m then JNum 0 else JUndefined) /\
     rateInterval m = _getRateIntervalForMetricType metricType /\
     _getValueTypeForMetricType metricType = Normal (valueType m) /\
     desc_valueType (requestDescriptor m) = valueType m /\
     (is_rate m = true -> valueType m = VALUE_TYPE_DOUBLE) /\
     type (requestDescriptor m) =
       "custom.googleapis.com/" ++ metricGroupName self ++ "/" ++ metricName /\
     displayName (requestDescriptor m) =
       (if metricGroupName self =? appName self
        then appName self ++ "." ++ metricName else metricName)) /\
  (forall other, other <> metricName ->
     Map_get other (metricsMap (state_of run)) = Map_get other (metricsMap self)) /\
  prevSendTimestamp (state_of run) = prevSendTimestamp self.
Proof.
  intros Hknown run.
  destruct (@known_type_has_valueType metricType Hknown) as [vt Hvt].
  unfold run. rewrite (@createMetric_run metricName metricDescription metricType self vt Hvt).
  cbn [result_of state_of calls_of fst snd metricsMap set_metricsMap prevSendTimestamp].
  destruct (rate_interval_table metricType) as (Htruthy & Hdouble & _).
  repeat split.
  - eexists. split; [apply Map_set_get|]. unfold is_rate. cbn.
    rewrite Htruthy. repeat split; auto.
    intros Hrate. specialize (Hdouble Hrate). congruence.
  - intros other Hne. apply Map_set_get_other. exact Hne.
Qed.

Lemma createMetric_stores_witness :
  result_of (createMetric "latency" "Latency" TYPE_RATE_PER_MINUTE Scenario.after_writes)
  = Normal (mkStackMetric "latency" (JNum 0)) /\
  option_map value
    (Map_get "latency"
       (metricsMap
          (state_of (createMetric "latency" "Latency" TYPE_RATE_PER_MINUTE
                       Scenario.after_writes))))
  = Some (JNum 0) /\
  Map_get "requests"
    (metricsMap
       (state_of (createMetric "latency" "Latency" TYPE_RATE_PER_MINUTE
                    Scenario.after_writes)))
  = Map_get "requests" (metricsMap Scenario.after_writes).
Proof.
  assert (Hknown : In TYPE_RATE_PER_MINUTE known_types)
    by (unfold known_types; cbn; auto 6).
  pose proof (@createMetric_stores "latency" "Latency" TYPE_RATE_PER_MINUTE
                Scenario.after_writes Hknown) as H.
  cbn zeta in H. destruct H as (Hres & _ & _ & Hother & _).
  split; [exact Hres|]. split; [reflexivity|].
  apply Hother. discriminate.
Defined.

(** X7.  [createMetric] on a name already in the map keeps the keys and their
    order (the metric is replaced where it stands); on a new name it adds the
    name as the last key. *)
Theorem createMetric_keys metricName metricDescription metricType self :
  In metricType known_types ->
  keys (state_of (createMetric metricName metricDescription metricType self)) =
  if existsb (String.eqb metricName) (keys self)
  then keys self else (keys self ++ [metricName])%list.
Proof.
  intros Hknown. destruct (@known_type_has_valueType metricType Hknown) as [vt Hvt].
  rewrite (@createMetric_run metricName metricDescription metricType self vt Hvt).
  unfold keys. cbn. apply Map_set_keys.
Qed.

Lemma createMetric_keys_witness :
  keys (state_of (createMetric "requests" "Again" TYPE_BOOL Scenario.after_writes))
  = ["requests"; "queueDepth"] /\
  keys (state_of (createMetric "latency" "Latency" TYPE_DOUBLE Scenario.after_writes))
  = ["requests"; "queueDepth"; "latency"].
Proof.
  split.
  - refine (@createMetric_keys "requests" "Again" TYPE_BOOL Scenario.after_writes _).
    unfold known_types; cbn; auto.
  - refine (@createMetric_keys "latency" "Latency" TYPE_DOUBLE Scenario.after_writes _).
    unfold known_types; cbn; auto.
Defined.

Lemma createMetric_invariants_witness :
  distinct
    (keys (state_of (createMetric "latency" "Latency" TYPE_RATE_PER_HOUR
                       Scenario.after_writes))) = true /\
  correlated
    (state_of (createMetric "latency" "Latency" TYPE_RATE_PER_HOUR
                 Scenario.after_writes)) = true /\
  typed
    (state_of (createMetric "latency" "Latency" TYPE_RATE_PER_HOUR
                 Scenario.after_writes)) = true.
Proof.
  assert (Hknown : In TYPE_RATE_PER_HOUR known_types)
    by (unfold known_types; cbn; auto 7).
  pose proof (@createMetric_invariants "latency" "Latency" TYPE_RATE_PER_HOUR
                Scenario.after_writes Hknown eq_refl eq_refl eq_refl eq_refl) as H.
  cbn zeta in H. destruct H as (_ & _ & _ & H). exact H.
Defined.

Lemma split_segments_clean sep s :
  Forall (fun seg => contains sep seg = false) (split sep s).
Proof.
  induction s as [|c rest IH]; cbn; [repeat constructor|].
  destruct (Ascii.eqb c sep) eqn:E; [constructor; [reflexivity|exact IH]|].
  destruct (split sep rest) as [|seg segs]; [repeat constructor; cbn; rewrite E; reflexivity|].
  inversion IH; subst. constructor; [cbn; rewrite E; assumption|assumption].
Qed.

Lemma getMetricName_clean ty : contains "/" (_getMetricName ty) = false.
Proof.
  unfold _getMetricName, pop.
  pose proof (split_segments_clean "/" ty) as H.
  induction H as [|seg segs Hseg Hsegs IH]; [reflexivity|].
  destruct segs; [exact Hseg|exact IH].
Qed.

(** X9.  The metric name is read back from the descriptor type that
    [createMetric] builds exactly when the name holds no slash; the name
    read back never holds one. *)
Theorem getMetricName_round_trip group metricName :
  (_getMetricName ("custom.googleapis.com/" ++ group ++ "/" ++ metricName) = metricName
   <-> contains "/" metricName = false) /\
  contains "/"
    (_getMetricName ("custom.googleapis.com/" ++ group ++ "/" ++ metricName)) = false.
Proof.
  split; [split|apply getMetricName_clean].
  - intros H. rewrite <- H. apply getMetricName_clean.
  - apply getMetricName_of_type.
Qed.

(* ------------------------------------------------------------------ *)
(** ** What every flush keeps *)

Lemma Map_mutate_Forall2 (f : Metric -> Metric) k mm :
  Forall2 (fun b a => fst a = fst b /\ (snd a = snd b \/ snd a = f (snd b)))
    mm (Map_mutate k f mm).
Proof.
  induction mm as [|[k' m] rest IH]; cbn; [constructor|].
  destruct (String.eqb k' k).
  - constructor; [cbn; auto|].
    clear. induction rest; constructor; auto.
  - constructor; [cbn; auto|exact IH].
Qed.

Section Pointwise.

Variable R : Metric -> Metric -> Prop.
Hypothesis R_refl : forall m, R m m.
Hypothesis R_trans : forall a b c, R a b -> R b c -> R a c.
Hypothesis R_response : forall d m, R m (set_responseDescriptor d m).
Hypothesis R_converted : forall timestamp prev m, R m (converted timestamp prev m).
Hypothesis R_cleared : forall m, R m (clear_value m).

Lemma pointwise_refl (mm : Map Metric) :
  Forall2 (fun b a => fst a = fst b /\ R (snd b) (snd a)) mm mm.
Proof. induction mm; constructor; auto. Qed.

Lemma pointwise_trans (l1 : Map Metric) : forall l2 l3,
  Forall2 (fun b a => fst a = fst b /\ R (snd b) (snd a)) l1 l2 ->
  Forall2 (fun b a => fst a = fst b /\ R (snd b) (snd a)) l2 l3 ->
  Forall2 (fun b a => fst a = fst b /\ R (snd b) (snd a)) l1 l3.
Proof.
  induction l1 as [|x l1 IH]; intros l2 l3 H12 H23;
    inversion H12; subst; inversion H23; subst; constructor.
  - destruct H1 as [Hk1 Hr1]. destruct H2 as [Hk2 Hr2]. split; [congruence|eauto].
  - eapply IH; eassumption.
Qed.

Lemma pointwise_forEach (f : Metric -> Metric) (mm : Map Metric) :
  (forall m, R m (f m)) ->
  Forall2 (fun b a => fst a = fst b /\ R (snd b) (snd a)) mm (Map_forEach f mm).
Proof. intros Hf. induction mm; constructor; cbn; auto. Qed.

Lemma forEach_record_pointwise ds : forall self,
  Forall2 (fun b a => fst a = fst b /\ R (snd b) (snd a))
    (metricsMap self) (metricsMap (state_of (forEach record_response ds self))).
Proof.
  induction ds as [|d ds IH]; intros self; [apply pointwise_refl|].
  rewrite forEach_record_cons.
  destruct (Map_get _ (metricsMap self)) as [m|]; [|apply pointwise_refl].
  eapply pointwise_trans; [|apply IH]. cbn.
  eapply Forall2_impl; [|apply Map_mutate_Forall2].
  intros b a [Hk [Hsame|Hset]]; split; auto; [rewrite Hsame|rewrite Hset]; auto.
Qed.

Lemma sendCreateMetrics_pointwise client timestamp self :
  Forall2 (fun b a => fst a = fst b /\ R (snd b) (snd a))
    (metricsMap self)
    (metricsMap (state_of (_sendCreateMetrics client timestamp self))).
Proof.
  rewrite sendCreateMetrics_run. cbn zeta.
  destruct (Promise_all _) as [ds|e]; [|apply pointwise_refl].
  pose proof (forEach_record_pointwise ds self) as H.
  destruct (forEach record_response ds self) as [[r s'] calls]. exact H.
Qed.

Lemma sendTimeSeries_pointwise client timestamp self :
  Forall2 (fun b a => fst a = fst b /\ R (snd b) (snd a))
    (metricsMap self)
    (metricsMap (state_of (_sendTimeSeries client timestamp self))).
Proof.
  assert (Hconv : Forall2 (fun b a => fst a = fst b /\ R (snd b) (snd a))
                    (metricsMap self) (metricsMap (after_conversion timestamp self))).
  { cbn. unfold convert_rates. apply pointwise_forEach.
    intros m. apply (R_converted timestamp (prevSendTimestamp self) m). }
  pose proof (sendTimeSeries_state client timestamp self) as Hst. cbn zeta in Hst.
  destruct (result_of (_sendTimeSeries client timestamp self)) as [[results|]|e];
    rewrite Hst; try exact Hconv.
  eapply pointwise_trans; [exact Hconv|].
  unfold after_clearing, set_metricsMap. cbn [metricsMap].
  apply pointwise_forEach. exact R_cleared.
Qed.

Lemma sendValues_pointwise client timestamp self :
  Forall2 (fun b a => fst a = fst b /\ R (snd b) (snd a))
    (metricsMap self)
    (metricsMap (state_of (sendValues client timestamp self))).
Proof.
  rewrite sendValues_run.
  pose proof (sendCreateMetrics_pointwise client timestamp self) as Hreg.
  destruct (_sendCreateMetrics client timestamp self) as [[[[]|e] s1] calls];
    [|exact Hreg].
  pose proof (sendTimeSeries_pointwise client timestamp s1) as Hsub.
  destruct (_sendTimeSeries client timestamp s1) as [[r s2] calls'].
  eapply pointwise_trans; [exact Hreg|exact Hsub].
Qed.

End Pointwise.

(** X13.  A flush, however it ends, leaves registered every metric that was
    registered (a response descriptor is replaced at most by another one,
    never removed), under the same keys in the same order; so does a write. *)
Theorem registration_never_lost :
  (forall client timestamp self,
     Forall2 (fun b a =>
                fst a = fst b /\
                (not_created (snd b) = false -> not_created (snd a) = false))
       (metricsMap self) (metricsMap (state_of (sendValues client timestamp self)))) /\
  (forall metricName v self,
     Forall2 (fun b a =>
                fst a = fst b /\ responseDescriptor (snd a) = responseDescriptor (snd b))
       (metricsMap self) (metricsMap (state_of (writeMetric metricName v self)))).
Proof.
  split.
  - intros client timestamp self.
    apply (@sendValues_pointwise
             (fun b a => not_created b = false -> not_created a = false)); auto.
    + intros timestamp0 prev m. unfold converted, convert_to_rate.
      destruct (is_rate m); [|auto]. destruct (_ <? _)%float; auto.
    + intros m. unfold clear_value. destruct (ToBoolean (rateInterval m)); auto.
  - intros metricName v self. unfold writeMetric, bind, this.
    destruct (Map_get metricName (metricsMap self)) as [m|];
      [|cbn; induction (metricsMap self); constructor; auto].
    destruct (ToBoolean (rateInterval m)); cbn;
      (eapply Forall2_impl; [|apply Map_mutate_Forall2]);
      intros b a [Hk [Hsame|Hset]]; split; auto; rewrite ?Hsame, ?Hset; reflexivity.
Qed.

(* ------------------------------------------------------------------ *)
(** ** The requests of a flush *)

Lemma sendTimeSeries_calls client timestamp self :
  calls_of (_sendTimeSeries client timestamp self) = [] \/
  exists req,
    calls_of (_sendTimeSeries client timestamp self) = [CreateTimeSeries req] /\
    timeSeries req <> [] /\
    tr_name req = projectPath client (projectId self).
Proof.
  rewrite sendTimeSeries_run. cbn zeta.
  destruct (map_throwing _ _) as [tsd|e]; [|left; reflexivity].
  destruct tsd as [|ts tsd]; [left; reflexivity|]. right.
  cbn [List.length Nat.ltb Nat.leb].
  destruct (createTimeSeries client _); eexists; (split; [reflexivity|]);
    split; try reflexivity; discriminate.
Qed.

Lemma forEach_record_fields ds : forall self,
  exists mm,
    state_of (forEach record_response ds self) = set_metricsMap mm self.
Proof.
  induction ds as [|d ds IH]; intros self.
  - exists (metricsMap self). cbn. symmetry. apply set_metricsMap_same.
  - rewrite forEach_record_cons.
    destruct (Map_get _ (metricsMap self)) as [m|].
    + destruct (IH (set_metricsMap
                      (Map_mutate (_getMetricName (type d)) (set_responseDescriptor d)
                         (metricsMap self)) self)) as [mm Hmm].
      exists mm. rewrite Hmm. reflexivity.
    + exists (metricsMap self). cbn. symmetry. apply set_metricsMap_same.
Qed.

Lemma sendCreateMetrics_fields client timestamp self :
  calls_of (_sendCreateMetrics client timestamp self) =
  map CreateMetricDescriptor (registration_requests client self) /\
  exists mm,
    state_of (_sendCreateMetrics client timestamp self) = set_metricsMap mm self.
Proof.
  rewrite sendCreateMetrics_run. cbn zeta.
  destruct (Promise_all _) as [ds|e].
  - pose proof (forEach_record_calls ds self) as Hcalls.
    destruct (forEach_record_fields ds self) as [mm Hmm].
    destruct (forEach record_response ds self) as [[r s'] calls].
    cbn in *. subst. rewrite app_nil_r. eauto.
  - split; [reflexivity|]. exists (metricsMap self). cbn. symmetry.
    apply set_metricsMap_same.
Qed.

(** X12.  The requests of a flush, however it ends: first one
    [createMetricDescriptor] request for each metric without a response
    descriptor, in map order, each addressed to the project path and
    carrying the metric's request descriptor (all of them are sent, also
    when one is rejected); then at most one [createTimeSeries] request,
    addressed to the project path and never empty. *)
Theorem flush_requests client timestamp self :
  exists rest,
    calls_of (sendValues client timestamp self) =
    (map (fun m => CreateMetricDescriptor
                     (mkDescriptorRequest (projectPath client (projectId self))
                        (requestDescriptor m)))
         (filter not_created (Map_values (metricsMap self))) ++ rest)%list /\
    (rest = [] \/
     exists req, rest = [CreateTimeSeries req] /\
                 timeSeries req <> [] /\
                 tr_name req = projectPath client (projectId self)).
Proof.
  rewrite sendValues_run.
  destruct (sendCreateMetrics_fields client timestamp self) as (Hcalls & mm & Hst).
  destruct (_sendCreateMetrics client timestamp self) as [[r s1] calls].
  cbn [calls_of state_of fst snd] in Hcalls, Hst. subst calls s1.
  assert (Hreq : map CreateMetricDescriptor (registration_requests client self) =
                 map (fun m => CreateMetricDescriptor
                                 (mkDescriptorRequest
                                    (projectPath client (projectId self))
                                    (requestDescriptor m)))
                     (filter not_created (Map_values (metricsMap self))))
    by (unfold registration_requests; rewrite map_map; reflexivity).
  destruct r as [[]|e].
  - pose proof (sendTimeSeries_calls client timestamp (set_metricsMap mm self)) as Hts.
    destruct (_sendTimeSeries client timestamp (set_metricsMap mm self))
      as [[r s2] calls'].
    cbn [calls_of snd] in *. exists calls'. rewrite Hreq. split; [reflexivity|].
    exact Hts.
  - exists []. cbn [calls_of snd]. rewrite app_nil_r, Hreq. auto.
Qed.

Lemma forEach_record_missing ds : forall self,
  (exists d, In d ds /\ Map_get (_getMetricName (type d)) (metricsMap self) = None) ->
  exists msg, result_of (forEach record_response ds self) = Throw (TypeError msg).
Proof.
  induction ds as [|d0 ds IH]; intros self (d & Hin & Hnone); [destruct Hin|].
  rewrite forEach_record_cons.
  destruct (Map_get (_getMetricName (type d0)) (metricsMap self)) as [m0|] eqn:E0;
    [|cbn; eauto].
  apply IH. destruct Hin as [->|Hin]; [congruence|].
  exists d. split; [exact Hin|]. cbn.
  destruct (String.eqb_spec (_getMetricName (type d)) (_getMetricName (type d0)))
    as [Heq|Hne].
  - rewrite Heq in Hnone. congruence.
  - rewrite Map_get_mutate_other by exact Hne. exact Hnone.
Qed.

(** X11.  When every registration request is accepted by a client that echoes
    the descriptor types, and the last segment of a pending metric's
    descriptor type is not a key of the map (as for a metric created under
    a name with a slash, when no metric is named by what follows the
    slash), the flush throws a [TypeError]: no time series is sent, no
    value changes and [prevSendTimestamp] stays. *)
Theorem uncorrelated_response_throws client timestamp self ds m :
  Promise_all (map (createMetricDescriptor client)
                 (registration_requests client self)) = Normal ds ->
  echoes client ->
  In m (pending self) ->
  Map_get (_getMetricName (type (requestDescriptor m))) (metricsMap self) = None ->
  let run := sendValues client timestamp self in
  (exists msg, result_of run = Throw (TypeError msg)) /\
  submissions (calls_of run) = [] /\
  Forall2 (fun b a => fst a = fst b /\ value (snd a) = value (snd b))
    (metricsMap self) (metricsMap (state_of run)) /\
  prevSendTimestamp (state_of run) = prevSendTimestamp self.
Proof.
  intros Hall Hecho Hin Hnone run.
  assert (Hmissing : exists d, In d ds /\
            Map_get (_getMetricName (type d)) (metricsMap self) = None).
  { pose proof (Promise_all_Normal _ Hall) as Hmap.
    assert (Hreq : In (createMetricDescriptor client
                         (_createMetricsRequest client self (requestDescriptor m)))
                      (map (createMetricDescriptor client)
                         (registration_requests client self))).
    { unfold registration_requests. rewrite map_map.
      apply (in_map (fun x => createMetricDescriptor client
                                (_createMetricsRequest client self (requestDescriptor x)))).
      exact Hin. }
    rewrite Hmap in Hreq. apply in_map_iff in Hreq. destruct Hreq as (d & Hd & Hind).
    exists d. split; [exact Hind|].
    rewrite (Hecho _ _ (eq_sym Hd)). exact Hnone. }
  destruct (@forEach_record_missing ds self Hmissing) as [msg Hthrow].
  pose proof (@forEach_record_pointwise (fun b a => value a = value b)
                (fun _ => eq_refl)
                (fun a b c Hab Hbc => eq_trans Hbc Hab)
                (fun _ _ => eq_refl) ds self) as Hvals.
  destruct (forEach_record_fields ds self) as [mm Hmm].
  pose proof (forEach_record_calls ds self) as Hc.
  unfold run. rewrite sendValues_run, sendCreateMetrics_run. cbn zeta. rewrite Hall.
  destruct (forEach record_response ds self) as [[r s1] calls].
  cbn [result_of state_of calls_of fst snd] in *. subst r s1 calls.
  cbn [result_of state_of calls_of fst snd].
  repeat split; eauto.
  rewrite app_nil_r. apply submissions_of_registrations.
Qed.

Lemma uncorrelated_response_throws_witness :
  (exists msg,
     result_of (sendValues Scenario.accepting 2000 Edge.slashed)
     = Throw (TypeError msg)) /\
  submissions (calls_of (sendValues Scenario.accepting 2000 Edge.slashed)) = [] /\
  Forall2 (fun b a => fst a = fst b /\ value (snd a) = value (snd b))
    (metricsMap Edge.slashed)
    (metricsMap (state_of (sendValues Scenario.accepting 2000 Edge.slashed))) /\
  prevSendTimestamp (state_of (sendValues Scenario.accepting 2000 Edge.slashed))
  = prevSendTimestamp Edge.slashed.
Proof.
  refine (@uncorrelated_response_throws Scenario.accepting 2000 Edge.slashed _
            (nth 2 (pending Edge.slashed)
               (mkMetric "" "" (mkDescriptor "" "" "" "" "" []) None JUndefined JUndefined))
            eq_refl echoes_accepting _ eq_refl).
  right. right. left. reflexivity.
Defined.

Lemma Forall2_compose A (P Q S : A -> A -> Prop) (l1 : list A) : forall l2 l3,
  (forall a b c, P a b -> Q b c -> S a c) ->
  Forall2 P l1 l2 -> Forall2 Q l2 l3 -> Forall2 S l1 l3.
Proof.
  induction l1 as [|x l1 IH]; intros l2 l3 Hcomp H12 H23;
    inversion H12; subst; inversion H23; subst; constructor; eauto.
Qed.

Lemma Map_mutate_Forall2_key (f : Metric -> Metric) k mm :
  Forall2 (fun b a => fst a = fst b /\ (fst b <> k -> snd a = snd b))
    mm (Map_mutate k f mm).
Proof.
  induction mm as [|[k' m] rest IH]; cbn; [constructor|].
  destruct (String.eqb_spec k' k) as [->|Hne].
  - constructor; [cbn; split; [reflexivity|congruence]|].
    clear. induction rest; constructor; auto.
  - constructor; [cbn; auto|exact IH].
Qed.

Lemma forEach_record_slashed k ds : forall self,
  contains "/" k = true ->
  Forall2 (fun b a =>
             fst a = fst b /\
             (fst b = k -> responseDescriptor (snd a) = responseDescriptor (snd b)))
    (metricsMap self) (metricsMap (state_of (forEach record_response ds self))).
Proof.
  induction ds as [|d ds IH]; intros self Hk.
  - cbn. induction (metricsMap self); constructor; auto.
  - rewrite forEach_record_cons.
    destruct (Map_get _ (metricsMap self)) as [m|];
      [|cbn; induction (metricsMap self); constructor; auto].
    pose proof (Map_mutate_Forall2_key (set_responseDescriptor d)
                  (_getMetricName (type d)) (metricsMap self)) as H1.
    pose proof (IH (set_metricsMap
                      (Map_mutate (_getMetricName (type d)) (set_responseDescriptor d)
                         (metricsMap self)) self) Hk) as H2.
    cbn [metricsMap set_metricsMap] in H2.
    eapply Forall2_compose; [|exact H1|exact H2].
    cbn. intros a b c [Hk1 Hsame] [Hk2 Hresp]. split; [congruence|].
    intros Ha. rewrite Hresp by congruence. rewrite Hsame; [reflexivity|].
    rewrite Ha. intros Heq.
    pose proof (getMetricName_clean (type d)) as Hclean.
    rewrite <- Heq in Hclean. congruence.
Qed.

(** X10.  A metric stored under a name that holds a slash is never marked
    registered: whatever the client answers and however the flush ends, its
    response descriptor is what it was, because the name read back from a
    response never holds a slash.  Such a metric is sent for registration
    again in every flush. *)
Theorem slashed_name_never_registered client timestamp self k :
  contains "/" k = true ->
  Forall2 (fun b a =>
             fst a = fst b /\
             (fst b = k -> responseDescriptor (snd a) = responseDescriptor (snd b)))
    (metricsMap self) (metricsMap (state_of (sendValues client timestamp self))).
Proof.
  intros Hk.
  assert (Hreg : Forall2 (fun b a =>
             fst a = fst b /\
             (fst b = k -> responseDescriptor (snd a) = responseDescriptor (snd b)))
            (metricsMap self)
            (metricsMap (state_of (_sendCreateMetrics client timestamp self)))).
  { rewrite sendCreateMetrics_run. cbn zeta.
    destruct (Promise_all _) as [ds|e];
      [|cbn; induction (metricsMap self); constructor; auto].
    pose proof (@forEach_record_slashed k ds self Hk) as H.
    destruct (forEach record_response ds self) as [[r s'] calls]. exact H. }
  rewrite sendValues_run.
  destruct (_sendCreateMetrics client timestamp self) as [[[[]|e] s1] calls];
    [|exact Hreg].
  assert (Hsub : Forall2 (fun b a =>
                            fst a = fst b /\
                            responseDescriptor (snd a) = responseDescriptor (snd b))
                   (metricsMap s1)
                   (metricsMap (state_of (_sendTimeSeries client timestamp s1)))).
  { apply (@sendTimeSeries_pointwise
             (fun b a => responseDescriptor a = responseDescriptor b));
      intros; unfold converted, convert_to_rate, clear_value;
      repeat match goal with
             | |- context [if ?c then _ else _] => destruct c
             end; cbn; congruence. }
  destruct (_sendTimeSeries client timestamp s1) as [[r s2] calls'].
  cbn [state_of fst snd] in *.
  eapply Forall2_compose; [|exact Hreg|exact Hsub].
  cbn. intros a b c [Hk1 Hresp1] [Hk2 Hresp2]. split; [congruence|].
  intros Ha. rewrite Hresp2. auto.
Qed.

Lemma slashed_name_never_registered_witness :
  Forall2 (fun b a =>
             fst a = fst b /\
             (fst b = "http/requests" ->
              responseDescriptor (snd a) = responseDescriptor (snd b)))
    (metricsMap Edge.shadowed)
    (metricsMap (state_of (sendValues Scenario.accepting 2000 Edge.shadowed))).
Proof.
  exact (@slashed_name_never_registered Scenario.accepting 2000 Edge.shadowed
           "http/requests" eq_refl).
Defined.

(** The metric [http/requests] is sent for registration in the flush
    after an accepted one, where the other metrics are not. *)
Example slashed_name_registered_again :
  map (fun c => match c with
                | CreateMetricDescriptor req => displayName (metricDescriptor req)
                | CreateTimeSeries _ => ""
                end)
    (registrations
       (calls_of (sendValues Scenario.accepting 4000
                    (state_of (sendValues Scenario.accepting 2000 Edge.shadowed)))))
  = ["testapp.http/requests"].
Proof. reflexivity. Qed.

(* ------------------------------------------------------------------ *)
(** ** The content of a submission *)

Lemma createTimeSeriesData_content self timestamp m :
  known_valueType (valueType m) = true ->
  exists tv,
    _createTimeSeriesData self timestamp m =
    Normal (mkTimeSeries (type (requestDescriptor m)) (appName self) (envName self)
              "global" (projectId self) [mkPoint (timestamp / 1000) tv]) /\
    value_field tv = field_of_valueType (valueType m) /\
    match tv with
    | int64Value w | doubleValue w | boolValue w => w
    end = value m.
Proof.
  unfold known_valueType, _createTimeSeriesData, _createDataPoint, field_of_valueType.
  intros H.
  destruct (valueType m =? VALUE_TYPE_INT64); [eexists; repeat split|].
  destruct (valueType m =? VALUE_TYPE_DOUBLE); [eexists; repeat split|].
  destruct (valueType m =? VALUE_TYPE_BOOL); [eexists; repeat split|discriminate].
Qed.

(** X15.  The time series of a submission phase, field by field: each names
    the descriptor type of its metric, carries the labels [appName] and
    [envName] of the instance, the resource [global] with the project id,
    and one point at [timestamp / 1000] whose value sits in the field of
    the metric's value type; for a metric that is not of a rate kind the
    value is the metric's value, untouched. *)
Theorem submitted_series_content client timestamp self :
  typed self = true ->
  Forall2
    (fun m ts =>
       metric_type ts = type (requestDescriptor m) /\
       metric_appName ts = appName self /\
       metric_envName ts = envName self /\
       resource_type ts = "global" /\
       resource_project_id ts = projectId self /\
       exists tv,
         points ts = [mkPoint (timestamp / 1000) tv] /\
         value_field tv = field_of_valueType (valueType m) /\
         (is_rate m = false -> series_values ts = [value m]))
    (filter (fun m => is_rate m || is_defined (value m))
       (Map_values (metricsMap self)))
    (submitted (calls_of (_sendTimeSeries client timestamp self))).
Proof.
  intros Ht.
  destruct (@map_throwing_Forall2 _ _
              (_createTimeSeriesData (after_conversion timestamp self) timestamp)
              (fun m' ts =>
                 exists tv,
                   ts = mkTimeSeries (type (requestDescriptor m')) (appName self)
                          (envName self) "global" (projectId self)
                          [mkPoint (timestamp / 1000) tv] /\
                   value_field tv = field_of_valueType (valueType m') /\
                   match tv with
                   | int64Value w | doubleValue w | boolValue w => w
                   end = value m')
              (map (converted timestamp (prevSendTimestamp self))
                 (filter reported (Map_values (metricsMap self)))))
    as (tsd & Heq & Hall).
  { intros m' Hin.
    assert (Hknown : known_valueType (valueType m') = true).
    { apply in_map_iff in Hin. destruct Hin as (m & <- & Hin).
      rewrite converted_valueType. apply filter_In in Hin.
      unfold typed in Ht. rewrite forallb_forall in Ht. apply Ht. tauto. }
    destruct (@createTimeSeriesData_content (after_conversion timestamp self)
                timestamp m' Hknown) as (tv & Hts & Hfield & Hval).
    eexists. split; [exact Hts|]. exists tv. auto. }
  rewrite <- (filter_map_commute (converted timestamp (prevSendTimestamp self))
                to_send reported) in Heq
    by (intros; apply to_send_converted).
  rewrite <- values_after_conversion in Heq.
  rewrite (@submitted_sendTimeSeries client timestamp self tsd Heq).
  apply Forall2_map_l in Hall.
  change (fun m => is_rate m || is_defined (value m)) with reported.
  eapply Forall2_impl; [|exact Hall].
  intros m ts (tv & -> & Hfield & Hval). cbn.
  rewrite converted_valueType in Hfield.
  assert (Hty : type (requestDescriptor (converted timestamp (prevSendTimestamp self) m))
                = type (requestDescriptor m)).
  { unfold converted, convert_to_rate.
    destruct (is_rate m); [|reflexivity]. destruct (_ <? _)%float; reflexivity. }
  repeat split; auto.
  exists tv. repeat split; auto.
  intros Hrate. unfold series_values. cbn. rewrite Hval.
  unfold converted. rewrite Hrate. reflexivity.
Qed.

Lemma submitted_series_content_witness :
  Forall2
    (fun m ts =>
       metric_type ts = type (requestDescriptor m) /\
       metric_appName ts = "testapp" /\
       metric_envName ts = "dev" /\
       resource_type ts = "global" /\
       resource_project_id ts = "project" /\
       exists tv,
         points ts = [mkPoint (2000 / 1000) tv] /\
         value_field tv = field_of_valueType (valueType m) /\
         (is_rate m = false -> series_values ts = [value m]))
    (filter (fun m => is_rate m || is_defined (value m))
       (Map_values (metricsMap Scenario.after_writes)))
    (submitted (calls_of (_sendTimeSeries Scenario.accepting 2000 Scenario.after_writes))).
Proof.
  exact (@submitted_series_content Scenario.accepting 2000 Scenario.after_writes eq_refl).
Defined.

(** The scenario of a gauge: [queueDepth], written 17, is sent as the
    [int64Value] 17 beside the rate of [requests]. *)
Example gauge_sent_as_written :
  map points
    (submitted (calls_of (sendValues Scenario.accepting 2000 Scenario.after_writes)))
  = [[mkPoint 2 (doubleValue (JNum 2.5))]; [mkPoint 2 (int64Value (JNum 17))]].
Proof. reflexivity. Qed.

(** X16.  After a submission phase that threw, the next one, with no write in
    between, sends a time series for the same metrics: a metric that is not
    of a rate kind is sent with the value it had, and a rate-kind metric
    with the rate of the rate the failed flush left in it, computed over
    the time since the failed flush: [((S / d1) * r / d2) * r] when both
    intervals [d1] and [d2] are positive. *)
Theorem resent_after_failed_submission client1 client2 t1 t2 self e :
  typed self = true ->
  result_of (_sendTimeSeries client1 t1 self) = Throw e ->
  let self1 := state_of (_sendTimeSeries client1 t1 self) in
  let d1 := (t1 - prevSendTimestamp self)%float in
  let d2 := (t2 - t1)%float in
  Forall2
    (fun m ts =>
       metric_type ts = type (requestDescriptor m) /\
       (is_rate m = false -> series_values ts = [value m]) /\
       (is_rate m = true -> (0 <? d1)%float = true -> (0 <? d2)%float = true ->
        series_values ts =
        [JNum (ToNumber (value m) / d1 * ToNumber (rateInterval m)
               / d2 * ToNumber (rateInterval m))]))
    (filter (fun m => is_rate m || is_defined (value m))
       (Map_values (metricsMap self)))
    (submitted (calls_of (_sendTimeSeries client2 t2 self1))).
Proof.
  intros Ht Hres self1 d1 d2.
  pose proof (sendTimeSeries_state client1 t1 self) as Hst. cbn zeta in Hst.
  rewrite Hres in Hst. unfold self1. rewrite Hst.
  assert (Ht1 : typed (after_conversion t1 self) = true)
    by (rewrite (@typed_shapes (after_conversion t1 self) self
                   (shapes_after_conversion t1 self)); exact Ht).
  destruct (@timeSeriesData_typed t2 (after_conversion t1 self) Ht1)
    as (tsd & Heq & Hall).
  rewrite (@submitted_sendTimeSeries client2 t2 (after_conversion t1 self) tsd Heq).
  rewrite values_after_conversion in Hall.
  rewrite (filter_map_commute (converted t1 (prevSendTimestamp self)) reported reported)
    in Hall by (intros; apply to_send_converted).
  apply (proj1 (@Forall2_map_l _ _ _ (converted t1 (prevSendTimestamp self))
                  (fun m ts =>
                     carries (converted t2 (prevSendTimestamp (after_conversion t1 self)) m)
                       ts) _ _)) in Hall.
  change (fun m => is_rate m || is_defined (value m)) with reported.
  eapply Forall2_impl; [|exact Hall].
  intros m ts [Hty Hv].
  change (prevSendTimestamp (after_conversion t1 self)) with t1 in Hty, Hv.
  rewrite Hty, Hv. subst d1 d2. clear.
  unfold converted, convert_to_rate, is_rate.
  destruct (ToBoolean (rateInterval m)) eqn:Hrate.
  - destruct (0 <? t1 - prevSendTimestamp self)%float eqn:Hd1;
      cbn [rateInterval set_value]; rewrite Hrate;
      destruct (0 <? t2 - t1)%float eqn:Hd2; cbn;
      repeat split; intros; try discriminate; reflexivity.
  - rewrite Hrate. repeat split; intros; try discriminate; reflexivity.
Qed.

Lemma resent_after_failed_submission_witness :
  Forall2
    (fun m ts =>
       metric_type ts = type (requestDescriptor m) /\
       (is_rate m = false -> series_values ts = [value m]) /\
       (is_rate m = true -> (0 <? 2000 - 0)%float = true ->
        (0 <? 7000 - 2000)%float = true ->
        series_values ts =
        [JNum (ToNumber (value m) / (2000 - 0) * ToNumber (rateInterval m)
               / (7000 - 2000) * ToNumber (rateInterval m))]))
    (filter (fun m => is_rate m || is_defined (value m))
       (Map_values (metricsMap Scenario.after_writes)))
    (submitted
       (calls_of
          (_sendTimeSeries Scenario.accepting 7000
             (state_of (_sendTimeSeries Scenario.rejecting_series 2000
                          Scenario.after_writes))))).
Proof.
  exact (@resent_after_failed_submission Scenario.rejecting_series Scenario.accepting
           2000 7000 Scenario.after_writes (Rejected "UNAVAILABLE") eq_refl eq_refl).
Defined.

(** The sum 5 over 2 s was a rate of 2.5 per second; after the rejected
    submission the next flush, 5 s later, reports 0.5. *)
Example rate_after_failed_submission :
  map series_values
    (submitted
       (calls_of
          (sendValues Scenario.accepting 7000
             (state_of (sendValues Scenario.rejecting_series 2000
                          Scenario.after_rates)))))
  = [[JNum 0.5]].
Proof. reflexivity. Qed.

(* ------------------------------------------------------------------ *)
(** ** The timer callback and the reachable instances *)

Lemma interval_callback_state client now self :
  state_of (interval_callback client now self) = state_of (sendValues client now self) /\
  calls_of (interval_callback client now self) = calls_of (sendValues client now self).
Proof.
  unfold interval_callback, try_catch, bind, ret, complete.
  destruct (sendValues client now self) as [[[r|e] s] calls]; cbn;
    [rewrite app_nil_r; auto|].
  destruct (get_stack e); cbn; rewrite app_nil_r; auto.
Qed.

Lemma interval_callback_result client now self :
  result_of (interval_callback client now self) =
  match result_of (sendValues client now self) with
  | Normal _ => Normal tt
  | Throw e =>
      match get_stack e with
      | Normal _ => Normal tt
      | Throw e' => Throw e'
      end
  end.
Proof.
  unfold interval_callback, try_catch, bind, ret, complete.
  destruct (sendValues client now self) as [[[r|e] s] calls]; cbn; [reflexivity|].
  destruct (get_stack e); reflexivity.
Qed.

Lemma distinct_keys_kept (mm mm' : Map Metric)
    (P : string * Metric -> string * Metric -> Prop) :
  Forall2 (fun b a => fst a = fst b /\ P b a) mm mm' ->
  map fst mm' = map fst mm.
Proof. induction 1 as [|b a l l' [Hk _] _ IH]; cbn; congruence. Qed.

Lemma Map_mutate_forallb (p : string * Metric -> bool) k f mm m :
  Map_get k mm = Some m ->
  (forall k', p (k', m) = true -> p (k', f m) = true) ->
  forallb p mm = true -> forallb p (Map_mutate k f mm) = true.
Proof.
  intros Hget Hf. induction mm as [|[k' v] rest IH]; cbn in *; [reflexivity|].
  intros H. apply andb_prop in H. destruct H as [H1 H2].
  destruct (String.eqb k' k); cbn.
  - injection Hget as ->. rewrite (Hf k' H1), H2. reflexivity.
  - rewrite H1, (IH Hget H2). reflexivity.
Qed.

Lemma sound_metric_set_number k m x :
  sound_metric (k, m) = true -> sound_metric (k, set_value (JNum x) m) = true.
Proof.
  unfold sound_metric, is_rate. cbn.
  destruct (ToBoolean (rateInterval m)); [|auto].
  intros H. apply andb_prop in H. destruct H as [H1 H2].
  apply andb_prop in H2. destruct H2 as [H2 _].
  rewrite H1, H2. reflexivity.
Qed.

Lemma sound_metric_set_gauge k m v :
  is_rate m = false ->
  sound_metric (k, m) = true -> sound_metric (k, set_value v m) = true.
Proof.
  unfold sound_metric, is_rate. cbn. intros ->. auto.
Qed.

Lemma sound_createMetric metricName metricDescription metricType self :
  sound self = true ->
  sound (state_of (createMetric metricName metricDescription metricType self)) = true.
Proof.
  intros Hs. destruct (_getValueTypeForMetricType metricType) as [vt|e] eqn:Hvt.
  - rewrite (@createMetric_run metricName metricDescription metricType self vt Hvt).
    unfold sound in *. apply andb_prop in Hs. destruct Hs as [Hd Hm].
    cbn [state_of fst snd]. apply andb_true_intro. split.
    + apply NoDup_distinct. unfold keys. cbn. apply Map_set_NoDup.
      apply distinct_NoDup. exact Hd.
    + cbn [metricsMap set_metricsMap]. apply Map_set_forallb; [|exact Hm].
      destruct (rate_interval_table metricType) as (Htruthy & Hdouble & _).
      unfold sound_metric, is_rate. cbn. rewrite String.eqb_refl, String.eqb_refl.
      rewrite (@known_type_valueType metricType vt Hvt). rewrite Htruthy. cbn.
      destruct (is_defined (_getRateIntervalForMetricType metricType)) eqn:Hdef;
        [|reflexivity].
      specialize (Hdouble eq_refl). rewrite Hvt in Hdouble.
      injection Hdouble as ->. reflexivity.
  - unfold createMetric, bind, this, complete. rewrite Hvt. exact Hs.
Qed.

Lemma sound_writeMetric metricName v self :
  sound self = true -> sound (state_of (writeMetric metricName v self)) = true.
Proof.
  intros Hs. unfold writeMetric, bind, this.
  destruct (Map_get metricName (metricsMap self)) as [m|] eqn:Hget; [|exact Hs].
  unfold sound in *. apply andb_prop in Hs. destruct Hs as [Hd Hm].
  destruct (ToBoolean (rateInterval m)) eqn:Hrate; cbn;
    (apply andb_true_intro; split;
     [unfold keys; cbn; rewrite Map_mutate_keys; exact Hd|]).
  - clear Hd. revert Hm Hget. clear.
    induction (metricsMap self) as [|[k' m'] rest IH]; cbn; [reflexivity|].
    intros H Hget. apply andb_prop in H. destruct H as [H1 H2].
    destruct (String.eqb k' metricName); cbn.
    + rewrite H2, andb_true_r. apply sound_metric_set_number. exact H1.
    + rewrite H1. apply IH; assumption.
  - apply (@Map_mutate_forallb sound_metric metricName (set_value v)
             (metricsMap self) m Hget); [|exact Hm].
    intros k'. apply sound_metric_set_gauge. exact Hrate.
Qed.

Lemma sound_sendValues client timestamp self :
  sound self = true -> sound (state_of (sendValues client timestamp self)) = true.
Proof.
  intros Hs.
  pose proof (@sendValues_pointwise
                (fun b a => forall k, sound_metric (k, b) = true ->
                                      sound_metric (k, a) = true)) as H.
  assert (Hpt : Forall2 (fun b a => fst a = fst b /\
                           forall k, sound_metric (k, snd b) = true ->
                                     sound_metric (k, snd a) = true)
                  (metricsMap self)
                  (metricsMap (state_of (sendValues client timestamp self)))).
  { apply H; auto.
    - intros timestamp0 prev m k. unfold converted, convert_to_rate.
      destruct (is_rate m); [|auto].
      destruct (_ <? _)%float; apply sound_metric_set_number.
    - intros m k. unfold clear_value.
      destruct (ToBoolean (rateInterval m)) eqn:Hrate;
        [apply sound_metric_set_number|apply sound_metric_set_gauge; exact Hrate]. }
  unfold sound in *. apply andb_prop in Hs. destruct Hs as [Hd Hm].
  apply andb_true_intro. split.
  - unfold keys in *. rewrite (@distinct_keys_kept _ _ _ Hpt). exact Hd.
  - clear Hd H. revert Hm.
    induction Hpt as [|[kb b] [ka a] l l' [Hk Hr] _ IH]; cbn in *; [reflexivity|].
    intros Hm. apply andb_prop in Hm. destruct Hm as [H1 H2]. subst ka.
    rewrite (Hr kb H1), (IH H2). reflexivity.
Qed.

(** X19.  Every instance a program can build has distinct keys, and each of
    its metrics is stored under its name, carries one of the three value
    types (the one of its descriptor), and either is of a rate kind, with
    value type DOUBLE and a number for value (never [undefined]), or has
    no rate interval at all.  So every reachable instance is [typed]. *)
Theorem reachable_sound self :
  reachable self -> sound self = true /\ typed self = true.
Proof.
  intros Hreach.
  assert (Hsound : sound self = true).
  { induction Hreach as [| | | | |client now self Hreach IH].
    - reflexivity.
    - exact IHHreach.
    - apply sound_createMetric. exact IHHreach.
    - apply sound_writeMetric. exact IHHreach.
    - apply sound_sendValues. exact IHHreach.
    - rewrite (proj1 (interval_callback_state client now self)).
      apply sound_sendValues. exact IH. }
  split; [exact Hsound|].
  unfold sound in Hsound. apply andb_prop in Hsound. destruct Hsound as [_ Hm].
  unfold typed, Map_values. rewrite forallb_of_map.
  rewrite forallb_forall in *. intros kv Hin. specialize (Hm kv Hin).
  unfold sound_metric in Hm.
  repeat (apply andb_prop in Hm; destruct Hm as [Hm ?]). assumption.
Qed.

Lemma reachable_sound_witness :
  sound (state_of (sendValues Scenario.rejecting_series 2000 Scenario.after_writes))
  = true /\
  typed (state_of (sendValues Scenario.rejecting_series 2000 Scenario.after_writes))
  = true.
Proof.
  apply reachable_sound. apply reach_sendValues.
  exact (reach_writeMetric "queueDepth" (JNum 17)
           (reach_writeMetric "requests" (JNum 2)
              (reach_writeMetric "requests" (JNum 3)
                 (reach_createMetric "queueDepth" "Queue depth" TYPE_INT64
                    (reach_createMetric "requests" "Requests served"
                       TYPE_RATE_PER_SECOND
                       (reach_new "project" "testapp" "dev" "testapp" 0)))))).
Defined.

(* ------------------------------------------------------------------ *)
(** ** From writes to the values sent *)

Lemma Map_get_In V k (m : Map V) v : Map_get k m = Some v -> In v (Map_values m).
Proof.
  induction m as [|[k' v'] rest IH]; cbn; [discriminate|].
  destruct (String.eqb k' k); [intros [= ->]|]; auto.
Qed.

Lemma Forall2_In_l A B (R : A -> B -> Prop) l l' a :
  Forall2 R l l' -> In a l -> exists b, In b l' /\ R a b.
Proof.
  induction 1 as [|x y l l' Hxy _ IH]; intros Hin; [destruct Hin|].
  destruct Hin as [->|Hin]; [exists y; cbn; auto|].
  destruct (IH Hin) as (b & Hb & Hr). exists b. cbn. auto.
Qed.

(** Writes to one created metric, one after the other. *)
Lemma writes_fold metricName vs : forall self m,
  Map_get metricName (metricsMap self) = Some m ->
  let self' := fold_left (fun s v => state_of (writeMetric metricName v s)) vs self in
  Map_get metricName (metricsMap self') =
    Some (set_value (if is_rate m then fold_left JS.add vs (value m)
                     else last vs (value m)) m) /\
  shapes self' = shapes self /\
  prevSendTimestamp self' = prevSendTimestamp self.
Proof.
  induction vs as [|v rest IH]; intros self m Hm; cbn zeta.
  - cbn. destruct (is_rate m); rewrite set_value_same; auto.
  - cbn [fold_left].
    destruct (@writeMetric_present metricName v self m Hm) as (_ & _ & Hget & _).
    cbn zeta in Hget.
    destruct (IH (state_of (writeMetric metricName v self)) _ Hget)
      as (Hfinal & Hshapes & Hprev).
    cbn zeta in Hfinal, Hshapes, Hprev.
    rewrite Hfinal, Hshapes, Hprev, writeMetric_shapes. repeat split.
    + unfold is_rate. cbn [rateInterval set_value value].
      fold (is_rate m). f_equal.
      destruct (is_rate m); [reflexivity|].
      destruct rest as [|j rest]; [reflexivity|].
      rewrite (last_default_irrelevant rest j v (value m)). reflexivity.
    + unfold writeMetric, bind, this. rewrite Hm.
      destruct (ToBoolean (rateInterval m)); reflexivity.
Qed.

Lemma repeat_calls_writes h vs : forall self m,
  Map_get (_metricName h) (metricsMap self) = Some m ->
  repeat_calls writeRate h vs self =
  (Normal tt, h,
   fold_left (fun s v => state_of (writeMetric (_metricName h) v s)) vs self) /\
  repeat_calls write h vs self =
  (Normal tt, h,
   fold_left (fun s v => state_of (writeMetric (_metricName h) v s)) vs self).
Proof.
  induction vs as [|v rest IH]; intros self m Hm; [auto|].
  cbn [repeat_calls writeRate write fold_left].
  destruct (@writeMetric_present (_metricName h) v self m Hm) as (Hres & _ & Hget & _).
  cbn zeta in Hres, Hget.
  destruct (IH (state_of (writeMetric (_metricName h) v self)) _ Hget) as [H1 H2].
  destruct (writeMetric (_metricName h) v self) as [[r self1] calls].
  cbn [result_of state_of fst snd] in *. subst r. auto.
Qed.

Lemma submitted_for_metric client timestamp self metricName m :
  typed self = true ->
  Map_get metricName (metricsMap self) = Some m ->
  reported m = true ->
  exists ts,
    In ts (submitted (calls_of (_sendTimeSeries client timestamp self))) /\
    carries (converted timestamp (prevSendTimestamp self) m) ts.
Proof.
  intros Ht Hget Hrep.
  destruct (@timeSeriesData_typed timestamp self Ht) as (tsd & Heq & Hall).
  rewrite (@submitted_sendTimeSeries client timestamp self tsd Heq).
  pose proof (@Forall2_In_l _ _ _ _ _ m Hall) as H. cbn beta in H. apply H.
  apply filter_In. split; [|exact Hrep].
  eapply Map_get_In. exact Hget.
Qed.

(** X17.  A rate over a window, end to end.  After a flush at [t1] whose
    submission was accepted, [writeRate] calls with deltas through the
    handle of a rate-kind metric and a submission at [t2 > t1] send, for
    that metric, the sum of the deltas (added to 0 one after the other)
    divided by [t2 - t1] and multiplied by the rate interval. *)
Theorem rate_over_window client1 client2 t1 t2 self results h deltas m :
  typed self = true ->
  result_of (sendValues client1 t1 self) = Normal (Some results) ->
  let self1 := state_of (sendValues client1 t1 self) in
  Map_get (_metricName h) (metricsMap self1) = Some m ->
  is_rate m = true ->
  (0 <? t2 - t1)%float = true ->
  let self2 := snd (repeat_calls writeRate h deltas self1) in
  exists ts,
    In ts (submitted (calls_of (_sendTimeSeries client2 t2 self2))) /\
    metric_type ts = type (requestDescriptor m) /\
    series_values ts =
    [JNum (ToNumber (fold_left JS.add deltas (JNum 0)) / (t2 - t1)
           * ToNumber (rateInterval m))].
Proof.
  intros Ht Hres self1 Hget Hrate Hpos self2.
  (* the first flush *)
  assert (Hfirst : value m = JNum 0 /\ prevSendTimestamp self1 = t1).
  { unfold self1 in *. revert Hres Hget. rewrite sendValues_run.
    destruct (_sendCreateMetrics client1 t1 self) as [[[[]|e] s1] calls];
      [|discriminate].
    pose proof (sendTimeSeries_state client1 t1 s1) as Hst. cbn zeta in Hst.
    destruct (_sendTimeSeries client1 t1 s1) as [[r s2] calls'].
    cbn [result_of state_of fst snd] in *. intros ->. subst s2. intros Hget.
    split; [|reflexivity].
    apply Map_get_In in Hget. unfold after_clearing, set_metricsMap in Hget.
    cbn [metricsMap] in Hget. rewrite Map_values_forEach in Hget.
    apply in_map_iff in Hget. destruct Hget as (m0 & <- & _).
    destruct (clear_value_spec m0) as [Hv Hr]. rewrite Hr in Hrate.
    rewrite Hv, Hrate. reflexivity. }
  destruct Hfirst as [Hzero Hprev].
  (* the writes *)
  destruct (@repeat_calls_writes h deltas self1 m Hget) as [Hrun _].
  destruct (@writes_fold (_metricName h) deltas self1 m Hget)
    as (Hget2 & Hshapes & Hprev2).
  cbn zeta in Hget2, Hshapes, Hprev2.
  unfold self2. rewrite Hrun. cbn [snd].
  set (s2 := fold_left _ deltas self1) in *.
  rewrite Hrate, Hzero in Hget2.
  (* the submission *)
  assert (Ht2 : typed s2 = true).
  { rewrite (@typed_shapes s2 self1 Hshapes).
    rewrite (@typed_shapes self1 self (sendValues_shapes client1 t1 self)). exact Ht. }
  destruct (@submitted_for_metric client2 t2 s2 (_metricName h) _ Ht2 Hget2)
    as (ts & Hin & Hty & Hv).
  { unfold reported, is_rate. cbn [rateInterval set_value].
    fold (is_rate m). rewrite Hrate. reflexivity. }
  exists ts. split; [exact Hin|].
  rewrite Hprev2, Hprev in Hty, Hv. rewrite Hty, Hv.
  unfold converted, convert_to_rate, is_rate. cbn [rateInterval set_value value].
  fold (is_rate m). rewrite Hrate, Hpos. cbn. auto.
Qed.

Lemma rate_over_window_witness :
  exists ts,
    In ts
      (submitted
         (calls_of
            (_sendTimeSeries Scenario.accepting 6000
               (snd (repeat_calls writeRate Scenario.requests [JNum 7; JNum 1]
                       (state_of (sendValues Scenario.accepting 2000
                                    Scenario.after_writes))))))) /\
    metric_type ts = "custom.googleapis.com/testapp/requests" /\
    series_values ts =
    [JNum (ToNumber (fold_left JS.add [JNum 7; JNum 1] (JNum 0)) / (6000 - 2000)
           * ToNumber (JNum 1000))].
Proof.
  exact (@rate_over_window Scenario.accepting Scenario.accepting 2000 6000
           Scenario.after_writes "{}" Scenario.requests [JNum 7; JNum 1] _
           eq_refl eq_refl eq_refl eq_refl eq_refl).
Defined.

(** X18.  A gauge, end to end.  After [write] calls through the handle of a
    metric that is not of a rate kind, a submission sends for that metric
    the value written last, when that value is not [undefined]. *)
Theorem gauge_sent_last_written client timestamp self h vs m :
  typed self = true ->
  Map_get (_metricName h) (metricsMap self) = Some m ->
  is_rate m = false ->
  is_defined (last vs (value m)) = true ->
  let self' := snd (repeat_calls write h vs self) in
  exists ts,
    In ts (submitted (calls_of (_sendTimeSeries client timestamp self'))) /\
    metric_type ts = type (requestDescriptor m) /\
    series_values ts = [last vs (value m)].
Proof.
  intros Ht Hget Hrate Hdef self'.
  destruct (@repeat_calls_writes h vs self m Hget) as [_ Hrun].
  destruct (@writes_fold (_metricName h) vs self m Hget) as (Hget2 & Hshapes & _).
  cbn zeta in Hget2, Hshapes.
  unfold self'. rewrite Hrun. cbn [snd].
  set (s2 := fold_left _ vs self) in *. rewrite Hrate in Hget2.
  assert (Ht2 : typed s2 = true)
    by (rewrite (@typed_shapes s2 self Hshapes); exact Ht).
  destruct (@submitted_for_metric client timestamp s2 (_metricName h) _ Ht2 Hget2)
    as (ts & Hin & Hty & Hv).
  { unfold reported. cbn [value set_value]. rewrite Hdef. apply orb_true_r. }
  exists ts. split; [exact Hin|]. rewrite Hty, Hv.
  unfold converted, is_rate. cbn [rateInterval set_value].
  fold (is_rate m). rewrite Hrate. auto.
Qed.

Lemma gauge_sent_last_written_witness :
  exists ts,
    In ts
      (submitted
         (calls_of
            (_sendTimeSeries Scenario.accepting 6000
               (snd (repeat_calls write Scenario.queueDepth
                       [JNum 4; JNum 9; JNum 2] Scenario.with_both))))) /\
    metric_type ts = "custom.googleapis.com/testapp/queueDepth" /\
    series_values ts = [JNum 2].
Proof.
  exact (@gauge_sent_last_written Scenario.accepting 6000 Scenario.with_both
           Scenario.queueDepth [JNum 4; JNum 9; JNum 2] _
           eq_refl eq_refl eq_refl eq_refl).
Defined.

(** X14.  A flush, however it ends, and a write, whatever it is given, change
    nothing but values, response descriptors and [prevSendTimestamp]: no
    metric is added, removed or moved, and no metric changes its name,
    value type, request descriptor or rate interval; the project id, the
    application, environment and group names of the instance stay. *)
Theorem only_values_change :
  (forall client timestamp self,
     let self' := state_of (sendValues client timestamp self) in
     shapes self' = shapes self /\
     projectId self' = projectId self /\ appName self' = appName self /\
     envName self' = envName self /\ metricGroupName self' = metricGroupName self) /\
  (forall metricName v self,
     let self' := state_of (writeMetric metricName v self) in
     shapes self' = shapes self /\
     prevSendTimestamp self' = prevSendTimestamp self /\
     projectId self' = projectId self /\ appName self' = appName self /\
     envName self' = envName self /\ metricGroupName self' = metricGroupName self).
Proof.
  split.
  - intros client timestamp self self'. split; [apply sendValues_shapes|].
    unfold self'. rewrite sendValues_run.
    destruct (sendCreateMetrics_fields client timestamp self) as (_ & mm & Hst).
    destruct (_sendCreateMetrics client timestamp self) as [[r s1] calls].
    cbn [state_of fst snd] in Hst. subst s1.
    destruct r as [[]|e]; [|cbn; auto].
    pose proof (sendTimeSeries_state client timestamp (set_metricsMap mm self)) as H.
    cbn zeta in H.
    destruct (_sendTimeSeries client timestamp (set_metricsMap mm self))
      as [[r s2] calls'].
    cbn [result_of state_of fst snd] in *.
    destruct r as [[results|]|e]; subst s2; cbn; auto.
  - intros metricName v self self'. split; [apply writeMetric_shapes|].
    unfold self', writeMetric, bind, this.
    destruct (Map_get metricName (metricsMap self)) as [m|]; [|cbn; auto].
    destruct (ToBoolean (rateInterval m)); cbn; auto.
Qed.

(* ------------------------------------------------------------------ *)
(** ** The earlier variant *)

Lemma forwarding_count_totals
    (method : StackMetric -> jsval -> StackMetric * Eff unit)
    (Hmethod : forall h d, method h d = writeCount h d) deltas : forall h self m,
  Map_get (_metricName h) (metricsMap self) = Some m ->
  is_rate m = true ->
  exists self',
    repeat_calls method h deltas self =
    (Normal tt, mkStackMetric (_metricName h) (fold_left JS.add deltas (_count h)), self') /\
    Map_get (_metricName h) (metricsMap self') =
    Some (set_value (add_running_totals (_count h) deltas (value m)) m).
Proof.
  induction deltas as [|d rest IH]; intros h self m Hm Hrate.
  - exists self. cbn. rewrite set_value_same. destruct h; auto.
  - cbn [repeat_calls]. rewrite Hmethod. cbn [writeCount _metricName _count].
    destruct (@writeMetric_present (_metricName h) (JS.add (_count h) d) self m Hm)
      as (Hres & _ & Hget & _).
    cbn zeta in Hres, Hget. rewrite Hrate in Hget.
    destruct (writeMetric (_metricName h) (JS.add (_count h) d) self)
      as [[r self1] calls].
    cbn [result_of state_of fst snd] in *. subst r.
    destruct (IH (mkStackMetric (_metricName h) (JS.add (_count h) d)) self1 _
                Hget Hrate) as (self' & Hrun & Hfinal).
    cbn [_metricName _count] in Hrun, Hfinal.
    exists self'. split; [exact Hrun|]. rewrite Hfinal. reflexivity.
Qed.

(** X21.  In the earlier variant [writeRate] itself forwards the handle's
    count, and [writeCount] is [writeRate]: through either, the value of a
    rate-kind metric grows by the running totals of the deltas, not by the
    deltas. *)
Theorem legacy_writeRate_adds_totals deltas h self m :
  Map_get (_metricName h) (metricsMap self) = Some m ->
  is_rate m = true ->
  exists self',
    repeat_calls Legacy.writeRate h deltas self =
    (Normal tt, mkStackMetric (_metricName h) (fold_left JS.add deltas (_count h)), self') /\
    repeat_calls Legacy.writeCount h deltas self =
    (Normal tt, mkStackMetric (_metricName h) (fold_left JS.add deltas (_count h)), self') /\
    Map_get (_metricName h) (metricsMap self') =
    Some (set_value (add_running_totals (_count h) deltas (value m)) m).
Proof.
  intros Hm Hrate.
  destruct (@forwarding_count_totals Legacy.writeRate (fun _ _ => eq_refl)
              deltas h self m Hm Hrate) as (self' & Hrun & Hfinal).
  destruct (@forwarding_count_totals Legacy.writeCount (fun _ _ => eq_refl)
              deltas h self m Hm Hrate) as (self'' & Hrun' & _).
  exists self'. repeat split; [exact Hrun| |exact Hfinal].
  rewrite Hrun'. f_equal.
  assert (Hsame : repeat_calls Legacy.writeCount h deltas self =
                  repeat_calls Legacy.writeRate h deltas self) by reflexivity.
  rewrite Hsame, Hrun in Hrun'. congruence.
Qed.

Lemma legacy_writeRate_adds_totals_witness :
  exists self',
    repeat_calls Legacy.writeRate Scenario.requests [JNum 3; JNum 2] Legacy.with_both =
    (Normal tt, mkStackMetric "requests" (JNum 5), self') /\
    repeat_calls Legacy.writeCount Scenario.requests [JNum 3; JNum 2] Legacy.with_both =
    (Normal tt, mkStackMetric "requests" (JNum 5), self') /\
    Map_get "requests" (metricsMap self') =
    Some (set_value (JNum 8)
            (mkMetric "requests" "DOUBLE"
               (mkDescriptor "Requests served" "requests"
                  "custom.googleapis.com/testapp/requests" "GAUGE" "DOUBLE"
                  default_labels)
               None (JNum 1000) (JNum 0))).
Proof.
  exact (@legacy_writeRate_adds_totals [JNum 3; JNum 2] Scenario.requests
           Legacy.with_both _ eq_refl eq_refl).
Defined.

Lemma map_throwing_Throw A B (f : A -> completion B) l e :
  map_throwing f l = Throw e -> exists a, In a l /\ f a = Throw e.
Proof.
  induction l as [|a l IH]; cbn; [discriminate|].
  destruct (f a) as [b|e'] eqn:E; [|intros [= ->]; eauto].
  destruct (map_throwing f l) as [bs|e'']; [discriminate|].
  intros [= ->]. destruct (IH eq_refl) as (a' & Hin & Ha'). eauto.
Qed.

Lemma legacy_createDataPoint_cases vt sample :
  match Legacy._createDataPoint vt sample with
  | Throw e => sample = JUndefined /\ exists msg, e = TypeError msg
  | Normal None => known_valueType vt = false
  | Normal (Some p) =>
      known_valueType vt = true /\ sample <> JUndefined /\
      exists tv,
        p = mkPoint nan tv /\
        value_field tv = field_of_valueType vt /\
        match tv with
        | int64Value w | doubleValue w | boolValue w => w
        end = JUndefined
  end.
Proof.
  unfold Legacy._createDataPoint, known_valueType, field_of_valueType.
  destruct (vt =? VALUE_TYPE_INT64);
    [|destruct (vt =? VALUE_TYPE_DOUBLE);
      [|destruct (vt =? VALUE_TYPE_BOOL); [|reflexivity]]];
    destruct sample; cbn; (repeat split; eauto; try discriminate).
Qed.

Lemma legacy_sendTimeSeries_run client now now' self :
  Legacy._sendTimeSeries client now now' self =
  match map_throwing (Legacy._createTimeSeriesData (Legacy.after_division now now' self))
          (Map_values (metricsMap (Legacy.after_division now now' self))) with
  | Throw e => (Throw e, Legacy.after_division now now' self, [])
  | Normal tsd =>
      let request :=
        Legacy.mkTimeSeriesRequest
          (Legacy.projectPath client (projectId self)) tsd in
      if Nat.ltb 0 (List.length tsd) then
        match Legacy.createTimeSeries client request with
        | Normal results =>
            (Normal (Some results),
             set_metricsMap
               (Map_forEach Legacy.clear_rate
                  (metricsMap (Legacy.after_division now now' self)))
               (Legacy.after_division now now' self),
             [Legacy.CreateTimeSeries request])
        | Throw err =>
            (Normal None, Legacy.after_division now now' self,
             [Legacy.CreateTimeSeries request])
        end
      else (Normal None, Legacy.after_division now now' self, [])
  end.
Proof. reflexivity. Qed.

Lemma legacy_values_after_division now now' self :
  Map_values (metricsMap (Legacy.after_division now now' self)) =
  map (Legacy.divided now (prevSendTimestamp self)) (Map_values (metricsMap self)).
Proof. cbn. unfold Legacy.divide_rates. apply Map_values_forEach. Qed.

Lemma legacy_submitted_data client now now' self tsd :
  map_throwing (Legacy._createTimeSeriesData (Legacy.after_division now now' self))
    (Map_values (metricsMap (Legacy.after_division now now' self))) = Normal tsd ->
  Legacy.submitted (snd (Legacy._sendTimeSeries client now now' self)) = tsd.
Proof.
  intros H. rewrite legacy_sendTimeSeries_run, H. cbn zeta.
  destruct tsd as [|ts tsd]; [reflexivity|]. cbn [List.length Nat.ltb Nat.leb].
  destruct (Legacy.createTimeSeries client _); cbn; rewrite app_nil_r; reflexivity.
Qed.

(** X22.  What a submission of the earlier variant sends.  When every value
    type is known and no metric outside the rate kinds holds [undefined],
    there is one time series for every metric, written or not, and its
    single point carries no data: its [seconds] are NaN and its value is
    [undefined], because [_createDataPoint] reads [endTime] and [value]
    off the metric's value, which is a number or a boolean. *)
Theorem legacy_points_carry_nothing client now now' self :
  typed self = true ->
  Forall (fun m => is_rate m = false -> is_defined (value m) = true)
    (Map_values (metricsMap self)) ->
  Forall2
    (fun m ts =>
       Legacy.metric_type ts = type (requestDescriptor m) /\
       exists tv,
         Legacy.points ts = [Some (mkPoint nan tv)] /\
         value_field tv = field_of_valueType (valueType m) /\
         match tv with
         | int64Value w | doubleValue w | boolValue w => w
         end = JUndefined)
    (Map_values (metricsMap self))
    (Legacy.submitted (snd (Legacy._sendTimeSeries client now now' self))).
Proof.
  intros Ht Hdef.
  destruct (@map_throwing_Forall2 _ _
              (Legacy._createTimeSeriesData (Legacy.after_division now now' self))
              (fun m' ts =>
                 Legacy.metric_type ts = type (requestDescriptor m') /\
                 exists tv,
                   Legacy.points ts = [Some (mkPoint nan tv)] /\
                   value_field tv = field_of_valueType (valueType m') /\
                   match tv with
                   | int64Value w | doubleValue w | boolValue w => w
                   end = JUndefined)
              (map (Legacy.divided now (prevSendTimestamp self))
                 (Map_values (metricsMap self))))
    as (tsd & Heq & Hall).
  { intros m' Hin. apply in_map_iff in Hin. destruct Hin as (m & <- & Hin).
    unfold typed in Ht. rewrite forallb_forall in Ht. specialize (Ht m Hin).
    rewrite Forall_forall in Hdef. specialize (Hdef m Hin).
    set (m' := Legacy.divided now (prevSendTimestamp self) m).
    assert (Hvt : valueType m' = valueType m)
      by (unfold m', Legacy.divided; destruct (ToBoolean (rateInterval m)); reflexivity).
    assert (Hv : value m' <> JUndefined).
    { unfold m', Legacy.divided, is_rate in *.
      destruct (ToBoolean (rateInterval m)); cbn; [discriminate|].
      specialize (Hdef eq_refl). destruct (value m); discriminate. }
    unfold Legacy._createTimeSeriesData.
    pose proof (legacy_createDataPoint_cases (valueType m') (value m')) as Hc.
    destruct (Legacy._createDataPoint (valueType m') (value m')) as [[p|]|e].
    - destruct Hc as (_ & _ & tv & -> & Hfield & Hval).
      eexists. split; [reflexivity|]. cbn. split; [reflexivity|].
      exists tv. auto.
    - rewrite Hvt in Hc. congruence.
    - destruct Hc as [Hc _]. contradiction. }
  rewrite <- (legacy_values_after_division now now' self) in Heq.
  rewrite (@legacy_submitted_data client now now' self tsd Heq).
  apply Forall2_map_l in Hall.
  eapply Forall2_impl; [|exact Hall].
  intros m ts (Hty & tv & Hp & Hfield & Hval). unfold Legacy.divided in *.
  destruct (ToBoolean (rateInterval m)); cbn in *; eauto.
Qed.

Lemma legacy_points_carry_nothing_witness :
  Forall2
    (fun m ts =>
       Legacy.metric_type ts = type (requestDescriptor m) /\
       exists tv,
         Legacy.points ts = [Some (mkPoint nan tv)] /\
         value_field tv = field_of_valueType (valueType m) /\
         match tv with
         | int64Value w | doubleValue w | boolValue w => w
         end = JUndefined)
    (Map_values (metricsMap Legacy.after_writes))
    (Legacy.submitted
       (snd (Legacy._sendTimeSeries Legacy.accepting 2000 2001 Legacy.after_writes))).
Proof.
  refine (@legacy_points_carry_nothing Legacy.accepting 2000 2001 Legacy.after_writes
            eq_refl _).
  repeat constructor.
Defined.

Lemma record_responses_TypeError ds : forall mm e,
  fst (Legacy.record_responses ds mm) = Throw e -> exists msg, e = TypeError msg.
Proof.
  induction ds as [|d ds IH]; intros mm e; cbn; [discriminate|].
  destruct (Map_get (displayName d) mm); [apply IH|].
  cbn. intros [= <-]. eauto.
Qed.

Lemma legacy_sendTimeSeries_TypeError client now now' self e :
  fst (fst (Legacy._sendTimeSeries client now now' self)) = Throw e ->
  exists msg, e = TypeError msg.
Proof.
  rewrite legacy_sendTimeSeries_run.
  destruct (map_throwing _ _) as [tsd|e'] eqn:Hdata.
  - cbn zeta. destruct (Nat.ltb 0 (List.length tsd)); [|discriminate].
    destruct (Legacy.createTimeSeries client _); discriminate.
  - cbn. intros [= ->]. apply map_throwing_Throw in Hdata.
    destruct Hdata as (m & _ & Hm). unfold Legacy._createTimeSeriesData in Hm.
    pose proof (legacy_createDataPoint_cases (valueType m) (value m)) as Hc.
    destruct (Legacy._createDataPoint (valueType m) (value m)) as [p|e'];
      [discriminate|].
    injection Hm as ->. tauto.
Qed.

(** X23.  The earlier variant never lets a rejection of the client out of a
    flush: a rejected registration is logged and the flush returns
    [undefined] at once, with the instance as it was and no time series
    sent; a rejected submission is logged too; the only thing a flush can
    throw is a [TypeError] of its own. *)
Theorem legacy_flush_swallows_rejections client now now' self :
  (forall e, fst (fst (Legacy._sendValues client now now' self)) = Throw e ->
             exists msg, e = TypeError msg) /\
  (forall m e0,
     In m (pending self) ->
     Legacy.createMetricDescriptor client
       (mkDescriptorRequest (Legacy.projectPath client (projectId self))
          (requestDescriptor m)) = Throw e0 ->
     fst (Legacy._sendValues client now now' self) = (Normal None, self) /\
     Legacy.submitted (snd (Legacy._sendValues client now now' self)) = []).
Proof.
  unfold Legacy._sendValues. fold (pending self). split.
  - intros e. destruct (Promise_all _) as [ds|e']; [|discriminate].
    pose proof (record_responses_TypeError ds (metricsMap self)) as Hrec.
    destruct (Legacy.record_responses ds (metricsMap self)) as [[[]|e'] mm].
    + pose proof (@legacy_sendTimeSeries_TypeError client now now'
                    (set_metricsMap mm self)) as Hts.
      destruct (Legacy._sendTimeSeries client now now' (set_metricsMap mm self))
        as [[r s] calls]. exact (Hts e).
    + cbn. intros [= <-]. apply (Hrec e'). reflexivity.
  - intros m e0 Hin Hrej.
    assert (Hall : exists e,
      Promise_all
        (map (Legacy.createMetricDescriptor client)
           (map (fun metric =>
                   mkDescriptorRequest (Legacy.projectPath client (projectId self))
                     (requestDescriptor metric)) (pending self))) = Throw e).
    { apply Promise_all_Throw with (e0 := e0). rewrite <- Hrej. rewrite map_map.
      apply (in_map (fun x => Legacy.createMetricDescriptor client
                                (mkDescriptorRequest
                                   (Legacy.projectPath client (projectId self))
                                   (requestDescriptor x)))).
      exact Hin. }
    destruct Hall as [e ->]. cbn [fst snd]. split; [reflexivity|].
    clear. induction (pending self); cbn; auto.
Qed.

Lemma legacy_flush_swallows_rejections_witness :
  fst (Legacy._sendValues Legacy.rejecting_descriptors 2000 2001 Legacy.after_writes)
  = (Normal None, Legacy.after_writes) /\
  Legacy.submitted
    (snd (Legacy._sendValues Legacy.rejecting_descriptors 2000 2001 Legacy.after_writes))
  = [].
Proof.
  refine (proj2 (@legacy_flush_swallows_rejections Legacy.rejecting_descriptors
                   2000 2001 Legacy.after_writes)
            (hd (mkMetric "" "" (mkDescriptor "" "" "" "" "" []) None JUndefined JUndefined)
                (pending Legacy.after_writes))
            (Rejected "PERMISSION_DENIED") _ eq_refl).
  left. reflexivity.
Defined.

(** X24.  What a submission of the earlier variant leaves.  [prevSendTimestamp]
    is the second reading of the clock; a metric that is not of a rate kind
    is as it was, whatever the outcome (its value is never cleared); a
    rate-kind metric holds 0 when the request was accepted, and otherwise
    its sum divided by the time since the last submission (not multiplied
    by the rate interval, and divided also when that time is not
    positive). *)
Theorem legacy_submission_state client now now' self :
  let run := Legacy._sendTimeSeries client now now' self in
  prevSendTimestamp (snd (fst run)) = now' /\
  Forall2
    (fun before after =>
       fst after = fst before /\
       (is_rate (snd before) = false -> snd after = snd before) /\
       (is_rate (snd before) = true ->
        snd after =
        set_value
          match fst (fst run) with
          | Normal (Some _) => JNum 0
          | _ => JNum (ToNumber (value (snd before)) / (now - prevSendTimestamp self))
          end (snd before)))
    (metricsMap self) (metricsMap (snd (fst run))).
Proof.
  cbn zeta. rewrite legacy_sendTimeSeries_run.
  assert (Hdiv : forall (final : jsval -> jsval) (mm : Map Metric),
    Forall2
      (fun before after =>
         fst after = fst before /\
         (is_rate (snd before) = false -> snd after = snd before) /\
         (is_rate (snd before) = true ->
          snd after =
          set_value
            (final (JNum (ToNumber (value (snd before)) / (now - prevSendTimestamp self))))
            (snd before)))
      mm
      (map (fun kv => (fst kv,
                       if ToBoolean (rateInterval (snd kv))
                       then set_value
                              (final (JNum (ToNumber (value (snd kv))
                                            / (now - prevSendTimestamp self))))
                              (snd kv)
                       else snd kv)) mm)).
  { intros final mm. induction mm as [|[k m] rest IH]; constructor; [|exact IH].
    cbn. unfold is_rate. destruct (ToBoolean (rateInterval m));
      repeat split; auto; discriminate. }
  destruct (map_throwing _ _) as [tsd|e]; cbn zeta.
  - destruct (Nat.ltb 0 (List.length tsd)).
    + destruct (Legacy.createTimeSeries client _) as [results|err];
        cbn [fst snd]; (split; [reflexivity|]).
      * cbn [metricsMap set_metricsMap Legacy.after_division set_prevSendTimestamp].
        unfold Legacy.divide_rates, Map_forEach. rewrite map_map.
        pose proof (Hdiv (fun _ => JNum 0) (metricsMap self)) as H.
        cbn beta in H.
        erewrite map_ext; [exact H|].
        intros [k m]. cbn. unfold Legacy.clear_rate.
        destruct (ToBoolean (rateInterval m)) eqn:E; cbn; rewrite E; reflexivity.
      * exact (Hdiv (fun v => v) (metricsMap self)).
    + cbn [fst snd]. split; [reflexivity|].
      exact (Hdiv (fun v => v) (metricsMap self)).
  - cbn [fst snd]. split; [reflexivity|].
    exact (Hdiv (fun v => v) (metricsMap self)).
Qed.

(** In the earlier variant the gauge written 17 is still 17 after an
    accepted flush, and is sent again by the next one. *)
Example legacy_gauge_kept :
  map value
    (Map_values
       (metricsMap
          (snd (fst (Legacy._sendValues Legacy.accepting 2000 2001 Legacy.after_writes)))))
  = [JNum 0; JNum 17].
Proof. reflexivity. Qed.

(* ------------------------------------------------------------------ *)
(** ** What a flush can throw *)

Lemma Promise_all_Throw_inv A (ps : list (completion A)) e :
  Promise_all ps = Throw e -> In (Throw e) ps.
Proof.
  induction ps as [|p ps IH]; cbn; [discriminate|].
  destruct p as [a|e']; [|intros [= ->]; auto].
  destruct (Promise_all ps) as [l|e'']; [discriminate|].
  intros [= ->]. auto.
Qed.

Lemma forEach_record_TypeError ds : forall self e,
  result_of (forEach record_response ds self) = Throw e -> exists msg, e = TypeError msg.
Proof.
  induction ds as [|d ds IH]; intros self e; [discriminate|].
  rewrite forEach_record_cons.
  destruct (Map_get _ (metricsMap self)); [apply IH|].
  cbn. intros [= <-]. eauto.
Qed.

(** X25.  What a flush throws, over an instance whose value types are known,
    is the rejection of one of the requests it sent, handed on as it is
    (that of a [createMetricDescriptor] request, or that of the
    [createTimeSeries] request), or else the [TypeError] of a response that
    names no metric: building the data points never throws there. *)
Theorem flush_throws_rejections client timestamp self e :
  typed self = true ->
  result_of (sendValues client timestamp self) = Throw e ->
  (exists req,
     In (CreateMetricDescriptor req) (calls_of (sendValues client timestamp self)) /\
     createMetricDescriptor client req = Throw e) \/
  (exists msg, e = TypeError msg) \/
  (exists req,
     In (CreateTimeSeries req) (calls_of (sendValues client timestamp self)) /\
     createTimeSeries client req = Throw e).
Proof.
  intros Ht. rewrite sendValues_run, sendCreateMetrics_run. cbn zeta.
  destruct (Promise_all _) as [ds|e'] eqn:Hall.
  - pose proof (forEach_record_TypeError ds self) as Hrec.
    pose proof (forEach_record_shapes ds self) as Hshapes.
    destruct (forEach record_response ds self) as [[[[]|e'] s1] calls].
    + cbn [state_of fst snd] in Hshapes.
      assert (Ht1 : typed s1 = true)
        by (rewrite (@typed_shapes s1 self Hshapes); exact Ht).
      destruct (@timeSeriesData_typed timestamp s1 Ht1) as (tsd & Heq & _).
      rewrite sendTimeSeries_run. cbn zeta. rewrite Heq.
      destruct (Nat.ltb 0 (List.length tsd)); [|discriminate].
      destruct (createTimeSeries client _) as [results|e''] eqn:Hts; [discriminate|].
      cbn. intros [= ->]. right. right. eexists. split; [|exact Hts].
      apply in_or_app. right. left. reflexivity.
    + cbn. intros [= <-]. right. left. apply (Hrec e'). reflexivity.
  - cbn. intros [= <-]. left.
    apply Promise_all_Throw_inv in Hall. apply in_map_iff in Hall.
    destruct Hall as (req & Hreq & Hin). exists req. split; [|exact Hreq].
    apply in_map. exact Hin.
Qed.

Lemma flush_throws_rejections_witness :
  (exists req,
     In (CreateMetricDescriptor req)
        (calls_of (sendValues Scenario.rejecting_series 2000 Scenario.after_writes)) /\
     createMetricDescriptor Scenario.rejecting_series req
     = Throw (Rejected "UNAVAILABLE")) \/
  (exists msg, Rejected "UNAVAILABLE" = TypeError msg) \/
  (exists req,
     In (CreateTimeSeries req)
        (calls_of (sendValues Scenario.rejecting_series 2000 Scenario.after_writes)) /\
     createTimeSeries Scenario.rejecting_series req = Throw (Rejected "UNAVAILABLE")).
Proof.
  exact (@flush_throws_rejections Scenario.rejecting_series 2000 Scenario.after_writes
           (Rejected "UNAVAILABLE") eq_refl eq_refl).
Defined.

(* ------------------------------------------------------------------ *)
(** ** One firing of the interval timer *)

Lemma createTimeSeriesData_Error self timestamp m e :
  _createTimeSeriesData self timestamp m = Throw e -> exists msg, e = Error msg.
Proof.
  unfold _createTimeSeriesData, _createDataPoint.
  destruct (valueType m =? VALUE_TYPE_INT64); [discriminate|].
  destruct (valueType m =? VALUE_TYPE_DOUBLE); [discriminate|].
  destruct (valueType m =? VALUE_TYPE_BOOL); [discriminate|].
  intros [= <-]. eauto.
Qed.

(** Where a value thrown by a flush comes from, whatever the instance. *)
Lemma flush_throw_origin client timestamp self e :
  result_of (sendValues client timestamp self) = Throw e ->
  (exists req,
     In (CreateMetricDescriptor req) (calls_of (sendValues client timestamp self)) /\
     createMetricDescriptor client req = Throw e) \/
  (exists msg, e = TypeError msg) \/
  (exists msg, e = Error msg) \/
  (exists req,
     In (CreateTimeSeries req) (calls_of (sendValues client timestamp self)) /\
     createTimeSeries client req = Throw e).
Proof.
  rewrite sendValues_run, sendCreateMetrics_run. cbn zeta.
  destruct (Promise_all _) as [ds|e'] eqn:Hall.
  - pose proof (forEach_record_TypeError ds self) as Hrec.
    destruct (forEach record_response ds self) as [[[[]|e'] s1] calls].
    + rewrite sendTimeSeries_run. cbn zeta.
      destruct (map_throwing _ _) as [tsd|e'] eqn:Htsd.
      * destruct (Nat.ltb 0 (List.length tsd)); [|discriminate].
        destruct (createTimeSeries client _) as [results|e''] eqn:Hts; [discriminate|].
        cbn. intros [= ->]. right. right. right. eexists. split; [|exact Hts].
        apply in_or_app. right. left. reflexivity.
      * cbn. intros [= <-]. right. right. left.
        destruct (@map_throwing_Throw _ _ _ _ _ Htsd) as (m & _ & Hm).
        exact (@createTimeSeriesData_Error _ _ _ _ Hm).
    + cbn. intros [= <-]. right. left. apply (Hrec e'). reflexivity.
  - cbn. intros [= <-]. left.
    apply Promise_all_Throw_inv in Hall. apply in_map_iff in Hall.
    destruct Hall as (req & Hreq & Hin). exists req. split; [|exact Hreq].
    apply in_map. exact Hin.
Qed.

(** X20.  One firing of the interval timer, run on its own.  The callback
    leaves the instance, and sends the requests, exactly as the flush
    does.  It completes when the flush completes, and also when the flush
    throws an error of the library or a rejection whose reason is neither
    [undefined] nor [null]: the failure is logged and dropped.  When the
    flush rejects with [undefined] or [null], which is then the reason
    with which the client rejected a request this flush sent, the
    callback itself throws the [TypeError] of reading [err.stack] in its
    handler.  These are the only throws of the callback. *)
Theorem timer_callback_outcome client now self :
  let flush := sendValues client now self in
  let run := interval_callback client now self in
  state_of run = state_of flush /\
  calls_of run = calls_of flush /\
  (forall r, result_of flush = Normal r -> result_of run = Normal tt) /\
  (forall e, result_of flush = Throw e ->
     (forall null, e <> RejectedNullish null) -> result_of run = Normal tt) /\
  (forall null, result_of flush = Throw (RejectedNullish null) ->
     (exists msg, result_of run = Throw (TypeError msg)) /\
     ((exists req,
         In (CreateMetricDescriptor req) (calls_of flush) /\
         createMetricDescriptor client req = Throw (RejectedNullish null)) \/
      (exists req,
         In (CreateTimeSeries req) (calls_of flush) /\
         createTimeSeries client req = Throw (RejectedNullish null)))) /\
  (forall e, result_of run = Throw e ->
     exists null, result_of flush = Throw (RejectedNullish null)).
Proof.
  cbn zeta.
  destruct (interval_callback_state client now self) as [Hst Hcalls].
  pose proof (interval_callback_result client now self) as Hres.
  pose proof (@flush_throw_origin client now self) as Horigin.
  repeat split; try assumption.
  - intros r Hr. rewrite Hres, Hr. reflexivity.
  - intros e He Hne. rewrite Hres, He.
    destruct e as [msg|msg|reason|null]; try reflexivity.
    destruct (Hne null eq_refl).
  - rewrite Hres, H. cbn. eauto.
  - destruct (Horigin _ H) as [Hreg|[[msg Hmsg]|[[msg Hmsg]|Hts]]];
      try discriminate; auto.
  - intros e. rewrite Hres.
    destruct (result_of (sendValues client now self)) as [r|e']; [discriminate|].
    destruct e' as [msg|msg|reason|null]; try discriminate. eauto.
Qed.

(** A rejected submission is logged and dropped; a submission rejected
    with [undefined] makes the callback throw.  Both leave the instance
    as the flush left it, the rates converted. *)
Example timer_callback_on_rejections :
  result_of (interval_callback Scenario.rejecting_series 2000 Scenario.after_writes)
  = Normal tt /\
  result_of (interval_callback Edge.rejecting_with_undefined 2000 Scenario.after_writes)
  = Throw (TypeError "Cannot read properties of undefined (reading 'stack')") /\
  map (fun kv => value (snd kv))
    (metricsMap
       (state_of (interval_callback Edge.rejecting_with_undefined 2000
                    Scenario.after_writes)))
  = [JNum 2.5; JNum 17].
Proof. repeat split; reflexivity. Qed.
